(** * TaskMaster backend: todo repository, auth middleware and HTTP routes

    A shallow embedding of [models/Todo.js], [middleware/auth.js],
    [routes/auth.js] and [routes/todos.js].  The document database is a pair
    of lists (collections in natural order), every request handler is a
    function from the request and the store to a response and the next
    store.  Time ([new Date()]) and fresh identifiers are explicit inputs of
    the handlers that read them. *)

From Stdlib Require Import ZArith List String Ascii Bool Lia.
From Stdlib Require Import Sorting.Sorted Sorting.Permutation.
From Stdlib Require Import Decimal DecimalString.
Import ListNotations.
Open Scope string_scope.
Open Scope list_scope.
Open Scope Z_scope.

(** ** JavaScript primitives used by the handlers *)

Module JS.

(** Strings are sequences of code units; the model keeps the code units
    below 256, which is where every character the handlers inspect
    lives. *)
Definition code (c : ascii) : Z := Z.of_nat (nat_of_ascii c).

(** [WhiteSpace] and [LineTerminator] code units: TAB, LF, VT, FF, CR,
    SP and NBSP. *)
Definition isWhiteSpace (c : ascii) : bool :=
  let n := code c in
  ((9 <=? n) && (n <=? 13)) || (n =? 32) || (n =? 160).

Fixpoint trimStart (s : string) : string :=
  match s with
  | EmptyString => EmptyString
  | String c r => if isWhiteSpace c then trimStart r else s
  end.

Fixpoint rev_string (acc s : string) : string :=
  match s with
  | EmptyString => acc
  | String c r => rev_string (String c acc) r
  end.

Definition trimEnd (s : string) : string :=
  rev_string "" (trimStart (rev_string "" s)).

(** [String.prototype.trim] *)
Definition trim (s : string) : string := trimEnd (trimStart s).

(** Truthiness of a string value: only the empty string is falsy. *)
Definition truthy (s : string) : bool :=
  match s with EmptyString => false | _ => true end.

(** Truthiness of a possibly [undefined] string value. *)
Definition truthy_opt (o : option string) : bool :=
  match o with Some s => truthy s | None => false end.

(** [a || b] on possibly [undefined] strings with a string default. *)
Definition or_default (o : option string) (d : string) : string :=
  match o with
  | Some s => if truthy s then s else d
  | None => d
  end.

(** Case folding, for the ASCII letters. *)
Definition toLowerChar (c : ascii) : ascii :=
  let n := code c in
  if (65 <=? n) && (n <=? 90) then ascii_of_nat (nat_of_ascii c + 32) else c.

Fixpoint toLowerCase (s : string) : string :=
  match s with
  | EmptyString => EmptyString
  | String c r => String (toLowerChar c) (toLowerCase r)
  end.

(** Value of a code unit as a digit of the given radix. *)
Definition digitValue (radix : Z) (c : ascii) : option Z :=
  let n := code c in
  let d :=
    if (48 <=? n) && (n <=? 57) then Some (n - 48)
    else if (97 <=? n) && (n <=? 122) then Some (n - 87)
    else if (65 <=? n) && (n <=? 90) then Some (n - 55)
    else None in
  match d with
  | Some v => if v <? radix then Some v else None
  | None => None
  end.

(** The longest prefix of [s] made of digits of the radix, as digit
    values. *)
Fixpoint digitsPrefix (radix : Z) (s : string) : list Z :=
  match s with
  | EmptyString => []
  | String c r =>
      match digitValue radix c with
      | Some v => v :: digitsPrefix radix r
      | None => []
      end
  end.

Definition digitsValue (radix : Z) (ds : list Z) : Z :=
  fold_left (fun acc d => acc * radix + d) ds 0.

(** The Number values the handlers compute with: [NaN], the integers a
    double holds, and the two infinities. *)
Inductive Number : Type :=
| NaN
| Num (z : Z)
| Infinity (negative : bool).

(** The Number nearest to a mathematical integer: the integer itself
    below [2^53] in size, and above it the nearest multiple of the power
    of two that leaves 53 significant bits, ties going to the even one;
    what rounds to [2^1024] or more is infinite. *)
Definition toNumber (z : Z) : Number :=
  let a := Z.abs z in
  if a <? 2 ^ 53 then Num z
  else
    let e := Z.log2 a - 52 in
    let q := Z.shiftr a e in
    let rest := a - Z.shiftl q e in
    let half := Z.shiftl 1 (e - 1) in
    let q' := if (half <? rest) || ((rest =? half) && Z.odd q)
              then q + 1 else q in
    let r := Z.shiftl q' e in
    if Z.shiftl 1 1024 <=? r then Infinity (z <? 0)
    else Num (Z.sgn z * r).

(** [parseInt(string)] with no radix argument (ECMA-262, 19.2.5): leading
    white space is skipped, an optional sign is read, a [0x]/[0X] prefix
    selects radix 16, and the longest digit prefix is converted to the
    nearest Number (as V8 does, for digit strings of any length); with no
    digit the result is [NaN]. *)
Definition parseInt (input : string) : Number :=
  let s := trimStart input in
  let '(sign, s1) :=
    match s with
    | String "-" r => (-1, r)
    | String "+" r => (1, r)
    | _ => (1, s)
    end in
  let '(radix, s2) :=
    match s1 with
    | String "0" (String "x" r) => (16, r)
    | String "0" (String "X" r) => (16, r)
    | _ => (10, s1)
    end in
  match digitsPrefix radix s2 with
  | [] => NaN
  | ds => toNumber (sign * digitsValue radix ds)
  end.

(** [parseInt(undefined)] converts its argument to the string
    ["undefined"] first. *)
Definition parseInt_opt (o : option string) : Number :=
  match o with
  | Some s => parseInt s
  | None => parseInt "undefined"
  end.

(** [parseInt(x) || d]: [NaN] and [0] are falsy. *)
Definition parseInt_or (o : option string) (d : Z) : Number :=
  match parseInt_opt o with
  | NaN => Num d
  | Num 0 => Num d
  | n => n
  end.

(** Whether a Number is below zero. *)
Definition isNegative (n : Number) : bool :=
  match n with
  | NaN => false
  | Num z => z <? 0
  | Infinity negative => negative
  end.

(** [total > skip + length], for two counts and the Number between
    them.  The counts are exact Numbers (a collection holds fewer than
    [2^53] documents) and a page is empty unless the skip is below the
    count, so the sum is the sum of the integers. *)
Definition exceeds (total : nat) (skip : Number) (length : nat) : bool :=
  match skip with
  | NaN => false
  | Num s => Z.of_nat total >? s + Z.of_nat length
  | Infinity negative => negative
  end.

(** Decimal rendering of a count inside a template literal. *)
Definition string_of_nat (n : nat) : string :=
  NilEmpty.string_of_uint (Nat.to_uint n).

End JS.

(** ** Outcomes of calls that may throw *)

(** A validator message: the literal messages of a schema, and the two
    messages Mongoose builds itself (enum and cast failures), kept by the
    path and value they mention. *)
Inductive Message : Type :=
| Msg (text : string)
| EnumMsg (path value : string)
| CastMsg (path : string).

(** Thrown errors, by [name]. *)
Inductive Error : Type :=
| ValidationError (messages : list Message)
| CastError
| MongoServerError.

Inductive Outcome (A : Type) : Type :=
| Returns (a : A)
| Throws (e : Error).
Arguments Returns {A} a.
Arguments Throws {A} e.

Definition ObjectId : Type := string.

(** An id as a request carries it, in the path or in a body: text that
    casts to an [ObjectId], kept as the [ObjectId] it casts to, or text
    that does not. *)
Inductive RawId : Type :=
| Id (id : ObjectId)
| NotAnId (text : string).

(** A [Date] is its time value, milliseconds since the epoch. *)
Definition Date : Type := Z.

(** ** The explicit part of the [$regex] operator

    Patterns made of ordinary characters and [.] are matched by the
    functions below; every other pattern is handed to the platform's PCRE
    engine (see [Platform]). *)

Module Regex.

Inductive atom : Type :=
| Lit (c : ascii)
| AnyChar.

(** Characters with a special meaning in a PCRE pattern. *)
Definition metachars : list ascii :=
  list_ascii_of_string "\^$.|?*+()[]{}".

Definition isMeta (c : ascii) : bool :=
  existsb (Ascii.eqb c) metachars.

Fixpoint compile (p : string) : option (list atom) :=
  match p with
  | EmptyString => Some []
  | String c r =>
      if Ascii.eqb c "." then option_map (cons AnyChar) (compile r)
      else if isMeta c then None
      else option_map (cons (Lit c)) (compile r)
  end.

(** One pattern atom against one subject character, with the [i] option
    when [caseless]; [.] matches anything but a line feed. *)
Definition atomMatch (caseless : bool) (a : atom) (c : ascii) : bool :=
  match a with
  | Lit x =>
      if caseless then Ascii.eqb (JS.toLowerChar x) (JS.toLowerChar c)
      else Ascii.eqb x c
  | AnyChar => negb (Ascii.eqb c "010")
  end.

Fixpoint matchHere (caseless : bool) (p : list atom) (t : string) : bool :=
  match p, t with
  | [], _ => true
  | _ :: _, EmptyString => false
  | a :: p', String c t' => atomMatch caseless a c && matchHere caseless p' t'
  end.

(** Unanchored match: the pattern may start at any offset. *)
Fixpoint search (caseless : bool) (p : list atom) (t : string) : bool :=
  matchHere caseless p t ||
  match t with
  | EmptyString => false
  | String _ t' => search caseless p t'
  end.

End Regex.

(** ** External collaborators

    The libraries the handlers call and the parts of [models/User.js] that
    are configuration rather than logic. *)

Record Payload : Type := {
  userId : ObjectId;
  type : option string
}.

(** Errors thrown by [jwt.verify], by [name]. *)
Inductive JwtError : Type :=
| TokenExpiredError
| JsonWebTokenError
| NotBeforeError.

Record Platform : Type := {
  (** PCRE with the [i] option on patterns outside [Regex.compile]: the
      compiled matcher of a pattern, [None] when it does not compile. *)
  pcre : string -> option (string -> bool);
  (** [new Date(string)]; [None] is an invalid date. *)
  parseDate : string -> option Date;
  (** [jwt.sign(payload, secret, { expiresIn })] at a given time. *)
  jwt_sign : Payload -> string -> string -> Date -> string;
  (** [jwt.verify(token, secret)] at a given time. *)
  jwt_verify : string -> string -> Date -> Payload + JwtError
}.

(** [{ $regex: pattern, $options: 'i' }]: the test it applies to a string
    field. *)
Definition regexCompile (P : Platform) (pattern : string)
  : option (string -> bool) :=
  match Regex.compile pattern with
  | Some atoms => Some (Regex.search true atoms)
  | None => pcre P pattern
  end.

Definition bind {A B : Type} (m : Outcome A) (k : A -> Outcome B)
  : Outcome B :=
  match m with
  | Returns a => k a
  | Throws e => Throws e
  end.

Notation "x <- m ;; k" := (bind m (fun x => k))
  (at level 61, m at next level, right associativity).

(** ** models/Todo.js *)

Module Todo.

Record t : Type := {
  _id : ObjectId;
  title : string;
  description : string;
  completed : bool;
  priority : string;
  dueDate : option Date;
  completedAt : option Date;
  user : ObjectId;
  tags : list string;
  category : string;
  createdAt : Date;
  updatedAt : Date
}.

Definition eq_dec (a b : t) : {a = b} + {a <> b}.
Proof.
  decide equality;
    try apply string_dec; try apply Z.eq_dec; try apply bool_dec;
    try (apply list_eq_dec; apply string_dec);
    decide equality; apply Z.eq_dec.
Defined.

Definition set_completed (v : bool) (d : t) : t :=
  {| _id := _id d; title := title d; description := description d;
     completed := v; priority := priority d; dueDate := dueDate d;
     completedAt := completedAt d; user := user d; tags := tags d;
     category := category d; createdAt := createdAt d;
     updatedAt := updatedAt d |}.

Definition set_completedAt (v : option Date) (d : t) : t :=
  {| _id := _id d; title := title d; description := description d;
     completed := completed d; priority := priority d; dueDate := dueDate d;
     completedAt := v; user := user d; tags := tags d;
     category := category d; createdAt := createdAt d;
     updatedAt := updatedAt d |}.

Definition set_priority (v : string) (d : t) : t :=
  {| _id := _id d; title := title d; description := description d;
     completed := completed d; priority := v; dueDate := dueDate d;
     completedAt := completedAt d; user := user d; tags := tags d;
     category := category d; createdAt := createdAt d;
     updatedAt := updatedAt d |}.

Definition set_dueDate (v : option Date) (d : t) : t :=
  {| _id := _id d; title := title d; description := description d;
     completed := completed d; priority := priority d; dueDate := v;
     completedAt := completedAt d; user := user d; tags := tags d;
     category := category d; createdAt := createdAt d;
     updatedAt := updatedAt d |}.

Definition set_updatedAt (v : Date) (d : t) : t :=
  {| _id := _id d; title := title d; description := description d;
     completed := completed d; priority := priority d; dueDate := dueDate d;
     completedAt := completedAt d; user := user d; tags := tags d;
     category := category d; createdAt := createdAt d;
     updatedAt := v |}.

(** The string paths below carry [trim: true]: the schema setter trims
    on assignment. *)
Definition set_title (v : string) (d : t) : t :=
  {| _id := _id d; title := JS.trim v; description := description d;
     completed := completed d; priority := priority d; dueDate := dueDate d;
     completedAt := completedAt d; user := user d; tags := tags d;
     category := category d; createdAt := createdAt d;
     updatedAt := updatedAt d |}.

Definition set_description (v : string) (d : t) : t :=
  {| _id := _id d; title := title d; description := JS.trim v;
     completed := completed d; priority := priority d; dueDate := dueDate d;
     completedAt := completedAt d; user := user d; tags := tags d;
     category := category d; createdAt := createdAt d;
     updatedAt := updatedAt d |}.

Definition set_category (v : string) (d : t) : t :=
  {| _id := _id d; title := title d; description := description d;
     completed := completed d; priority := priority d; dueDate := dueDate d;
     completedAt := completedAt d; user := user d; tags := tags d;
     category := JS.trim v; createdAt := createdAt d;
     updatedAt := updatedAt d |}.

Definition set_tags (v : list string) (d : t) : t :=
  {| _id := _id d; title := title d; description := description d;
     completed := completed d; priority := priority d; dueDate := dueDate d;
     completedAt := completedAt d; user := user d; tags := map JS.trim v;
     category := category d; createdAt := createdAt d;
     updatedAt := updatedAt d |}.

(** [enum: ['low', 'medium', 'high']] *)
Definition priorityEnum : list string := ["low"; "medium"; "high"].

Definition maxlength (n : nat) (message : string) (v : string)
  : list Message :=
  if (String.length v <=? n)%nat then [] else [Msg message].

(** The schema's validators, run by [save] before the hooks. *)
Definition validate (d : t) : list Message :=
  (if JS.truthy (title d) then [] else [Msg "Todo title is required"])
  ++ maxlength 200 "Todo title cannot exceed 200 characters" (title d)
  ++ maxlength 1000 "Todo description cannot exceed 1000 characters"
       (description d)
  ++ (if existsb (String.eqb (priority d)) priorityEnum then []
      else [EnumMsg "priority" (priority d)])
  ++ flat_map (maxlength 30 "Tag cannot exceed 30 characters") (tags d)
  ++ maxlength 50 "Category cannot exceed 50 characters" (category d).

Definition isSet (v : option Date) : bool :=
  match v with Some _ => true | None => false end.

(** [todoSchema.pre('save', ...)]: [modified] is
    [this.isModified('completed')]; a [Date] object is always truthy, so
    [!this.completedAt] holds exactly for [null]. *)
Definition preSave (now : Date) (modified : bool) (d : t) : t :=
  if modified then
    if completed d && negb (isSet (completedAt d)) then
      set_completedAt (Some now) d
    else if negb (completed d) then
      set_completedAt None d
    else d
  else d.

(** [new Todo({ title, description, priority, dueDate, category, tags,
    user })]: the other paths take their schema defaults.  The
    timestamps are filled by [save]. *)
Definition create (id : ObjectId) (title0 description0 priority0 : string)
    (dueDate0 : option Date) (category0 : string) (tags0 : list string)
    (user0 : ObjectId) : t :=
  {| _id := id; title := JS.trim title0; description := JS.trim description0;
     completed := false; priority := priority0; dueDate := dueDate0;
     completedAt := None; user := user0; tags := map JS.trim tags0;
     category := JS.trim category0; createdAt := 0; updatedAt := 0 |}.

End Todo.

(** The todo collection, in natural (insertion) order. *)
Definition Todos : Type := list Todo.t.

Definition findById (id : ObjectId) (db : Todos) : option Todo.t :=
  find (fun d => String.eqb (Todo._id d) id) db.

(** The write of a loaded document: it takes the place of the stored
    document with its [_id]. *)
Fixpoint replaceDoc (d : Todo.t) (db : Todos) : Todos :=
  match db with
  | [] => []
  | x :: r =>
      if String.eqb (Todo._id x) (Todo._id d) then d :: r
      else x :: replaceDoc d r
  end.

(** [doc.save()] on a new document: validation (with the cast failures
    recorded when the document was built), the pre-save hook, the
    timestamps, the insert.  [completed] came from its default, so it is
    not a modified path. *)
Definition saveNew (now : Date) (castErrors : list Message) (d : Todo.t)
    (db : Todos) : Outcome (Todo.t * Todos) :=
  match castErrors ++ Todo.validate d with
  | [] =>
      let d1 := Todo.preSave now false d in
      let d2 :=
        {| Todo._id := Todo._id d1; Todo.title := Todo.title d1;
           Todo.description := Todo.description d1;
           Todo.completed := Todo.completed d1;
           Todo.priority := Todo.priority d1; Todo.dueDate := Todo.dueDate d1;
           Todo.completedAt := Todo.completedAt d1; Todo.user := Todo.user d1;
           Todo.tags := Todo.tags d1; Todo.category := Todo.category d1;
           Todo.createdAt := now; Todo.updatedAt := now |} in
      Returns (d2, db ++ [d2])
  | messages => Throws (ValidationError messages)
  end.

(** [doc.save()] on a document loaded as [stored] and since assigned to:
    a path is modified when its value differs from the loaded one. *)
Definition saveLoaded (now : Date) (castErrors : list Message)
    (stored d : Todo.t) (db : Todos) : Outcome (Todo.t * Todos) :=
  match castErrors ++ Todo.validate d with
  | [] =>
      let modified :=
        negb (Bool.eqb (Todo.completed stored) (Todo.completed d)) in
      let d1 := Todo.preSave now modified d in
      let d2 := if Todo.eq_dec stored d1 then d1
                else Todo.set_updatedAt now d1 in
      Returns (d2, replaceDoc d2 db)
  | messages => Throws (ValidationError messages)
  end.

(** *** Queries *)

Module Query.

(** The filter documents the handlers build: equality on [user], the
    optional [_id: { $in }], the exact-match filters, the [$or] of two
    [$regex] tests, and the date bounds. *)
Record t : Type := {
  user : ObjectId;
  _id_in : option (list ObjectId);
  completed : option bool;
  priority : option string;
  category : option string;
  or_regex : option string;
  createdAt_gte : option Date;
  createdAt_lte : option Date;
  dueDate_lte : option Date
}.

Definition byUser (u : ObjectId) : t :=
  {| user := u; _id_in := None; completed := None; priority := None;
     category := None; or_regex := None; createdAt_gte := None;
     createdAt_lte := None; dueDate_lte := None |}.

End Query.

Definition optTest {A : Type} (o : option A) (test : A -> bool) : bool :=
  match o with Some a => test a | None => true end.

(** Whether a document satisfies a query, given the compiled [$regex]. *)
Definition matches (q : Query.t) (re : option (string -> bool))
    (d : Todo.t) : bool :=
  String.eqb (Todo.user d) (Query.user q)
  && optTest (Query._id_in q) (existsb (String.eqb (Todo._id d)))
  && optTest (Query.completed q) (Bool.eqb (Todo.completed d))
  && optTest (Query.priority q) (String.eqb (Todo.priority d))
  && optTest (Query.category q) (String.eqb (Todo.category d))
  && optTest re (fun m => m (Todo.title d) || m (Todo.description d))
  && optTest (Query.createdAt_gte q) (fun b => b <=? Todo.createdAt d)
  && optTest (Query.createdAt_lte q) (fun b => Todo.createdAt d <=? b)
  && optTest (Query.dueDate_lte q)
       (fun b => match Todo.dueDate d with
                 | Some due => due <=? b
                 | None => false
                 end).

(** The documents a query selects, in natural order; an invalid pattern
    makes the server reject the query. *)
Definition findAll (P : Platform) (q : Query.t) (db : Todos)
  : Outcome Todos :=
  match Query.or_regex q with
  | None => Returns (filter (matches q None) db)
  | Some pattern =>
      match regexCompile P pattern with
      | Some m => Returns (filter (matches q (Some m)) db)
      | None => Throws MongoServerError
      end
  end.

Definition countDocuments (P : Platform) (q : Query.t) (db : Todos)
  : Outcome nat :=
  ds <- findAll P q db ;; Returns (List.length ds).

(** *** Sorting *)

Inductive SortPath : Type :=
| ByCreatedAt | ByDueDate | ByPriority | ByTitle | ByCompleted.

(** A sort document: paths with direction [1] or [-1], most significant
    first. *)
Definition SortSpec : Type := list (SortPath * Z).

Definition cmpOptDate (a b : option Date) : comparison :=
  match a, b with
  | None, None => Eq
  | None, Some _ => Lt
  | Some _, None => Gt
  | Some x, Some y => Z.compare x y
  end.

Definition cmpBool (a b : bool) : comparison :=
  match a, b with
  | false, true => Lt
  | true, false => Gt
  | _, _ => Eq
  end.

(** The store's order on the values of one path: dates by time value with
    [null] first, booleans [false] before [true], strings by binary
    comparison of their characters. *)
Definition cmpPath (p : SortPath) (a b : Todo.t) : comparison :=
  match p with
  | ByCreatedAt => Z.compare (Todo.createdAt a) (Todo.createdAt b)
  | ByDueDate => cmpOptDate (Todo.dueDate a) (Todo.dueDate b)
  | ByPriority => String.compare (Todo.priority a) (Todo.priority b)
  | ByTitle => String.compare (Todo.title a) (Todo.title b)
  | ByCompleted => cmpBool (Todo.completed a) (Todo.completed b)
  end.

Fixpoint cmpDocs (spec : SortSpec) (a b : Todo.t) : comparison :=
  match spec with
  | [] => Eq
  | (p, dir) :: rest =>
      match (if dir <? 0 then CompOpp (cmpPath p a b) else cmpPath p a b) with
      | Eq => cmpDocs rest a b
      | c => c
      end
  end.

Fixpoint insertDoc (spec : SortSpec) (x : Todo.t) (l : Todos) : Todos :=
  match l with
  | [] => [x]
  | y :: r =>
      match cmpDocs spec x y with
      | Gt => y :: insertDoc spec x r
      | _ => x :: l
      end
  end.

(** [.sort(spec)]: documents the sort document does not tell apart stay
    in natural order. *)
Definition sortDocs (spec : SortSpec) (l : Todos) : Todos :=
  fold_right (insertDoc spec) [] l.

(** *** Cursor paging *)

(** Documents in the first batch of a reply when the query names no batch
    size. *)
Definition firstBatch : nat := 101.

(** [.limit(limit).skip(skip)] on a sorted result: the skip applies first;
    a negative skip is rejected by the server; limit [0] is no limit; a
    negative limit asks for a single batch of at most [-limit]. *)
Definition page (limit skip : Z) (l : Todos) : Outcome Todos :=
  if skip <? 0 then Throws MongoServerError
  else
    let rest := skipn (Z.to_nat skip) l in
    Returns
      (if limit =? 0 then rest
       else if limit <? 0 then firstn (Nat.min (Z.to_nat (- limit)) firstBatch) rest
       else firstn (Z.to_nat limit) rest).

(** The same with the Numbers a handler computed.  An infinite limit
    cuts nothing; its negative asks for a single batch; an infinite skip
    leaves nothing, and its negative is refused like any negative skip.
    (The store reads a number beyond its 64-bit range as its largest
    integer, which no collection reaches.) *)
Definition pageOf (limit skip : JS.Number) (l : Todos) : Outcome Todos :=
  let lim :=
    match limit with
    | JS.Num n => n
    | JS.Infinity true => - Z.of_nat firstBatch
    | _ => 0
    end in
  match skip with
  | JS.Num s => page lim s l
  | JS.NaN => page lim 0 l
  | JS.Infinity false => Returns []
  | JS.Infinity true => Throws MongoServerError
  end.

(** *** [todoSchema.statics.getUserTodos] *)

Module Filters.

Record t : Type := {
  completed : option bool;
  priority : option string;
  category : option string;
  search : option string;
  sortBy : option string;
  limit : option string;
  skip : option string;
  startDate : option string;
  endDate : option string;
  dueBefore : option string
}.

End Filters.

Module ListResult.

Record t : Type := {
  todos : Todos;
  total : nat;
  limit : JS.Number;
  skip : JS.Number;
  hasMore : bool
}.

End ListResult.

(** A truthy string filter, or nothing. *)
Definition truthyFilter (o : option string) : option string :=
  match o with
  | Some s => if JS.truthy s then Some s else None
  | None => None
  end.

(** [new Date(s)] used as a query bound: an invalid date fails the cast
    when the query runs. *)
Definition dateBound (P : Platform) (o : option string)
  : Outcome (option Date) :=
  match truthyFilter o with
  | None => Returns None
  | Some s =>
      match parseDate P s with
      | Some d => Returns (Some d)
      | None => Throws CastError
      end
  end.

(** The filter document of [getUserTodos], as the store receives it: the
    [category] path has [trim: true], and the schema's setter also runs on
    a filter value when the filter is cast. *)
Definition buildQuery (P : Platform) (userId : ObjectId) (filters : Filters.t)
  : Outcome Query.t :=
  gte <- dateBound P (Filters.startDate filters) ;;
  lte <- dateBound P (Filters.endDate filters) ;;
  due <- dateBound P (Filters.dueBefore filters) ;;
  Returns
    {| Query.user := userId;
       Query._id_in := None;
       Query.completed := Filters.completed filters;
       Query.priority := truthyFilter (Filters.priority filters);
       Query.category :=
         option_map JS.trim (truthyFilter (Filters.category filters));
       Query.or_regex := truthyFilter (Filters.search filters);
       Query.createdAt_gte := gte;
       Query.createdAt_lte := lte;
       Query.dueDate_lte := due |}.

Definition sortOf (sortBy : option string) : SortSpec :=
  let newestFirst := [(ByCreatedAt, -1)] in
  match truthyFilter sortBy with
  | None => newestFirst
  | Some s =>
      if String.eqb s "dueDate" then [(ByDueDate, 1); (ByCreatedAt, -1)]
      else if String.eqb s "priority" then [(ByPriority, -1); (ByCreatedAt, -1)]
      else if String.eqb s "title" then [(ByTitle, 1)]
      else if String.eqb s "completed" then [(ByCompleted, 1); (ByCreatedAt, -1)]
      else newestFirst
  end.

Definition getUserTodos (P : Platform) (userId : ObjectId)
    (filters : Filters.t) (db : Todos) : Outcome ListResult.t :=
  query <- buildQuery P userId filters ;;
  let sort := sortOf (Filters.sortBy filters) in
  let limit := JS.parseInt_or (Filters.limit filters) 50 in
  let skip := JS.parseInt_or (Filters.skip filters) 0 in
  found <- findAll P query db ;;
  todos <- pageOf limit skip (sortDocs sort found) ;;
  total <- countDocuments P query db ;;
  Returns
    {| ListResult.todos := todos;
       ListResult.total := total;
       ListResult.limit := limit;
       ListResult.skip := skip;
       ListResult.hasMore := JS.exceeds total skip (List.length todos) |}.

(** ** The user collection *)

Module User.

Record RefreshToken : Type := {
  token : string;
  issuedAt : Date
}.

(** Modelled from the spec: [models/User.js] is not part of the sources;
    the record keeps the paths the handlers read (section 3 of the spec:
    unique username and email, names, hashed password, last-active and
    creation timestamps, the set of currently valid refresh tokens, each
    tagged with its issuance time) and the [isActive] flag the middleware
    tests. *)
Record t : Type := {
  _id : ObjectId;
  username : string;
  email : string;
  firstName : string;
  lastName : string;
  password : string;
  isActive : bool;
  lastActive : Date;
  createdAt : Date;
  refreshTokens : list RefreshToken
}.

Definition set_refreshTokens (v : list RefreshToken) (u : t) : t :=
  {| _id := _id u; username := username u; email := email u;
     firstName := firstName u; lastName := lastName u;
     password := password u; isActive := isActive u;
     lastActive := lastActive u; createdAt := createdAt u;
     refreshTokens := v |}.

Definition set_lastActive (v : Date) (u : t) : t :=
  {| _id := _id u; username := username u; email := email u;
     firstName := firstName u; lastName := lastName u;
     password := password u; isActive := isActive u;
     lastActive := v; createdAt := createdAt u;
     refreshTokens := refreshTokens u |}.

End User.

Definition Users : Type := list User.t.

Definition findUserById (id : ObjectId) (users : Users) : option User.t :=
  find (fun u => String.eqb (User._id u) id) users.

Fixpoint replaceUser (u : User.t) (users : Users) : Users :=
  match users with
  | [] => []
  | x :: r =>
      if String.eqb (User._id x) (User._id u) then u :: r
      else x :: replaceUser u r
  end.

(** Modelled from the spec: [user.addRefreshToken(token)] of
    [models/User.js] adds the token, tagged with its issuance time, to the
    user's set of valid refresh tokens and persists the user. *)
Definition addRefreshToken (now : Date) (tok : string) (u : User.t)
    (users : Users) : User.t * Users :=
  let u' :=
    User.set_refreshTokens
      (User.refreshTokens u ++ [{| User.token := tok; User.issuedAt := now |}])
      u in
  (u', replaceUser u' users).

(** Modelled from the spec: [user.removeRefreshToken(token)] of
    [models/User.js] removes the token from the user's set of valid refresh
    tokens and persists the user. *)
Definition removeRefreshToken (tok : string) (u : User.t) (users : Users)
  : User.t * Users :=
  let u' :=
    User.set_refreshTokens
      (filter (fun rt => negb (String.eqb (User.token rt) tok))
         (User.refreshTokens u))
      u in
  (u', replaceUser u' users).

(** Modelled from the spec: [user.updateLastActive()] of [models/User.js]
    refreshes the user's last-active timestamp and persists the user. *)
Definition updateLastActive (now : Date) (u : User.t) (users : Users)
  : User.t * Users :=
  let u' := User.set_lastActive now u in
  (u', replaceUser u' users).

(** ** Responses *)

Record UserView : Type := {
  view_id : ObjectId;
  view_username : string;
  view_email : string;
  view_firstName : string;
  view_lastName : string
}.

(** The JSON bodies the handlers send, by shape. *)
Inductive Body : Type :=
| BError (error : string)
| BErrorCode (error code : string)
| BErrorRequired (error : string) (required : list string)
| BErrorMessages (error : string) (messages : list Message)
| BErrorAllowed (error : string) (allowedFields : list string)
| BMessage (message : string)
| BRegistered (message : string) (user : UserView)
    (accessToken refreshToken : string)
| BTokens (message : string) (accessToken refreshToken : string)
| BTodo (message : string) (data : Todo.t)
| BList (data : ListResult.t)
| BSearch (data : ListResult.t) (searchQuery : string)
| BDeleted (message : string) (deletedCount : nat)
| BModified (message : string) (modifiedCount : nat).

Record Response : Type := {
  status : Z;
  body : Body
}.

Definition respond (code : Z) (b : Body) : Response :=
  {| status := code; body := b |}.

(** The token pair a response carries, if any. *)
Definition issuedTokens (r : Response) : option (string * string) :=
  match body r with
  | BRegistered _ _ a t => Some (a, t)
  | BTokens _ a t => Some (a, t)
  | _ => None
  end.

(** A middleware either hands over to the next handler or answers. *)
Inductive Middleware (A : Type) : Type :=
| Next (a : A)
| Respond (r : Response).
Arguments Next {A} a.
Arguments Respond {A} r.

(** ** middleware/auth.js *)

(** [process.env] *)
Record Env : Type := {
  JWT_SECRET : string;
  JWT_REFRESH_SECRET : option string;
  JWT_EXPIRE : option string;
  JWT_REFRESH_EXPIRE : option string
}.

Definition refreshSecret (env : Env) : string :=
  JS.or_default (JWT_REFRESH_SECRET env) (JWT_SECRET env).

Definition generateTokens (P : Platform) (env : Env) (now : Date)
    (uid : ObjectId) : string * string :=
  let accessToken :=
    jwt_sign P {| userId := uid; type := None |} (JWT_SECRET env)
      (JS.or_default (JWT_EXPIRE env) "30d") now in
  let refreshToken :=
    jwt_sign P {| userId := uid; type := Some "refresh" |} (refreshSecret env)
      (JS.or_default (JWT_REFRESH_EXPIRE env) "7d") now in
  (accessToken, refreshToken).

(** The bearer token of an [Authorization] header: [None] when the header
    is missing, does not start with ['Bearer '], or carries nothing after
    it. *)
Definition bearerToken (authHeader : option string) : option string :=
  match authHeader with
  | None => None
  | Some h =>
      if JS.truthy h && String.prefix "Bearer " h then
        let tok := String.substring 7 (String.length h - 7) h in
        if JS.truthy tok then Some tok else None
      else None
  end.

Definition authenticate (P : Platform) (env : Env) (now : Date)
    (authHeader : option string) (users : Users)
  : Middleware User.t * Users :=
  match bearerToken authHeader with
  | None =>
      (Respond (respond 401 (BError "Access denied. No token provided.")),
       users)
  | Some tok =>
      match jwt_verify P tok (JWT_SECRET env) now with
      | inl decoded =>
          match findUserById (userId decoded) users with
          | Some user =>
              if User.isActive user then
                let '(user', users') := updateLastActive now user users in
                (Next user', users')
              else
                (Respond (respond 401 (BError "Invalid token. User not found.")),
                 users)
          | None =>
              (Respond (respond 401 (BError "Invalid token. User not found.")),
               users)
          end
      | inr TokenExpiredError =>
          (Respond (respond 401 (BErrorCode "Token expired" "TOKEN_EXPIRED")),
           users)
      | inr JsonWebTokenError =>
          (Respond (respond 401 (BError "Invalid token")), users)
      | inr _ =>
          (Respond (respond 500 (BError "Authentication failed")), users)
      end
  end.

Definition isRefresh (p : Payload) : bool :=
  match type p with
  | Some s => String.eqb s "refresh"
  | None => false
  end.

(** [validateRefreshToken]: on success the user and the presented token
    are attached to the request. *)
Definition validateRefreshToken (P : Platform) (env : Env) (now : Date)
    (refreshToken : option string) (users : Users)
  : Middleware (User.t * string) :=
  match truthyFilter refreshToken with
  | None => Respond (respond 401 (BError "Refresh token is required"))
  | Some tok =>
      match jwt_verify P tok (refreshSecret env) now with
      | inl decoded =>
          if negb (isRefresh decoded) then
            Respond (respond 401 (BError "Invalid refresh token"))
          else
            match findUserById (userId decoded) users with
            | Some user =>
                if User.isActive user then
                  let tokenExists :=
                    existsb (fun rt => String.eqb (User.token rt) tok)
                      (User.refreshTokens user) in
                  if negb tokenExists then
                    Respond (respond 401 (BError "Invalid refresh token"))
                  else Next (user, tok)
                else
                  Respond
                    (respond 401
                       (BError "Invalid refresh token. User not found."))
            | None =>
                Respond
                  (respond 401 (BError "Invalid refresh token. User not found."))
            end
      | inr TokenExpiredError =>
          Respond
            (respond 401
               (BErrorCode "Refresh token expired" "REFRESH_TOKEN_EXPIRED"))
      | inr JsonWebTokenError =>
          Respond (respond 401 (BError "Invalid refresh token"))
      | inr _ =>
          Respond (respond 500 (BError "Refresh token validation failed"))
      end
  end.

(** [checkResourceOwnership(Todo)]: [Model.findById] throws when the id
    of the path does not cast, and the middleware's [catch] answers. *)
Definition checkResourceOwnership (caller : ObjectId) (id : RawId)
    (db : Todos) : Middleware Todo.t :=
  match id with
  | NotAnId _ =>
      Respond (respond 500 (BError "Failed to verify resource ownership"))
  | Id resourceId =>
      match findById resourceId db with
      | None => Respond (respond 404 (BError "Resource not found"))
      | Some resource =>
          if negb (String.eqb (Todo.user resource) caller) then
            Respond
              (respond 403
                 (BError
                    "Access denied. You can only access your own resources."))
          else Next resource
      end
  end.

(** ** routes/auth.js *)

(** What [models/User.js] contributes to [user.save()] on a new user: the
    schema's validators and the password hash. *)
Record UserSchema : Type := {
  validateUser : User.t -> list Message;
  hashPassword : string -> string
}.

Module RegisterBody.

Record t : Type := {
  username : option string;
  email : option string;
  firstName : option string;
  lastName : option string;
  password : option string
}.

End RegisterBody.

Definition viewOf (u : User.t) : UserView :=
  {| view_id := User._id u; view_username := User.username u;
     view_email := User.email u; view_firstName := User.firstName u;
     view_lastName := User.lastName u |}.

(** [User.findOne({ $or: [{ email }, { username }] })]: the first such
    user in natural order. *)
Definition findOneByEmailOrUsername (email username : string) (users : Users)
  : option User.t :=
  find (fun u => String.eqb (User.email u) email
                 || String.eqb (User.username u) username) users.

(** [POST /register]; [newId] is the identifier of the document
    [new User] builds.  The handler runs alone, so the insert that follows
    the duplicate check cannot hit the unique indexes. *)
Definition register (P : Platform) (S : UserSchema) (env : Env) (now : Date)
    (newId : ObjectId) (req : RegisterBody.t) (users : Users)
  : Response * Users :=
  match truthyFilter (RegisterBody.username req),
        truthyFilter (RegisterBody.email req),
        truthyFilter (RegisterBody.firstName req),
        truthyFilter (RegisterBody.lastName req),
        truthyFilter (RegisterBody.password req) with
  | Some username, Some email, Some firstName, Some lastName, Some password =>
      match findOneByEmailOrUsername email username users with
      | Some existingUser =>
          let field :=
            if String.eqb (User.email existingUser) email then "email"
            else "username" in
          (respond 400
             (BError ("User with this " ++ field ++ " already exists")%string),
           users)
      | None =>
          let user :=
            {| User._id := newId; User.username := username;
               User.email := email; User.firstName := firstName;
               User.lastName := lastName; User.password := password;
               User.isActive := true; User.lastActive := now;
               User.createdAt := now; User.refreshTokens := [] |} in
          match validateUser S user with
          | [] =>
              let saved :=
                {| User._id := newId; User.username := username;
                   User.email := email; User.firstName := firstName;
                   User.lastName := lastName;
                   User.password := hashPassword S password;
                   User.isActive := true; User.lastActive := now;
                   User.createdAt := now; User.refreshTokens := [] |} in
              let '(accessToken, refreshToken) :=
                generateTokens P env now newId in
              let '(saved', users') :=
                addRefreshToken now refreshToken saved (users ++ [saved]) in
              (respond 201
                 (BRegistered "User registered successfully" (viewOf saved')
                    accessToken refreshToken),
               users')
          | messages =>
              (respond 400 (BErrorMessages "Validation failed" messages), users)
          end
      end
  | _, _, _, _, _ =>
      (respond 400
         (BErrorRequired "All fields are required"
            ["username"; "email"; "firstName"; "lastName"; "password"]),
       users)
  end.

(** [POST /refresh], behind [validateRefreshToken]. *)
Definition refresh (P : Platform) (env : Env) (now : Date)
    (refreshToken : option string) (users : Users) : Response * Users :=
  match validateRefreshToken P env now refreshToken users with
  | Respond r => (r, users)
  | Next (user, oldRefreshToken) =>
      let '(accessToken, newRefreshToken) :=
        generateTokens P env now (User._id user) in
      let '(user1, users1) := removeRefreshToken oldRefreshToken user users in
      let '(_, users2) := addRefreshToken now newRefreshToken user1 users1 in
      (respond 200
         (BTokens "Token refreshed successfully" accessToken newRefreshToken),
       users2)
  end.

(** [POST /logout], behind [authenticate]. *)
Definition logout (P : Platform) (env : Env) (now : Date)
    (authHeader : option string) (refreshToken : option string)
    (users : Users) : Response * Users :=
  match authenticate P env now authHeader users with
  | (Respond r, users') => (r, users')
  | (Next user, users1) =>
      let users2 :=
        match truthyFilter refreshToken with
        | Some tok => snd (removeRefreshToken tok user users1)
        | None => users1
        end in
      (respond 200 (BMessage "Logout successful"), users2)
  end.

(** ** routes/todos.js

    Every route sits behind [authenticate]; [caller] is the [req.userId]
    it attached.  [populate('user', ...)] only expands the owner reference
    in the reply and is left out. *)

Definition thrown500 (message : string) : Response :=
  respond 500 (BError message).

(** The reply to a failed [save]: validation failures are reported, any
    other error is a 500 with the route's message. *)
Definition saveFailure (e : Error) (message : string) : Response :=
  match e with
  | ValidationError messages =>
      respond 400 (BErrorMessages "Validation failed" messages)
  | _ => thrown500 message
  end.

(** [GET /] *)
Definition listRoute (P : Platform) (caller : ObjectId)
    (completed : option string) (rest : Filters.t) (db : Todos) : Response :=
  let filters :=
    {| Filters.completed :=
         match completed with
         | Some c => if String.eqb c "true" then Some true
                     else if String.eqb c "false" then Some false
                     else None
         | None => None
         end;
       Filters.priority := Filters.priority rest;
       Filters.category := Filters.category rest;
       Filters.search := Filters.search rest;
       Filters.sortBy := Filters.sortBy rest;
       Filters.limit := Filters.limit rest;
       Filters.skip := Filters.skip rest;
       Filters.startDate := Filters.startDate rest;
       Filters.endDate := Filters.endDate rest;
       Filters.dueBefore := Filters.dueBefore rest |} in
  match getUserTodos P caller filters db with
  | Returns result => respond 200 (BList result)
  | Throws _ => thrown500 "Failed to fetch todos"
  end.

Module CreateBody.

Record t : Type := {
  title : option string;
  description : option string;
  priority : option string;
  dueDate : option string;
  category : option string;
  tags : option (list string)
}.

End CreateBody.

(** [x ? new Date(x) : null] assigned to a [Date] path: the value and the
    cast failures it leaves for validation. *)
Definition castDue (P : Platform) (o : option string)
  : option Date * list Message :=
  match truthyFilter o with
  | None => (None, [])
  | Some s =>
      match parseDate P s with
      | Some d => (Some d, [])
      | None => (None, [CastMsg "dueDate"])
      end
  end.

(** [POST /] *)
Definition createRoute (P : Platform) (now : Date) (newId : ObjectId)
    (caller : ObjectId) (req : CreateBody.t) (db : Todos)
  : Response * Todos :=
  match truthyFilter (CreateBody.title req) with
  | None => (respond 400 (BError "Todo title is required"), db)
  | Some title =>
      if (String.length (JS.trim title) =? 0)%nat then
        (respond 400 (BError "Todo title is required"), db)
      else
        let '(due, castErrors) := castDue P (CreateBody.dueDate req) in
        let todo :=
          Todo.create newId (JS.trim title)
            (match truthyFilter (CreateBody.description req) with
             | Some d => JS.trim d
             | None => ""
             end)
            (JS.or_default (CreateBody.priority req) "medium")
            due
            (JS.or_default (CreateBody.category req) "general")
            (match CreateBody.tags req with Some l => l | None => [] end)
            caller in
        match saveNew now castErrors todo db with
        | Returns (saved, db') =>
            (respond 201 (BTodo "Todo created successfully" saved), db')
        | Throws e => (saveFailure e "Failed to create todo", db)
        end
  end.

Module UpdateBody.

(** The allowed keys of a [PUT] body, each present or not; [dueDate] may
    be present as [null]. *)
Record t : Type := {
  title : option string;
  description : option string;
  completed : option bool;
  priority : option string;
  dueDate : option (option string);
  category : option string;
  tags : option (list string)
}.

Definition noKeys (b : t) : bool :=
  match title b, description b, completed b, priority b, dueDate b,
        category b, tags b with
  | None, None, None, None, None, None, None => true
  | _, _, _, _, _, _, _ => false
  end.

End UpdateBody.

Definition allowedUpdates : list string :=
  ["title"; "description"; "completed"; "priority"; "dueDate"; "category";
   "tags"].

Definition assign {A : Type} (o : option A) (set : A -> Todo.t -> Todo.t)
    (d : Todo.t) : Todo.t :=
  match o with Some v => set v d | None => d end.

(** [PUT /:id], behind [checkResourceOwnership]. *)
Definition updateRoute (P : Platform) (now : Date) (caller : ObjectId)
    (id : RawId) (req : UpdateBody.t) (db : Todos) : Response * Todos :=
  match checkResourceOwnership caller id db with
  | Respond r => (r, db)
  | Next resource =>
      if UpdateBody.noKeys req then
        (respond 400 (BErrorAllowed "No valid fields to update" allowedUpdates),
         db)
      else
        let title :=
          option_map (fun v => if JS.truthy v then JS.trim v else v)
            (UpdateBody.title req) in
        let description :=
          option_map (fun v => if JS.truthy v then JS.trim v else v)
            (UpdateBody.description req) in
        let '(due, castErrors) :=
          match UpdateBody.dueDate req with
          | Some v => let '(d, errs) := castDue P v in (Some d, errs)
          | None => (None, [])
          end in
        if match title with
           | Some v => JS.truthy v && (String.length v =? 0)%nat
           | None => false
           end
        then (respond 400 (BError "Todo title cannot be empty"), db)
        else
          let d :=
            assign (UpdateBody.tags req) Todo.set_tags
              (assign (UpdateBody.category req) Todo.set_category
                 (assign due Todo.set_dueDate
                    (assign (UpdateBody.priority req) Todo.set_priority
                       (assign (UpdateBody.completed req) Todo.set_completed
                          (assign description Todo.set_description
                             (assign title Todo.set_title resource)))))) in
          match saveLoaded now castErrors resource d db with
          | Returns (saved, db') =>
              (respond 200 (BTodo "Todo updated successfully" saved), db')
          | Throws e => (saveFailure e "Failed to update todo", db)
          end
  end.

(** [PATCH /:id/toggle], behind [checkResourceOwnership]. *)
Definition toggleRoute (now : Date) (caller : ObjectId) (id : RawId)
    (db : Todos) : Response * Todos :=
  match checkResourceOwnership caller id db with
  | Respond r => (r, db)
  | Next resource =>
      let d := Todo.set_completed (negb (Todo.completed resource)) resource in
      match saveLoaded now [] resource d db with
      | Returns (saved, db') =>
          (respond 200
             (BTodo
                ("Todo marked as "
                 ++ (if Todo.completed saved then "completed" else "pending"))%string
                saved),
           db')
      | Throws _ => (thrown500 "Failed to toggle todo status", db)
      end
  end.

(** The filter of both bulk routes: [{ _id: { $in: ids }, user }]. *)
Definition ownedIn (caller : ObjectId) (ids : list ObjectId) : Query.t :=
  {| Query.user := caller; Query._id_in := Some ids;
     Query.completed := None; Query.priority := None;
     Query.category := None; Query.or_regex := None;
     Query.createdAt_gte := None; Query.createdAt_lte := None;
     Query.dueDate_lte := None |}.

(** The cast of [{ $in: ids }] on the [_id] path: it throws at the first
    element that does not cast. *)
Fixpoint castIds (ids : list RawId) : Outcome (list ObjectId) :=
  match ids with
  | [] => Returns []
  | Id id :: rest => r <- castIds rest ;; Returns (id :: r)
  | NotAnId _ :: _ => Throws CastError
  end.

(** [Todo.deleteMany(q)]: the remaining collection and [deletedCount]. *)
Definition deleteMany (q : Query.t) (db : Todos) : Todos * nat :=
  (filter (fun d => negb (matches q None d)) db,
   List.length (filter (matches q None) db)).

(** [DELETE /]; [ids] is [None] when the body has no array under [ids]. *)
Definition bulkDeleteRoute (caller : ObjectId) (ids : option (list RawId))
    (db : Todos) : Response * Todos :=
  match ids with
  | None | Some [] => (respond 400 (BError "Todo IDs array is required"), db)
  | Some raw =>
      match castIds raw with
      | Throws _ => (thrown500 "Failed to delete todos", db)
      | Returns l =>
          let '(db', deletedCount) := deleteMany (ownedIn caller l) db in
          (respond 200
             (BDeleted
                (JS.string_of_nat deletedCount
                 ++ " todo(s) deleted successfully")%string
                deletedCount),
           db')
      end
  end.

Module BulkUpdates.

(** The three keys the route keeps from [updates]; every other key is
    dropped. *)
Record t : Type := {
  completed : option bool;
  priority : option string;
  category : option string
}.

Definition noKeys (u : t) : bool :=
  match completed u, priority u, category u with
  | None, None, None => true
  | _, _, _ => false
  end.

End BulkUpdates.

(** [Todo.updateMany(q, updates)]: the update is a [$set] of the given
    paths on every selected document, written by the store; no document
    is loaded and no [save] hook runs.  The timestamps option adds
    [updatedAt], so every selected document is modified. *)
Definition updateMany (now : Date) (q : Query.t) (u : BulkUpdates.t)
    (db : Todos) : Todos * nat :=
  (map (fun d =>
          if matches q None d then
            Todo.set_updatedAt now
              (assign (BulkUpdates.category u) Todo.set_category
                 (assign (BulkUpdates.priority u) Todo.set_priority
                    (assign (BulkUpdates.completed u) Todo.set_completed d)))
          else d) db,
   List.length (filter (matches q None) db)).

(** [PATCH /bulk-update]; [updates] is [None] when the body has no object
    under [updates]. *)
Definition bulkUpdateRoute (now : Date) (caller : ObjectId)
    (ids : option (list RawId)) (updates : option BulkUpdates.t)
    (db : Todos) : Response * Todos :=
  match ids with
  | None | Some [] => (respond 400 (BError "Todo IDs array is required"), db)
  | Some raw =>
      match updates with
      | None => (respond 400 (BError "Updates object is required"), db)
      | Some u =>
          if BulkUpdates.noKeys u then
            (respond 400
               (BErrorAllowed "No valid fields to update"
                  ["completed"; "priority"; "category"]),
             db)
          else
            match castIds raw with
            | Throws _ => (thrown500 "Failed to bulk update todos", db)
            | Returns l =>
                let '(db', modifiedCount) :=
                  updateMany now (ownedIn caller l) u db in
                (respond 200
                   (BModified
                      (JS.string_of_nat modifiedCount
                       ++ " todo(s) updated successfully")%string
                      modifiedCount),
                 db')
            end
      end
  end.

(** The filter of the search route: [user] and the [$or] of the two
    [$regex] tests. *)
Definition searchFilter (caller : ObjectId) (searchQuery : string)
  : Query.t :=
  {| Query.user := caller; Query._id_in := None;
     Query.completed := None; Query.priority := None;
     Query.category := None; Query.or_regex := Some searchQuery;
     Query.createdAt_gte := None; Query.createdAt_lte := None;
     Query.dueDate_lte := None |}.

(** [GET /search/:query] *)
Definition searchRoute (P : Platform) (caller : ObjectId)
    (searchQuery : string) (limit0 skip0 : option string) (db : Todos)
  : Response :=
  let limit := JS.parseInt_or limit0 20 in
  let skip := JS.parseInt_or skip0 0 in
  let query := searchFilter caller searchQuery in
  match
    (found <- findAll P query db ;;
     todos <- pageOf limit skip (sortDocs [(ByCreatedAt, -1)] found) ;;
     total <- countDocuments P query db ;;
     Returns
       {| ListResult.todos := todos;
          ListResult.total := total;
          ListResult.limit := limit;
          ListResult.skip := skip;
          ListResult.hasMore := JS.exceeds total skip (List.length todos) |})
  with
  | Returns data => respond 200 (BSearch data searchQuery)
  | Throws _ => thrown500 "Failed to search todos"
  end.

(** ** Sample data *)

Module Sample.

(** A platform whose PCRE engine and date parser reject everything and
    whose tokens are the user id behind a one-letter tag: [r] for a refresh
    token, [a] for an access token. *)
Definition platform : Platform :=
  {| pcre := fun _ => None;
     parseDate := fun _ => None;
     jwt_sign := fun p _ _ _ =>
       String (if isRefresh p then "r" else "a") (userId p);
     jwt_verify := fun tok _ _ =>
       match tok with
       | String "r" uid => inl {| userId := uid; type := Some "refresh" |}
       | String "a" uid => inl {| userId := uid; type := None |}
       | _ => inr JsonWebTokenError
       end |}.

Definition schema : UserSchema :=
  {| validateUser := fun _ => []; hashPassword := fun p => String "#" p |}.

Definition env : Env :=
  {| JWT_SECRET := "s3cret"; JWT_REFRESH_SECRET := None;
     JWT_EXPIRE := None; JWT_REFRESH_EXPIRE := None |}.

Definition alice : User.t :=
  {| User._id := "u1"; User.username := "alice";
     User.email := "alice@x.com"; User.firstName := "Alice";
     User.lastName := "A"; User.password := "#secret1";
     User.isActive := true; User.lastActive := 1000;
     User.createdAt := 1000;
     User.refreshTokens :=
       [{| User.token := "ru1"; User.issuedAt := 1000 |}] |}.

Definition todo (id title0 priority0 owner : string) (created : Date)
  : Todo.t :=
  {| Todo._id := id; Todo.title := title0; Todo.description := "";
     Todo.completed := false; Todo.priority := priority0;
     Todo.dueDate := None; Todo.completedAt := None; Todo.user := owner;
     Todo.tags := []; Todo.category := "general";
     Todo.createdAt := created; Todo.updatedAt := created |}.

(** Three todos of alice's with priorities low, medium and high, created
    in that order, and one todo of another user's. *)
Definition todos : Todos :=
  [todo "t1" "buy milk" "low" "u1" 1;
   todo "t2" "abc" "medium" "u1" 2;
   todo "t3" "call Bob" "high" "u1" 3;
   todo "t4" "water plants" "medium" "u2" 4].

Definition sortedBy (s : string) : Filters.t :=
  {| Filters.completed := None; Filters.priority := None;
     Filters.category := None; Filters.search := None;
     Filters.sortBy := Some s; Filters.limit := None; Filters.skip := None;
     Filters.startDate := None; Filters.endDate := None;
     Filters.dueBefore := None |}.

Definition paged (limit0 skip0 : option string) : Filters.t :=
  {| Filters.completed := None; Filters.priority := None;
     Filters.category := None; Filters.search := None;
     Filters.sortBy := None; Filters.limit := limit0; Filters.skip := skip0;
     Filters.startDate := None; Filters.endDate := None;
     Filters.dueBefore := None |}.

End Sample.

(** ** Properties the specification names *)

(** The [completed]/[completedAt] pair of a todo is consistent:
    [completedAt] is non-null exactly when [completed] is true. *)
Definition pairOk (d : Todo.t) : Prop :=
  Todo.completedAt d <> None <-> Todo.completed d = true.

(** [s] occurs in [t] as a substring, letter case ignored. *)
Definition ciSubstring (s t : string) : Prop :=
  exists pre post : string,
    JS.toLowerCase t = (pre ++ JS.toLowerCase s ++ post)%string.

(** A search string with no character that is special in a pattern. *)
Definition plainText (s : string) : Prop :=
  forall c, In c (list_ascii_of_string s) -> Regex.isMeta c = false.

(** The todo is owned by [caller] and its id is listed in [ids]. *)
Definition ownedListed (caller : ObjectId) (ids : list ObjectId)
    (d : Todo.t) : Prop :=
  In (Todo._id d) ids /\ Todo.user d = caller.

(** The todo [PATCH /:id/toggle] writes for a stored todo. *)
Definition toggled (now : Date) (d : Todo.t) : Todo.t :=
  Todo.set_updatedAt now
    (Todo.preSave now true (Todo.set_completed (negb (Todo.completed d)) d)).

(** [a] may come before [b] under the sort document. *)
Definition notAfter (spec : SortSpec) (a b : Todo.t) : Prop :=
  cmpDocs spec a b <> Gt.

(** Decision of [ownedListed]. *)
Definition ownedListedb (caller : ObjectId) (ids : list ObjectId)
    (d : Todo.t) : bool :=
  existsb (String.eqb (Todo._id d)) ids && String.eqb (Todo.user d) caller.


(** A filter set with a search string and, possibly, a sort key and
    paging, and no other filter. *)
Definition searchOnly (s : string) (sortBy limit skip : option string)
  : Filters.t :=
  {| Filters.completed := None; Filters.priority := None;
     Filters.category := None; Filters.search := Some s;
     Filters.sortBy := sortBy; Filters.limit := limit; Filters.skip := skip;
     Filters.startDate := None; Filters.endDate := None;
     Filters.dueBefore := None |}.

(** The pattern that matches the characters of [s] literally. *)
Definition lits (s : string) : list Regex.atom :=
  map Regex.Lit (list_ascii_of_string s).

(** The caller's todos that hold [s] in their title or description, by
    literal caseless matching. *)
Definition holds (caller : ObjectId) (s : string) (d : Todo.t) : bool :=
  String.eqb (Todo.user d) caller
  && (Regex.search true (lits s) (Todo.title d)
      || Regex.search true (lits s) (Todo.description d)).

(** The result record built from the selected documents: the page cut
    from them once sorted, their number, and [hasMore]. *)
Definition resultOf (limit skip : JS.Number) (sort : SortSpec)
    (selected : Todos) : Outcome ListResult.t :=
  todos <- pageOf limit skip (sortDocs sort selected) ;;
  Returns
    {| ListResult.todos := todos;
       ListResult.total := List.length selected;
       ListResult.limit := limit;
       ListResult.skip := skip;
       ListResult.hasMore :=
         JS.exceeds (List.length selected) skip (List.length todos) |}.

(** [total > skip + sent], read in the Numbers of the language. *)
Definition moreThan (total : nat) (skip : JS.Number) (sent : nat) : Prop :=
  match skip with
  | JS.NaN => False
  | JS.Num s => Z.of_nat total > s + Z.of_nat sent
  | JS.Infinity negative => negative = true
  end.

(** How many of [n] sorted matches a skip passes over. *)
Definition skippedOf (skip : JS.Number) (n : nat) : nat :=
  match skip with
  | JS.Num s => Z.to_nat s
  | JS.Infinity false => n
  | _ => 0%nat
  end.

(** A registration body with every required field present and non-empty. *)
Definition complete (req : RegisterBody.t) : Prop :=
  JS.truthy_opt (RegisterBody.username req) = true
  /\ JS.truthy_opt (RegisterBody.email req) = true
  /\ JS.truthy_opt (RegisterBody.firstName req) = true
  /\ JS.truthy_opt (RegisterBody.lastName req) = true
  /\ JS.truthy_opt (RegisterBody.password req) = true.

(** The active refresh tokens of the user with the given id, if there is
    one. *)
Definition activeTokens (id : ObjectId) (users : Users)
  : option (list User.RefreshToken) :=
  option_map User.refreshTokens (findUserById id users).

(** ** The remaining handlers *)

(** *** models/Todo.js: the [isOverdue] virtual and the statistics *)

(** [todoSchema.virtual('isOverdue')], read at time [now]. *)
Definition isOverdue (now : Date) (d : Todo.t) : bool :=
  match Todo.dueDate d with
  | None => false
  | Some due => if Todo.completed d then false else due <? now
  end.

Module Stats.

Record t : Type := {
  total : nat;
  completed : nat;
  pending : nat;
  overdue : nat
}.

End Stats.

(** [{ $sum: { $cond: [test, 1, 0] } }] over the documents of a group. *)
Definition sumCond (test : Todo.t -> bool) (docs : Todos) : nat :=
  list_sum (map (fun d => if test d then 1%nat else 0%nat) docs).

(** [{ $lt: ['$dueDate', now] }] inside the pipeline: an aggregation
    comparison follows the store's order across types, in which [null]
    comes before every date. *)
Definition dueBeforeNow (now : Date) (d : Todo.t) : bool :=
  match cmpOptDate (Todo.dueDate d) (Some now) with
  | Lt => true
  | _ => false
  end.

(** [todoSchema.statics.getUserStats]: the [$match] stage, the single
    [$group], and the zero record when no document reached the group. *)
Definition getUserStats (now : Date) (userId : ObjectId) (db : Todos)
  : Stats.t :=
  let matched := filter (fun d => String.eqb (Todo.user d) userId) db in
  match matched with
  | [] =>
      {| Stats.total := 0; Stats.completed := 0; Stats.pending := 0;
         Stats.overdue := 0 |}
  | _ :: _ =>
      {| Stats.total := sumCond (fun _ => true) matched;
         Stats.completed :=
           sumCond (fun d => Bool.eqb (Todo.completed d) true) matched;
         Stats.pending :=
           sumCond (fun d => Bool.eqb (Todo.completed d) false) matched;
         Stats.overdue :=
           sumCond (fun d => Bool.eqb (Todo.completed d) false
                             && dueBeforeNow now d) matched |}
  end.

(** *** middleware/auth.js: optional authentication and permissions *)

(** [optionalAuth]: the request always goes on; the user is attached when
    the bearer token verifies and names an active user. *)
Definition optionalAuth (P : Platform) (env : Env) (now : Date)
    (authHeader : option string) (users : Users)
  : option User.t * Users :=
  match bearerToken authHeader with
  | None => (None, users)
  | Some tok =>
      match jwt_verify P tok (JWT_SECRET env) now with
      | inl decoded =>
          match findUserById (userId decoded) users with
          | Some user =>
              if User.isActive user then
                let '(user', users') := updateLastActive now user users in
                (Some user', users')
              else (None, users)
          | None => (None, users)
          end
      | inr _ => (None, users)
      end
  end.

(** [requirePermission(permission)]: every authenticated user has every
    permission. *)
Definition requirePermission (permission : string) (user : option User.t)
  : Middleware unit :=
  match user with
  | None => Respond (respond 401 (BError "Authentication required"))
  | Some _ => Next tt
  end.

(** *** routes/todos.js: statistics, fetch and delete of one todo *)

(** The replies of the routes whose body is neither of the shapes of
    [Body]: [{ success, data }] with the statistics or with one todo. *)
Inductive Reply : Type :=
| Sent (r : Response)
| SentStats (data : Stats.t)
| SentTodo (data : Todo.t).

(** [GET /stats] *)
Definition statsRoute (now : Date) (caller : ObjectId) (db : Todos) : Reply :=
  SentStats (getUserStats now caller db).

(** [GET /:id], behind [checkResourceOwnership]. *)
Definition getRoute (caller : ObjectId) (id : RawId) (db : Todos) : Reply :=
  match checkResourceOwnership caller id db with
  | Respond r => Sent r
  | Next resource => SentTodo resource
  end.

(** [Todo.findByIdAndDelete(id)]: the stored document with that [_id]
    goes. *)
Fixpoint findByIdAndDelete (id : ObjectId) (db : Todos) : Todos :=
  match db with
  | [] => []
  | x :: r =>
      if String.eqb (Todo._id x) id then r
      else x :: findByIdAndDelete id r
  end.

(** [DELETE /:id], behind [checkResourceOwnership]. *)
Definition deleteRoute (caller : ObjectId) (id : RawId) (db : Todos)
  : Response * Todos :=
  match checkResourceOwnership caller id db with
  | Respond r => (r, db)
  | Next resource =>
      (respond 200 (BMessage "Todo deleted successfully"),
       findByIdAndDelete (Todo._id resource) db)
  end.

(** ** Further properties of the handlers, and more sample data *)

(** The todos of a collection that [caller] does not own. *)
Definition others (caller : ObjectId) (db : Todos) : Todos :=
  filter (fun d => negb (String.eqb (Todo.user d) caller)) db.

(** [a] was created no earlier than [b]. *)
Definition newestFirst (a b : Todo.t) : Prop :=
  Todo.createdAt b <= Todo.createdAt a.

(** The sort keys the list operation knows. *)
Definition sortKeys : list string :=
  ["dueDate"; "priority"; "title"; "completed"].

(** The tokens of a user's active set other than [tok]. *)
Definition without (tok : string) (l : list User.RefreshToken)
  : list User.RefreshToken :=
  filter (fun rt => negb (String.eqb (User.token rt) tok)) l.

(** What a bulk update must have done to one stored todo: a selected todo
    has the given paths written and the update time stamped, and keeps
    every other path; any other todo is as it was. *)
Definition bulkUpdated (now : Date) (caller : ObjectId) (ids : list ObjectId)
    (u : BulkUpdates.t) (d d' : Todo.t) : Prop :=
  if ownedListedb caller ids d then
    Todo._id d' = Todo._id d /\ Todo.user d' = Todo.user d
    /\ Todo.title d' = Todo.title d
    /\ Todo.description d' = Todo.description d
    /\ Todo.dueDate d' = Todo.dueDate d
    /\ Todo.completedAt d' = Todo.completedAt d
    /\ Todo.tags d' = Todo.tags d
    /\ Todo.createdAt d' = Todo.createdAt d
    /\ Todo.updatedAt d' = now
    /\ Todo.completed d'
       = match BulkUpdates.completed u with
         | Some c => c
         | None => Todo.completed d
         end
    /\ Todo.priority d'
       = match BulkUpdates.priority u with
         | Some p => p
         | None => Todo.priority d
         end
    /\ Todo.category d'
       = match BulkUpdates.category u with
         | Some c => JS.trim c
         | None => Todo.category d
         end
  else d' = d.

(** The order of [sortBy=dueDate] on two todos: a todo with no due date
    comes first, dated todos by due date. *)
Definition dueOrder (a b : Todo.t) : Prop :=
  match Todo.dueDate a, Todo.dueDate b with
  | None, _ => True
  | Some _, None => False
  | Some x, Some y => x <= y
  end.

(** The order of [sortBy=completed]: pending todos first. *)
Definition pendingFirst (a b : Todo.t) : Prop :=
  Todo.completed a = true -> Todo.completed b = true.

Module Sample2.

(** Alice's todos with due dates: [d1] pending and due at 100, [d2]
    pending with no due date, [d3] completed and due at 100, [d4] pending
    and due at 900; and one todo of another user. *)
Definition dated (id owner : string) (done : bool) (due : option Date)
    (created : Date) : Todo.t :=
  {| Todo._id := id; Todo.title := "task"; Todo.description := "";
     Todo.completed := done; Todo.priority := "medium";
     Todo.dueDate := due;
     Todo.completedAt := if done then Some created else None;
     Todo.user := owner; Todo.tags := []; Todo.category := "general";
     Todo.createdAt := created; Todo.updatedAt := created |}.

Definition todos : Todos :=
  [dated "d1" "u1" false (Some 100) 1;
   dated "d2" "u1" false None 2;
   dated "d3" "u1" true (Some 100) 3;
   dated "d4" "u1" false (Some 900) 4;
   dated "d5" "u2" false (Some 100) 5].

Definition bob : User.t :=
  {| User._id := "u2"; User.username := "bob";
     User.email := "bob@x.com"; User.firstName := "Bob";
     User.lastName := "B"; User.password := "#secret2";
     User.isActive := true; User.lastActive := 1000;
     User.createdAt := 1000;
     User.refreshTokens :=
       [{| User.token := "ru2"; User.issuedAt := 1000 |}] |}.

Definition users : Users := [Sample.alice; bob].

(** The text of a string before its first [@]. *)
Fixpoint beforeAt (s : string) : string :=
  match s with
  | EmptyString => EmptyString
  | String c r => if Ascii.eqb c "@" then EmptyString else String c (beforeAt r)
  end.

(** A platform whose tokens also carry the time they were signed at,
    after an [@]. *)
Definition stamped : Platform :=
  {| pcre := pcre Sample.platform;
     parseDate := parseDate Sample.platform;
     jwt_sign := fun p _ _ now =>
       String (if isRefresh p then "r" else "a")
         (userId p ++ "@" ++ JS.string_of_nat (Z.to_nat now))%string;
     jwt_verify := fun tok _ _ =>
       match tok with
       | String "r" rest =>
           inl {| userId := beforeAt rest; type := Some "refresh" |}
       | String "a" rest => inl {| userId := beforeAt rest; type := None |}
       | _ => inr JsonWebTokenError
       end |}.

(** A user holding a refresh token signed at time 7. *)
Definition carol : User.t :=
  {| User._id := "u3"; User.username := "carol";
     User.email := "carol@x.com"; User.firstName := "Carol";
     User.lastName := "C"; User.password := "#secret3";
     User.isActive := true; User.lastActive := 7;
     User.createdAt := 7;
     User.refreshTokens :=
       [{| User.token := "ru3@7"; User.issuedAt := 7 |}] |}.

(** Todos of one category, asked for with blanks around its name. *)
Definition inCategory (c : string) : Filters.t :=
  {| Filters.completed := Some false; Filters.priority := None;
     Filters.category := Some c; Filters.search := None;
     Filters.sortBy := None; Filters.limit := None; Filters.skip := None;
     Filters.startDate := None; Filters.endDate := None;
     Filters.dueBefore := None |}.

End Sample2.

(** * Theorems *)

(** ** The primitives on sample inputs *)

Example parseInt_digits_then_text : JS.parseInt " 10px" = JS.Num 10.
Proof. reflexivity. Qed.

Example parseInt_negative : JS.parseInt "-5" = JS.Num (-5).
Proof. reflexivity. Qed.

Example parseInt_hex : JS.parseInt "0x1f" = JS.Num 31.
Proof. reflexivity. Qed.

Example parseInt_undefined : JS.parseInt_opt None = JS.NaN.
Proof. reflexivity. Qed.

Example parseInt_largest_exact :
  JS.parseInt "9007199254740991" = JS.Num 9007199254740991.
Proof. vm_compute. reflexivity. Qed.

Example parseInt_rounds_to_even :
  JS.parseInt "9007199254740993" = JS.Num 9007199254740992
  /\ JS.parseInt "9007199254740995" = JS.Num 9007199254740996
  /\ JS.parseInt "-9007199254740993" = JS.Num (-9007199254740992).
Proof. vm_compute. repeat split; reflexivity. Qed.

Example parseInt_rounds_to_nearest :
  JS.parseInt "36028797018963971" = JS.Num 36028797018963968
  /\ JS.parseInt "36028797018963973" = JS.Num 36028797018963976.
Proof. vm_compute. repeat split; reflexivity. Qed.

Example toNumber_overflows :
  JS.toNumber (2 ^ 1024 - 2 ^ 970) = JS.Infinity false
  /\ JS.toNumber (- 2 ^ 1024) = JS.Infinity true
  /\ JS.toNumber (2 ^ 1024 - 2 ^ 970 - 1) = JS.Num (2 ^ 1024 - 2 ^ 971).
Proof. vm_compute. repeat split; reflexivity. Qed.

Example trim_both_ends : JS.trim "  buy milk " = "buy milk".
Proof. reflexivity. Qed.

Example string_of_nat_12 : JS.string_of_nat 12 = "12".
Proof. reflexivity. Qed.

Example dot_rejects_line_feed :
  Regex.search true [Regex.AnyChar] (String "010" "") = false.
Proof. reflexivity. Qed.

Example binary_order_of_priorities :
  String.compare "medium" "low" = Gt /\ String.compare "low" "high" = Gt.
Proof. split; reflexivity. Qed.

(** ** Stored documents *)

Lemma findById_id (id : ObjectId) (db : Todos) (d : Todo.t) :
  findById id db = Some d -> Todo._id d = id.
Proof.
  unfold findById. intros H.
  apply find_some in H. destruct H as [_ H].
  now apply String.eqb_eq in H.
Qed.

Lemma findById_In (id : ObjectId) (db : Todos) (d : Todo.t) :
  findById id db = Some d -> In d db.
Proof.
  unfold findById. intros H. now apply find_some in H.
Qed.

Lemma findById_replaceDoc (id : ObjectId) (db : Todos) (d d' : Todo.t) :
  findById id db = Some d -> Todo._id d' = id ->
  findById id (replaceDoc d' db) = Some d'.
Proof.
  intros Hfind Hid. induction db as [|x r IH]; [discriminate|].
  unfold findById in *. simpl in *.
  destruct (String.eqb (Todo._id x) id) eqn:Ex.
  - rewrite Hid, Ex. simpl. rewrite Hid, String.eqb_refl. reflexivity.
  - rewrite Hid, Ex. simpl. rewrite Ex. now apply IH.
Qed.

(** ** The [completed]/[completedAt] pair on the [save] paths *)

Lemma preSave_modified_pair (now : Date) (d : Todo.t) :
  pairOk (Todo.preSave now true d).
Proof.
  destruct d as [i ti de c pr du ca us tg cg cr up].
  unfold pairOk, Todo.preSave; simpl.
  destruct c, ca; simpl; split; intros H;
    try reflexivity; try discriminate; try congruence.
Qed.

Lemma preSave_unmodified (now : Date) (d : Todo.t) :
  Todo.preSave now false d = d.
Proof. reflexivity. Qed.

Lemma pairOk_set_updatedAt (now : Date) (d : Todo.t) :
  pairOk d -> pairOk (Todo.set_updatedAt now d).
Proof. destruct d; unfold pairOk; simpl; tauto. Qed.

(** [save] on a loaded document keeps the pair consistent, as long as the
    handler did not assign [completedAt] itself. *)
Lemma saveLoaded_pair (now : Date) (errs : list Message)
    (stored d saved : Todo.t) (db db' : Todos) :
  pairOk stored ->
  Todo.completedAt d = Todo.completedAt stored ->
  saveLoaded now errs stored d db = Returns (saved, db') ->
  pairOk saved.
Proof.
  intros Hok Hat Hsave. unfold saveLoaded in Hsave.
  destruct (errs ++ Todo.validate d); [|discriminate].
  injection Hsave as Hsaved _. subst saved.
  assert (Hpre : pairOk
            (Todo.preSave now
               (negb (Bool.eqb (Todo.completed stored) (Todo.completed d))) d)).
  { destruct (Bool.eqb (Todo.completed stored) (Todo.completed d)) eqn:E.
    - simpl. apply Bool.eqb_prop in E.
      unfold pairOk in *. rewrite Hat, <- E. exact Hok.
    - apply preSave_modified_pair. }
  destruct (Todo.eq_dec _ _); [exact Hpre|].
  now apply pairOk_set_updatedAt.
Qed.

(** A created todo starts pending: [completed] false, [completedAt]
    null. *)
Lemma create_starts_pending (P : Platform) (now : Date)
    (newId caller : ObjectId) (req : CreateBody.t) (db db' : Todos)
    (message : string) (saved : Todo.t) :
  createRoute P now newId caller req db
    = (respond 201 (BTodo message saved), db') ->
  Todo.completed saved = false /\ Todo.completedAt saved = None
  /\ pairOk saved /\ db' = db ++ [saved].
Proof.
  unfold createRoute. intros H.
  destruct (truthyFilter (CreateBody.title req)) as [title|];
    [|inversion H].
  destruct (String.length (JS.trim title) =? 0)%nat; [inversion H|].
  destruct (castDue P (CreateBody.dueDate req)) as [due errs].
  unfold saveNew in H.
  destruct (errs ++ Todo.validate _).
  - inversion H; subst. unfold pairOk; simpl.
    repeat split; try reflexivity; intros; congruence.
  - unfold saveFailure in H. inversion H.
Qed.

Lemma assign_completedAt {A : Type} (o : option A)
    (set : A -> Todo.t -> Todo.t) (d : Todo.t) :
  (forall v x, Todo.completedAt (set v x) = Todo.completedAt x) ->
  Todo.completedAt (assign o set d) = Todo.completedAt d.
Proof. intros H. destruct o; simpl; auto. Qed.

(** X30. [PUT /:id] keeps the pair of a stored todo consistent: when
    [completedAt] was non-null exactly when [completed] was true, the same
    holds for the todo a successful update saves. *)
Lemma update_keeps_pair (P : Platform) (now : Date) (caller id : ObjectId)
    (req : UpdateBody.t) (db db' : Todos) (stored saved : Todo.t)
    (message : string) :
  findById id db = Some stored ->
  pairOk stored ->
  updateRoute P now caller (Id id) req db
    = (respond 200 (BTodo message saved), db') ->
  pairOk saved.
Proof.
  intros Hfind Hok. unfold updateRoute, checkResourceOwnership.
  rewrite Hfind.
  destruct (negb (String.eqb (Todo.user stored) caller)); [intros H; inversion H|].
  destruct (UpdateBody.noKeys req); [intros H; inversion H|].
  destruct (match UpdateBody.dueDate req with
            | Some v => let '(d, errs) := castDue P v in (Some d, errs)
            | None => (None, [])
            end) as [due errs].
  match goal with |- context [if ?c then _ else _] => destruct c end;
    [intros H; inversion H|].
  match goal with |- context [saveLoaded now errs stored ?d db] =>
    destruct (saveLoaded now errs stored d db) as [[sv dbv]|e] eqn:Hs
  end.
  - intros H. inversion H; subst.
    eapply saveLoaded_pair; [exact Hok| |exact Hs].
    repeat (rewrite assign_completedAt; [|intros v x; destruct x; reflexivity]).
    reflexivity.
  - intros H. destruct e; inversion H.
Qed.

Lemma validate_set_completed (v : bool) (d : Todo.t) :
  Todo.validate (Todo.set_completed v d) = Todo.validate d.
Proof. destruct d; reflexivity. Qed.

Lemma validate_set_completedAt (v : option Date) (d : Todo.t) :
  Todo.validate (Todo.set_completedAt v d) = Todo.validate d.
Proof. destruct d; reflexivity. Qed.

Lemma validate_set_updatedAt (v : Date) (d : Todo.t) :
  Todo.validate (Todo.set_updatedAt v d) = Todo.validate d.
Proof. destruct d; reflexivity. Qed.

Lemma validate_preSave (now : Date) (m : bool) (d : Todo.t) :
  Todo.validate (Todo.preSave now m d) = Todo.validate d.
Proof.
  unfold Todo.preSave.
  destruct m; [|reflexivity].
  destruct (Todo.completed d && negb (Todo.isSet (Todo.completedAt d)));
    [apply validate_set_completedAt|].
  destruct (negb (Todo.completed d)); [apply validate_set_completedAt|].
  reflexivity.
Qed.

Lemma toggled_completed (now : Date) (d : Todo.t) :
  Todo.completed (toggled now d) = negb (Todo.completed d).
Proof.
  destruct d as [i ti de c pr du ca us tg cg cr up].
  destruct c, ca; reflexivity.
Qed.

Lemma toggled_facts (now : Date) (d : Todo.t) :
  Todo._id (toggled now d) = Todo._id d
  /\ Todo.user (toggled now d) = Todo.user d
  /\ Todo.validate (toggled now d) = Todo.validate d.
Proof.
  destruct d as [i ti de c pr du ca us tg cg cr up].
  destruct c, ca; repeat split; reflexivity.
Qed.

(** For an owned todo that satisfies the schema, the toggle succeeds,
    flips [completed], and stores the todo it reports. *)
Lemma toggle_flips (now : Date) (caller id : ObjectId) (db : Todos)
    (d : Todo.t) :
  findById id db = Some d ->
  Todo.user d = caller ->
  Todo.validate d = [] ->
  toggleRoute now caller (Id id) db
    = (respond 200
         (BTodo
            (if Todo.completed d then "Todo marked as pending"
             else "Todo marked as completed")
            (toggled now d)),
       replaceDoc (toggled now d) db).
Proof.
  intros Hfind Huser Hvalid.
  unfold toggleRoute, checkResourceOwnership. rewrite Hfind.
  rewrite Huser, String.eqb_refl. simpl negb. cbv iota.
  unfold saveLoaded. rewrite validate_set_completed, Hvalid.
  change (@nil Message ++ []) with (@nil Message). cbv iota.
  assert (Hmod : negb (Bool.eqb (Todo.completed d)
                   (Todo.completed
                      (Todo.set_completed (negb (Todo.completed d)) d))) = true).
  { destruct d as [i ti de c pr du ca us tg cg cr up]. now destruct c. }
  rewrite Hmod.
  destruct (Todo.eq_dec d _) as [E|_].
  - exfalso.
    apply (f_equal Todo.completed) in E.
    destruct d as [i ti de c pr du ca us tg cg cr up].
    destruct c, ca; discriminate.
  - fold (toggled now d). rewrite toggled_completed.
    destruct (Todo.completed d); reflexivity.
Qed.

(** A todo the create route stored satisfies the schema. *)
Lemma created_todo_is_valid (P : Platform) (now : Date)
    (newId caller : ObjectId) (req : CreateBody.t) (db db' : Todos)
    (message : string) (saved : Todo.t) :
  createRoute P now newId caller req db
    = (respond 201 (BTodo message saved), db') ->
  Todo.validate saved = [] /\ Todo.user saved = caller
  /\ Todo._id saved = newId.
Proof.
  unfold createRoute. intros H.
  destruct (truthyFilter (CreateBody.title req)) as [title|];
    [|inversion H].
  destruct (String.length (JS.trim title) =? 0)%nat; [inversion H|].
  destruct (castDue P (CreateBody.dueDate req)) as [due errs].
  unfold saveNew in H.
  destruct (errs ++ Todo.validate _) eqn:E.
  - inversion H; subst. apply app_eq_nil in E. destruct E as [_ E].
    repeat split; try reflexivity. exact E.
  - unfold saveFailure in H. inversion H.
Qed.

(** The scenario of the specification: a todo created with only a title
    is pending with priority medium; one toggle completes it and stamps
    [completedAt], a second toggle makes it pending again. *)
Example create_then_toggle_twice :
  let '(r0, db0) :=
    createRoute Sample.platform 10 "t9" "u1"
      {| CreateBody.title := Some "buy milk";
         CreateBody.description := None; CreateBody.priority := None;
         CreateBody.dueDate := None; CreateBody.category := None;
         CreateBody.tags := None |} [] in
  let '(r1, db1) := toggleRoute 20 "u1" (Id "t9") db0 in
  let '(r2, db2) := toggleRoute 30 "u1" (Id "t9") db1 in
  status r0 = 201
  /\ map (fun d => (Todo.completed d, Todo.completedAt d, Todo.priority d)) db0
     = [(false, None, "medium")]
  /\ status r1 = 200
  /\ map (fun d => (Todo.completed d, Todo.completedAt d)) db1
     = [(true, Some 20)]
  /\ status r2 = 200
  /\ map (fun d => (Todo.completed d, Todo.completedAt d)) db2
     = [(false, None)].
Proof. vm_compute. repeat split; reflexivity. Qed.

(** C8, as the code has it.  For a todo the caller owns that satisfies
    the schema's validators, [PATCH /:id/toggle] answers 200, flips
    [completed] and stores the result.  When the todo was pending
    ([completed] false, [completedAt] null) the toggled todo is completed
    with [completedAt] set to the current time, and a second toggle
    brings it back to [completed] false and [completedAt] null. *)
Theorem toggle_flips_and_keeps_pair (now now' : Date) (caller id : ObjectId)
    (db : Todos) (d : Todo.t) :
  findById id db = Some d ->
  Todo.user d = caller ->
  Todo.validate d = [] ->
  exists (message : string) (d1 : Todo.t) (db1 : Todos),
    toggleRoute now caller (Id id) db = (respond 200 (BTodo message d1), db1)
    /\ Todo.completed d1 = negb (Todo.completed d)
    /\ findById id db1 = Some d1
    /\ (Todo.completed d = false -> Todo.completedAt d = None ->
        Todo.completedAt d1 = Some now
        /\ exists (message' : string) (d2 : Todo.t) (db2 : Todos),
             toggleRoute now' caller (Id id) db1
               = (respond 200 (BTodo message' d2), db2)
             /\ Todo.completed d2 = false
             /\ Todo.completedAt d2 = None
             /\ findById id db2 = Some d2).
Proof.
  intros Hfind Huser Hvalid.
  destruct (toggled_facts now d) as (Hid & Hu & Hv).
  pose proof (findById_id _ _ _ Hfind) as Hdid.
  assert (Hfind1 : findById id (replaceDoc (toggled now d) db)
                   = Some (toggled now d)).
  { apply findById_replaceDoc with (d := d); congruence. }
  eexists _, (toggled now d), _. split; [now apply toggle_flips|].
  split; [apply toggled_completed|]. split; [exact Hfind1|].
  intros Hc Hat. split.
  { destruct d as [i ti de c pr du ca us tg cg cr up]; simpl in *.
    subst c ca. reflexivity. }
  destruct (toggled_facts now' (toggled now d)) as (Hid' & Hu' & Hv').
  eexists _, (toggled now' (toggled now d)), _.
  split; [apply toggle_flips; congruence|].
  split; [rewrite !toggled_completed, Hc; reflexivity|].
  split.
  { destruct d as [i ti de c pr du ca us tg cg cr up]; simpl in *.
    subst c ca. reflexivity. }
  apply findById_replaceDoc with (d := toggled now d); congruence.
Qed.

Lemma toggle_flips_and_keeps_pair_witness :
  findById "t1" Sample.todos = Some (Sample.todo "t1" "buy milk" "low" "u1" 1)
  /\ exists (message : string) (d1 : Todo.t) (db1 : Todos),
       toggleRoute 50 "u1" (Id "t1") Sample.todos
         = (respond 200 (BTodo message d1), db1)
       /\ Todo.completed d1 = negb false
       /\ findById "t1" db1 = Some d1
       /\ (false = false -> @None Date = None ->
           Todo.completedAt d1 = Some 50
           /\ exists (message' : string) (d2 : Todo.t) (db2 : Todos),
                toggleRoute 60 "u1" (Id "t1") db1
                  = (respond 200 (BTodo message' d2), db2)
                /\ Todo.completed d2 = false
                /\ Todo.completedAt d2 = None
                /\ findById "t1" db2 = Some d2).
Proof.
  split; [reflexivity|].
  apply (toggle_flips_and_keeps_pair 50 60 "u1" "t1" Sample.todos
           (Sample.todo "t1" "buy milk" "low" "u1" 1));
    reflexivity.
Defined.

(** C8, as stated, fails for an owned todo that the schema's validators
    turn down.  The API stores such todos itself: a bulk update gives
    alice's pending todo [t1] the priority ["urgent"]; the toggle of [t1]
    then answers 500, and [t1] stays pending. *)
Lemma toggle_of_invalid_owned_todo_fails :
  let db :=
    snd (bulkUpdateRoute 50 "u1" (Some [Id "t1"])
           (Some {| BulkUpdates.completed := None;
                    BulkUpdates.priority := Some "urgent";
                    BulkUpdates.category := None |})
           Sample.todos) in
  (exists d : Todo.t,
      findById "t1" db = Some d
      /\ Todo.user d = "u1"
      /\ Todo.completed d = false
      /\ Todo.completedAt d = None
      /\ Todo.priority d = "urgent")
  /\ toggleRoute 60 "u1" (Id "t1") db
     = (respond 500 (BError "Failed to toggle todo status"), db).
Proof.
  cbv zeta. split; [|reflexivity].
  eexists. split; [reflexivity|]. repeat split; reflexivity.
Qed.

(** The toggled todo always has a consistent pair. *)
Lemma toggled_pair (now : Date) (d : Todo.t) : pairOk (toggled now d).
Proof. apply pairOk_set_updatedAt, preSave_modified_pair. Qed.

(** [updateMany] writes the given paths and nothing else: no selected
    document has its [completedAt] touched, whatever [completed]
    becomes. *)
Lemma updateMany_keeps_completedAt (now : Date) (q : Query.t)
    (u : BulkUpdates.t) (db : Todos) :
  map Todo.completedAt (fst (updateMany now q u db))
  = map Todo.completedAt db.
Proof.
  unfold updateMany; simpl. rewrite map_map. apply map_ext. intros d.
  destruct (matches q None d); [|reflexivity].
  destruct d as [i ti de c pr du ca us tg cg cr up].
  destruct u as [[uc|] [up'|] [ug|]]; reflexivity.
Qed.

Lemma updateMany_sets_completed (now : Date) (q : Query.t)
    (u : BulkUpdates.t) (db : Todos) (c : bool) (d' : Todo.t) :
  BulkUpdates.completed u = Some c ->
  In d' (fst (updateMany now q u db)) ->
  (exists d, In d db /\ matches q None d = true
             /\ Todo.completed d' = c
             /\ Todo.completedAt d' = Todo.completedAt d)
  \/ (In d' db /\ matches q None d' = false).
Proof.
  unfold updateMany; simpl. intros Hc Hin.
  apply in_map_iff in Hin. destruct Hin as (d & Hd & Hin).
  destruct (matches q None d) eqn:E.
  - left. exists d. repeat split; auto; subst d';
      destruct d as [i ti de c0 pr du ca us tg cg cr up];
      destruct u as [uc [up'|] [ug|]]; simpl in *; subst uc; reflexivity.
  - right. subst d'. now split.
Qed.

(** C1. The [save] paths (create, [PUT], toggle) keep [completedAt]
    non-null exactly when [completed] is true, but [PATCH /bulk-update]
    does not: on alice's pending todo [t1], a bulk update of [t1] with
    [completed: true] answers 200 with [modifiedCount] 1 and leaves the
    stored todo with [completed] true and [completedAt] null. *)
Theorem bulk_update_completed_leaves_completedAt_null :
  let '(r, db') :=
    bulkUpdateRoute 50 "u1" (Some [Id "t1"])
      (Some {| BulkUpdates.completed := Some true;
               BulkUpdates.priority := None;
               BulkUpdates.category := None |})
      Sample.todos in
  r = respond 200 (BModified "1 todo(s) updated successfully" 1)
  /\ exists d : Todo.t,
       findById "t1" db' = Some d
       /\ Todo.completed d = true
       /\ Todo.completedAt d = None
       /\ ~ pairOk d.
Proof.
  cbv beta iota zeta. vm_compute bulkUpdateRoute.
  split; [reflexivity|].
  eexists. split; [reflexivity|].
  split; [reflexivity|]. split; [reflexivity|].
  unfold pairOk; simpl. intros [_ H]. specialize (H eq_refl). congruence.
Qed.

(** ** Sorting *)

Lemma cmpOptDate_antisym (a b : option Date) :
  cmpOptDate b a = CompOpp (cmpOptDate a b).
Proof. destruct a, b; simpl; auto using Z.compare_antisym. Qed.

Lemma cmpPath_antisym (p : SortPath) (a b : Todo.t) :
  cmpPath p b a = CompOpp (cmpPath p a b).
Proof.
  destruct p; simpl.
  - apply Z.compare_antisym.
  - apply cmpOptDate_antisym.
  - apply String.compare_antisym.
  - apply String.compare_antisym.
  - destruct (Todo.completed a), (Todo.completed b); reflexivity.
Qed.

Lemma cmpDocs_antisym (spec : SortSpec) (a b : Todo.t) :
  cmpDocs spec b a = CompOpp (cmpDocs spec a b).
Proof.
  induction spec as [|[p dir] rest IH]; simpl; [reflexivity|].
  rewrite (cmpPath_antisym p a b).
  destruct (dir <? 0), (cmpPath p a b); simpl; auto.
Qed.

Lemma insertDoc_perm (spec : SortSpec) (x : Todo.t) (l : Todos) :
  Permutation (x :: l) (insertDoc spec x l).
Proof.
  induction l as [|y r IH]; simpl; [apply Permutation_refl|].
  destruct (cmpDocs spec x y); try apply Permutation_refl.
  eapply perm_trans; [apply perm_swap|]. now apply perm_skip.
Qed.

Lemma insertDoc_sorted (spec : SortSpec) (x : Todo.t) (l : Todos) :
  Sorted (notAfter spec) l -> Sorted (notAfter spec) (insertDoc spec x l).
Proof.
  induction l as [|y r IH]; simpl; intros Hs.
  - repeat constructor.
  - destruct (cmpDocs spec x y) eqn:E.
    + constructor; [exact Hs|]. constructor. unfold notAfter. congruence.
    + constructor; [exact Hs|]. constructor. unfold notAfter. congruence.
    + inversion Hs as [|? ? Hr Hhd]; subst.
      constructor; [now apply IH|].
      assert (Hyx : notAfter spec y x).
      { unfold notAfter. rewrite cmpDocs_antisym, E. discriminate. }
      destruct r as [|z r']; simpl.
      * now constructor.
      * destruct (cmpDocs spec x z); constructor; auto;
          now inversion Hhd.
Qed.

(** [.sort(spec)] returns the same documents, ordered by the sort
    document. *)
Lemma sortDocs_sorted_perm (spec : SortSpec) (l : Todos) :
  Sorted (notAfter spec) (sortDocs spec l) /\ Permutation l (sortDocs spec l).
Proof.
  induction l as [|x r [IHs IHp]]; simpl.
  - split; constructor.
  - split; [now apply insertDoc_sorted|].
    eapply perm_trans; [apply perm_skip, IHp|]. apply insertDoc_perm.
Qed.

(** ** The list operation *)

Lemma bind_returns {A B : Type} (m : Outcome A) (k : A -> Outcome B) (b : B) :
  bind m k = Returns b -> exists a, m = Returns a /\ k a = Returns b.
Proof. destruct m as [a|e]; simpl; [eauto|discriminate]. Qed.

(** What [getUserTodos] did when it returns: the query it built, the
    matches of that query, and the page cut from the sorted matches. *)
Lemma getUserTodos_returns (P : Platform) (caller : ObjectId)
    (f : Filters.t) (db : Todos) (r : ListResult.t) :
  getUserTodos P caller f db = Returns r ->
  exists (q : Query.t) (found todos : Todos),
    buildQuery P caller f = Returns q
    /\ findAll P q db = Returns found
    /\ pageOf (JS.parseInt_or (Filters.limit f) 50)
              (JS.parseInt_or (Filters.skip f) 0)
              (sortDocs (sortOf (Filters.sortBy f)) found) = Returns todos
    /\ r = {| ListResult.todos := todos;
              ListResult.total := List.length found;
              ListResult.limit := JS.parseInt_or (Filters.limit f) 50;
              ListResult.skip := JS.parseInt_or (Filters.skip f) 0;
              ListResult.hasMore :=
                JS.exceeds (List.length found)
                  (JS.parseInt_or (Filters.skip f) 0)
                  (List.length todos) |}.
Proof.
  unfold getUserTodos. intros H.
  apply bind_returns in H. destruct H as (q & Hq & H).
  apply bind_returns in H. destruct H as (found & Hf & H).
  apply bind_returns in H. destruct H as (todos & Hp & H).
  unfold countDocuments in H. rewrite Hf in H. simpl in H.
  injection H as H. subst r.
  exists q, found, todos. repeat split; assumption.
Qed.

Lemma searchRoute_returns (P : Platform) (caller : ObjectId)
    (s : string) (l k : option string) (db : Todos) (r : ListResult.t)
    (echoed : string) :
  searchRoute P caller s l k db = respond 200 (BSearch r echoed) ->
  exists found todos : Todos,
    echoed = s
    /\ findAll P (searchFilter caller s) db = Returns found
    /\ pageOf (JS.parseInt_or l 20) (JS.parseInt_or k 0)
              (sortDocs [(ByCreatedAt, -1)] found) = Returns todos
    /\ r = {| ListResult.todos := todos;
              ListResult.total := List.length found;
              ListResult.limit := JS.parseInt_or l 20;
              ListResult.skip := JS.parseInt_or k 0;
              ListResult.hasMore :=
                JS.exceeds (List.length found) (JS.parseInt_or k 0)
                  (List.length todos) |}.
Proof.
  unfold searchRoute. intros H.
  destruct (findAll P (searchFilter caller s) db) as [found|e] eqn:Hf;
    simpl in H; [|inversion H].
  destruct (pageOf _ _ _) as [todos|e] eqn:Hp; simpl in H; [|inversion H].
  unfold countDocuments in H. rewrite Hf in H. simpl in H.
  inversion H; subst.
  exists found, todos. repeat split; assumption.
Qed.

Lemma exceeds_spec (total : nat) (skip : JS.Number) (sent : nat) :
  JS.exceeds total skip sent = true <-> moreThan total skip sent.
Proof.
  destruct skip as [|s|negative]; simpl.
  - split; [discriminate|contradiction].
  - apply Z.gtb_gt.
  - reflexivity.
Qed.

(** C2. With [sortBy=priority] the list operation sorts the stored
    priority strings in descending binary order, which puts ["medium"]
    first, then ["low"], then ["high"]: on alice's three todos of
    priorities low, medium and high it returns them medium, low, high. *)
Theorem priority_sort_returns_medium_low_high :
  exists r : ListResult.t,
    getUserTodos Sample.platform "u1" (Sample.sortedBy "priority") Sample.todos
      = Returns r
    /\ map Todo.priority (ListResult.todos r) = ["medium"; "low"; "high"]
    /\ map Todo._id (ListResult.todos r) = ["t2"; "t1"; "t3"].
Proof.
  eexists. split; [vm_compute; reflexivity|]. split; reflexivity.
Qed.

(** C4. For every result of the list operation and of the search
    operation, [hasMore] is true exactly when [total] exceeds [skip] plus
    the number of items in the returned page, and [total] is the number
    of documents the query selects, whatever the page.  The effective
    skip is a Number; for every integer it is the comparison of the
    integers. *)
Theorem hasMore_iff_total_exceeds_page (P : Platform) (caller : ObjectId)
    (db : Todos) (q : Query.t) (r : ListResult.t) :
  (exists f : Filters.t,
      buildQuery P caller f = Returns q
      /\ getUserTodos P caller f db = Returns r)
  \/ (exists (s : string) (l k : option string),
        q = searchFilter caller s
        /\ searchRoute P caller s l k db = respond 200 (BSearch r s)) ->
  (ListResult.hasMore r = true <->
   moreThan (ListResult.total r) (ListResult.skip r)
     (List.length (ListResult.todos r)))
  /\ (forall s : Z,
        ListResult.skip r = JS.Num s ->
        (ListResult.hasMore r = true <->
         Z.of_nat (ListResult.total r)
         > s + Z.of_nat (List.length (ListResult.todos r))))
  /\ exists selected : Todos,
       findAll P q db = Returns selected
       /\ ListResult.total r = List.length selected.
Proof.
  intros [(f & Hq & H)|(s & l & k & Hq & H)].
  - apply getUserTodos_returns in H.
    destruct H as (q' & found & todos & Hq' & Hf & _ & Hr).
    rewrite Hq in Hq'. injection Hq' as <-. subst r; simpl.
    split; [apply exceeds_spec|]. split; [|eauto].
    intros s ->. apply exceeds_spec.
  - apply searchRoute_returns in H.
    destruct H as (found & todos & _ & Hf & _ & Hr). subst r q; simpl.
    split; [apply exceeds_spec|]. split; [|eauto].
    intros s' ->. apply exceeds_spec.
Qed.

Lemma hasMore_iff_total_exceeds_page_witness :
  let r := {| ListResult.todos := [Sample.todo "t2" "abc" "medium" "u1" 2];
              ListResult.total := 3; ListResult.limit := JS.Num 1;
              ListResult.skip := JS.Num 1; ListResult.hasMore := true |} in
  getUserTodos Sample.platform "u1" (Sample.paged (Some "1") (Some "1"))
    Sample.todos = Returns r
  /\ (ListResult.hasMore r = true <->
      moreThan (ListResult.total r) (ListResult.skip r)
        (List.length (ListResult.todos r)))
  /\ (forall s : Z,
        ListResult.skip r = JS.Num s ->
        (ListResult.hasMore r = true <->
         Z.of_nat (ListResult.total r)
         > s + Z.of_nat (List.length (ListResult.todos r))))
  /\ exists selected : Todos,
       findAll Sample.platform (Query.byUser "u1") Sample.todos
         = Returns selected
       /\ ListResult.total r = List.length selected.
Proof.
  intros r. split; [reflexivity|].
  apply (hasMore_iff_total_exceeds_page Sample.platform "u1" Sample.todos
           (Query.byUser "u1") r).
  left. exists (Sample.paged (Some "1") (Some "1")). split; reflexivity.
Defined.

(** ** Pagination parameters *)

Lemma parseInt_or_absent (d : Z) : JS.parseInt_or None d = JS.Num d.
Proof. reflexivity. Qed.



Lemma parseInt_or_infinite (o : option string) (d : Z) (negative : bool) :
  JS.parseInt_opt o = JS.Infinity negative ->
  JS.parseInt_or o d = JS.Infinity negative.
Proof. unfold JS.parseInt_or. now intros ->. Qed.

(** [parseInt(x) || d] is a number, and zero only when [d] is. *)
Lemma parseInt_or_value (o : option string) (d : Z) :
  JS.parseInt_or o d <> JS.NaN
  /\ (d <> 0 -> JS.parseInt_or o d <> JS.Num 0).
Proof.
  unfold JS.parseInt_or.
  destruct (JS.parseInt_opt o) as [|[|n|n]|negative];
    split; try discriminate; intros Hd; congruence.
Qed.

Example parseInt_or_text : JS.parseInt_or (Some "abc") 50 = JS.Num 50.
Proof. reflexivity. Qed.

Example parseInt_or_zero : JS.parseInt_or (Some "0") 50 = JS.Num 50.
Proof. reflexivity. Qed.

Example parseInt_or_beyond_exact :
  JS.parseInt_or (Some "9007199254740993") 50 = JS.Num 9007199254740992.
Proof. vm_compute. reflexivity. Qed.

(** Text that starts with anything but white space, a sign or a decimal
    digit is not a number for [parseInt]. *)
Lemma parseInt_text_is_nan (c : ascii) (r : string) :
  JS.isWhiteSpace c = false ->
  c <> "-"%char -> c <> "+"%char ->
  JS.digitValue 10 c = None ->
  JS.parseInt (String c r) = JS.NaN.
Proof.
  intros Hw Hm Hp Hd. unfold JS.parseInt.
  cbn [JS.trimStart]. rewrite Hw.
  destruct c as [[] [] [] [] [] [] [] []];
    try discriminate Hw; try discriminate Hd;
    try (exfalso; apply Hm; reflexivity);
    try (exfalso; apply Hp; reflexivity);
    cbn [JS.digitsPrefix]; rewrite ?Hd; reflexivity.
Qed.

Lemma page_returns_skip (limit skip : Z) (l todos : Todos) :
  page limit skip l = Returns todos -> 0 <= skip.
Proof.
  unfold page. destruct (skip <? 0) eqn:E; [discriminate|].
  intros _. now apply Z.ltb_ge in E.
Qed.

Lemma pageOf_returns_skip (limit skip : JS.Number) (l todos : Todos) :
  pageOf limit skip l = Returns todos -> JS.isNegative skip = false.
Proof.
  unfold pageOf. destruct skip as [|s|[|]]; simpl; try discriminate; auto.
  intros H. apply page_returns_skip in H. now apply Z.ltb_ge.
Qed.




(** ** Bulk delete *)

Lemma ownedListedb_spec (caller : ObjectId) (ids : list ObjectId)
    (d : Todo.t) :
  ownedListedb caller ids d = true <-> ownedListed caller ids d.
Proof.
  unfold ownedListedb, ownedListed.
  rewrite andb_true_iff, existsb_exists, String.eqb_eq.
  split.
  - intros [(x & Hin & Hx) Hu]. apply String.eqb_eq in Hx.
    subst x. now split.
  - intros [Hin Hu]. split; [|exact Hu].
    exists (Todo._id d). split; [exact Hin|apply String.eqb_refl].
Qed.

Lemma matches_ownedIn (caller : ObjectId) (ids : list ObjectId)
    (d : Todo.t) :
  matches (ownedIn caller ids) None d = ownedListedb caller ids d.
Proof.
  unfold matches, ownedIn, ownedListedb, optTest; simpl.
  rewrite !andb_true_r. apply andb_comm.
Qed.

Lemma filter_none {A : Type} (f : A -> bool) (l : list A) :
  (forall x, In x l -> f x = false) ->
  filter f l = [] /\ filter (fun x => negb (f x)) l = l.
Proof.
  induction l as [|x r IH]; simpl; intros H; [now split|].
  rewrite (H x (or_introl eq_refl)). simpl.
  destruct IH as [IH1 IH2]; [intros y Hy; apply H; now right|].
  split; [exact IH1|now rewrite IH2].
Qed.

Lemma castIds_map_Id (ids : list ObjectId) :
  castIds (map Id ids) = Returns ids.
Proof.
  induction ids as [|i r IH]; simpl; [reflexivity|]. now rewrite IH.
Qed.

(** A list in which some element does not cast makes the cast throw. *)
Lemma castIds_NotAnId (ids : list RawId) (text : string) :
  In (NotAnId text) ids -> castIds ids = Throws CastError.
Proof.
  induction ids as [|[i|t] r IH]; simpl; intros H.
  - contradiction.
  - destruct H as [H|H]; [discriminate|]. now rewrite IH.
  - reflexivity.
Qed.

Lemma bulkDeleteRoute_cast (caller : ObjectId) (ids : list ObjectId)
    (db : Todos) :
  ids <> [] ->
  bulkDeleteRoute caller (Some (map Id ids)) db
  = (respond 200
       (BDeleted
          (JS.string_of_nat
             (List.length (filter (matches (ownedIn caller ids) None) db))
           ++ " todo(s) deleted successfully")%string
          (List.length (filter (matches (ownedIn caller ids) None) db))),
     filter (fun d => negb (matches (ownedIn caller ids) None d)) db).
Proof.
  intros Hids. unfold bulkDeleteRoute.
  rewrite castIds_map_Id.
  destruct ids as [|i r]; [congruence|]. reflexivity.
Qed.

(** C5, as the code has it.  For every caller and every non-empty list of
    todo ids, bulk delete answers 200, removes from the collection exactly
    the todos whose id is in the list and whose owner is the caller, and
    reports their number as [deletedCount]; todos of other users stay, and
    when the list names no todo of the caller's nothing is deleted and the
    count is 0. *)
Theorem bulk_delete_owned_listed (caller : ObjectId) (ids : list ObjectId)
    (db : Todos) :
  ids <> [] ->
  exists (message : string) (db' : Todos) (n : nat),
    bulkDeleteRoute caller (Some (map Id ids)) db
      = (respond 200 (BDeleted message n), db')
    /\ db' = filter (fun d => negb (ownedListedb caller ids d)) db
    /\ n = List.length (filter (ownedListedb caller ids) db)
    /\ (forall d, In d db' <-> In d db /\ ~ ownedListed caller ids d)
    /\ ((forall d, In d db -> In (Todo._id d) ids -> Todo.user d <> caller) ->
        n = 0%nat /\ db' = db).
Proof.
  intros Hids. rewrite (bulkDeleteRoute_cast caller ids db Hids).
  rewrite (filter_ext _ _ (matches_ownedIn caller ids)).
  rewrite (filter_ext (fun d => negb (matches (ownedIn caller ids) None d))
             (fun d => negb (ownedListedb caller ids d)))
    by (intros d; now rewrite matches_ownedIn).
  eexists _, _, _. split; [reflexivity|].
  split; [reflexivity|]. split; [reflexivity|]. split.
  - intros d. rewrite filter_In, negb_true_iff, <- ownedListedb_spec.
    destruct (ownedListedb caller ids d); intuition congruence.
  - intros Hnone.
    destruct (filter_none (ownedListedb caller ids) db) as [E1 E2].
    { intros d Hd. destruct (ownedListedb caller ids d) eqn:E; [|reflexivity].
      apply ownedListedb_spec in E. destruct E as [Hin Hu].
      exfalso. exact (Hnone d Hd Hin Hu). }
    rewrite E1, E2. now split.
Qed.

Lemma bulk_delete_owned_listed_witness :
  ["t4"] <> []
  /\ exists (message : string) (db' : Todos) (n : nat),
       bulkDeleteRoute "u1" (Some [Id "t4"]) Sample.todos
         = (respond 200 (BDeleted message n), db')
       /\ db' = filter (fun d => negb (ownedListedb "u1" ["t4"] d)) Sample.todos
       /\ n = List.length (filter (ownedListedb "u1" ["t4"]) Sample.todos)
       /\ (forall d, In d db' <-> In d Sample.todos /\ ~ ownedListed "u1" ["t4"] d)
       /\ ((forall d, In d Sample.todos -> In (Todo._id d) ["t4"] ->
                      Todo.user d <> "u1") ->
           n = 0%nat /\ db' = Sample.todos).
Proof.
  split; [discriminate|].
  apply (bulk_delete_owned_listed "u1" ["t4"] Sample.todos). discriminate.
Defined.

(** A list that holds a value that does not cast to an id makes
    [deleteMany] throw: the route answers 500 and deletes nothing. *)
Lemma bulk_delete_uncastable_id (caller : ObjectId) (raw : list RawId)
    (text : string) (db : Todos) :
  In (NotAnId text) raw ->
  bulkDeleteRoute caller (Some raw) db
  = (respond 500 (BError "Failed to delete todos"), db).
Proof.
  intros Hin. unfold bulkDeleteRoute.
  rewrite (castIds_NotAnId raw text Hin).
  destruct raw as [|x r]; [contradiction|reflexivity].
Qed.

Example bulk_delete_other_users_todo :
  bulkDeleteRoute "u1" (Some [Id "t4"]) Sample.todos
    = (respond 200 (BDeleted "0 todo(s) deleted successfully" 0), Sample.todos).
Proof. reflexivity. Qed.

(** C5, as stated, fails on the empty list: the route answers 400 with an
    error instead of succeeding with [deletedCount] 0. *)
Lemma bulk_delete_empty_list_is_rejected :
  bulkDeleteRoute "u1" (Some []) Sample.todos
    = (respond 400 (BError "Todo IDs array is required"), Sample.todos).
Proof. reflexivity. Qed.

(** ** Search *)

Lemma compile_plain (s : string) :
  plainText s -> Regex.compile s = Some (lits s).
Proof.
  unfold plainText, lits. induction s as [|c r IH]; simpl; intros H.
  - reflexivity.
  - assert (Hc : Regex.isMeta c = false) by (apply H; now left).
    destruct (Ascii.eqb c ".") eqn:E.
    + apply Ascii.eqb_eq in E. subst c. discriminate.
    + rewrite Hc, IH; [reflexivity|]. intros x Hx. apply H. now right.
Qed.

Lemma matchHere_lits (s t : string) :
  Regex.matchHere true (lits s) t = true <->
  exists post : string, JS.toLowerCase t = (JS.toLowerCase s ++ post)%string.
Proof.
  revert t. induction s as [|c r IH]; intros t.
  - simpl. split; [|reflexivity]. intros _. now exists (JS.toLowerCase t).
  - destruct t as [|c0 t']; simpl.
    + split; [discriminate|]. intros [post H]. discriminate.
    + fold (lits r). rewrite andb_true_iff, Ascii.eqb_eq, IH.
      split.
      * intros [Hc [post Hp]]. exists post. now rewrite Hc, Hp.
      * intros [post Hp]. injection Hp as Hc Hp. split; [auto|eauto].
Qed.

(** Literal caseless matching is the substring test. *)
Lemma search_lits (s t : string) :
  Regex.search true (lits s) t = true <-> ciSubstring s t.
Proof.
  unfold ciSubstring. induction t as [|c t' IH]; simpl.
  - rewrite orb_false_r, matchHere_lits. simpl. split.
    + intros [post H]. now exists ""%string, post.
    + intros (pre & post & H). destruct pre; [|discriminate].
      now exists post.
  - rewrite orb_true_iff, IH, matchHere_lits. simpl. split.
    + intros [[post H]|(pre & post & H)].
      * now exists ""%string, post.
      * exists (String (JS.toLowerChar c) pre), post. simpl. now rewrite H.
    + intros (pre & post & H). destruct pre as [|a pre']; simpl in H.
      * left. now exists post.
      * right. injection H as _ H. now exists pre', post.
Qed.

Lemma search_empty_pattern (t : string) : Regex.search true [] t = true.
Proof. destruct t; reflexivity. Qed.

Lemma holds_spec (caller : ObjectId) (s : string) (d : Todo.t) :
  holds caller s d = true <->
  Todo.user d = caller
  /\ (ciSubstring s (Todo.title d) \/ ciSubstring s (Todo.description d)).
Proof.
  unfold holds.
  now rewrite andb_true_iff, orb_true_iff, String.eqb_eq, !search_lits.
Qed.

(** What a query with a plain search string and no other filter selects. *)
Lemma findAll_plain_search (P : Platform) (caller : ObjectId) (s : string)
    (db : Todos) :
  plainText s ->
  findAll P (searchFilter caller s) db = Returns (filter (holds caller s) db).
Proof.
  intros Hs. unfold findAll, searchFilter, regexCompile; simpl.
  rewrite (compile_plain s Hs). f_equal. apply filter_ext. intros d.
  unfold matches, holds, optTest; simpl. now rewrite !andb_true_r.
Qed.

Lemma buildQuery_searchOnly (P : Platform) (caller : ObjectId) (s : string)
    (sortBy limit skip : option string) :
  buildQuery P caller (searchOnly s sortBy limit skip)
  = Returns (if JS.truthy s then searchFilter caller s
             else Query.byUser caller).
Proof.
  unfold buildQuery, searchOnly, searchFilter, Query.byUser; simpl.
  now destruct s.
Qed.

Lemma findAll_byUser_empty_search (P : Platform) (caller : ObjectId)
    (db : Todos) :
  findAll P (Query.byUser caller) db = Returns (filter (holds caller "") db).
Proof.
  unfold findAll, Query.byUser; simpl. f_equal. apply filter_ext. intros d.
  unfold matches, optTest; simpl. rewrite !andb_true_r.
  unfold holds. change (lits "") with (@nil Regex.atom).
  now rewrite !search_empty_pattern, andb_true_r.
Qed.

(** C6, as the code has it.  For a search string with no character that
    is special in a regular expression, the search filter of the list
    operation and the search operation select the same todos: exactly the
    caller's todos whose title or description contains the string as a
    substring, letter case ignored.  The list operation pages them with
    its own limit and skip, the search operation newest first with limit
    20 when none is given, and the search operation echoes the query
    string. *)
Theorem plain_search_selects_ci_substring (P : Platform) (caller : ObjectId)
    (s : string) (sortBy limit skip l k : option string) (db : Todos) :
  plainText s ->
  (forall d : Todo.t,
      In d (filter (holds caller s) db) <->
      In d db /\ Todo.user d = caller
      /\ (ciSubstring s (Todo.title d) \/ ciSubstring s (Todo.description d)))
  /\ getUserTodos P caller (searchOnly s sortBy limit skip) db
     = resultOf (JS.parseInt_or limit 50) (JS.parseInt_or skip 0)
         (sortOf sortBy) (filter (holds caller s) db)
  /\ searchRoute P caller s l k db
     = match resultOf (JS.parseInt_or l 20) (JS.parseInt_or k 0)
               [(ByCreatedAt, -1)] (filter (holds caller s) db) with
       | Returns data => respond 200 (BSearch data s)
       | Throws _ => thrown500 "Failed to search todos"
       end
  /\ JS.parseInt_or None 20 = JS.Num 20.
Proof.
  intros Hs. split; [|split; [|split; [|reflexivity]]].
  - intros d. rewrite filter_In, holds_spec. tauto.
  - unfold getUserTodos. rewrite buildQuery_searchOnly. simpl bind.
    assert (Hf : findAll P (if JS.truthy s then searchFilter caller s
                            else Query.byUser caller) db
                 = Returns (filter (holds caller s) db)).
    { destruct s as [|c r]; simpl.
      - apply findAll_byUser_empty_search.
      - now apply findAll_plain_search. }
    unfold countDocuments. rewrite Hf. simpl bind. unfold resultOf.
    destruct (pageOf _ _ _); reflexivity.
  - unfold searchRoute, countDocuments.
    rewrite (findAll_plain_search P caller s db Hs). simpl bind.
    unfold resultOf. destruct (pageOf _ _ _); reflexivity.
Qed.

Lemma plainText_milk : plainText "MILK".
Proof.
  intros c Hc. simpl in Hc.
  repeat (destruct Hc as [<-|Hc]; [reflexivity|]). contradiction.
Qed.

Lemma plain_search_selects_ci_substring_witness :
  plainText "MILK"
  /\ getUserTodos Sample.platform "u1" (searchOnly "MILK" None None None)
       Sample.todos
     = resultOf (JS.Num 50) (JS.Num 0) [(ByCreatedAt, -1)]
         (filter (holds "u1" "MILK") Sample.todos)
  /\ searchRoute Sample.platform "u1" "MILK" None None Sample.todos
     = respond 200
         (BSearch
            {| ListResult.todos := [Sample.todo "t1" "buy milk" "low" "u1" 1];
               ListResult.total := 1; ListResult.limit := JS.Num 20;
               ListResult.skip := JS.Num 0; ListResult.hasMore := false |}
            "MILK").
Proof.
  split; [exact plainText_milk|].
  destruct (plain_search_selects_ci_substring Sample.platform "u1" "MILK"
              None None None None None Sample.todos plainText_milk)
    as (_ & Hlist & Hsearch & _).
  split; [exact Hlist|]. rewrite Hsearch. reflexivity.
Defined.

(** C6, as stated, fails: the search string is a pattern.  Searching
    ["a.c"] returns alice's todo titled ["abc"], whose title and (empty)
    description do not contain ["a.c"]. *)
Lemma search_string_is_a_pattern :
  (exists r : ListResult.t,
      getUserTodos Sample.platform "u1" (searchOnly "a.c" None None None)
        Sample.todos = Returns r
      /\ ListResult.todos r = [Sample.todo "t2" "abc" "medium" "u1" 2])
  /\ (exists r : ListResult.t,
         searchRoute Sample.platform "u1" "a.c" None None Sample.todos
           = respond 200 (BSearch r "a.c")
         /\ ListResult.todos r = [Sample.todo "t2" "abc" "medium" "u1" 2])
  /\ ~ ciSubstring "a.c" "abc"
  /\ ~ ciSubstring "a.c" "".
Proof.
  split; [eexists; split; reflexivity|].
  split; [eexists; split; reflexivity|].
  split; intros H; apply search_lits in H; discriminate.
Qed.

(** ** Refresh tokens *)

Lemma truthyFilter_Some (o : option string) (s : string) :
  truthyFilter o = Some s -> o = Some s /\ JS.truthy s = true.
Proof.
  destruct o as [x|]; simpl; [|discriminate].
  destruct (JS.truthy x) eqn:E; [|discriminate].
  intros H. injection H as <-. now split.
Qed.

Lemma truthyFilter_None (o : option string) :
  truthyFilter o = None -> JS.truthy_opt o = false.
Proof.
  destruct o as [x|]; simpl; [|reflexivity].
  now destruct (JS.truthy x).
Qed.

Lemma tokenExists_false (tok : string) (l : list User.RefreshToken) :
  ~ In tok (map User.token l) ->
  existsb (fun rt => String.eqb (User.token rt) tok) l = false.
Proof.
  intros H. destruct (existsb _ l) eqn:E; [|reflexivity].
  apply existsb_exists in E. destruct E as (rt & Hin & Heq).
  apply String.eqb_eq in Heq. exfalso. apply H. subst tok.
  now apply in_map.
Qed.

(** The middleware answers 401 to a token that is not in the active set
    of the user it names.  [jwt.verify] raises [NotBeforeError] only for a
    token that carries a not-before claim, which [generateTokens] never
    asks for. *)
Lemma validateRefreshToken_rejects (P : Platform) (env : Env) (now : Date)
    (tok : string) (users : Users) :
  jwt_verify P tok (refreshSecret env) now <> inr NotBeforeError ->
  (forall decoded user,
      jwt_verify P tok (refreshSecret env) now = inl decoded ->
      findUserById (userId decoded) users = Some user ->
      ~ In tok (map User.token (User.refreshTokens user))) ->
  exists b : Body,
    validateRefreshToken P env now (Some tok) users = Respond (respond 401 b)
    /\ issuedTokens (respond 401 b) = None.
Proof.
  intros Hnb Hout. unfold validateRefreshToken.
  destruct (truthyFilter (Some tok)) as [t|] eqn:Et.
  2: { eexists; split; reflexivity. }
  apply truthyFilter_Some in Et. destruct Et as [Et _].
  injection Et as <-.
  destruct (jwt_verify P tok (refreshSecret env) now) as [decoded|[| |]] eqn:Ev.
  - destruct (negb (isRefresh decoded)); [eexists; split; reflexivity|].
    destruct (findUserById (userId decoded) users) as [user|] eqn:Eu;
      [|eexists; split; reflexivity].
    destruct (User.isActive user); [|eexists; split; reflexivity].
    rewrite (tokenExists_false tok _ (Hout decoded user eq_refl Eu)).
    eexists; split; reflexivity.
  - eexists; split; reflexivity.
  - eexists; split; reflexivity.
  - congruence.
Qed.

(** C3. A refresh token that is not in the active refresh-token set of the
    user it names (because logout removed it, say) is refused by
    [POST /api/auth/refresh] with status 401, whatever [jwt.verify] makes
    of it, and in particular when its signature is valid and it has not
    expired; the user collection is left as it was and the response
    carries no token pair. *)
Theorem refresh_rejects_removed_token (P : Platform) (env : Env) (now : Date)
    (tok : string) (users : Users) :
  jwt_verify P tok (refreshSecret env) now <> inr NotBeforeError ->
  (forall decoded user,
      jwt_verify P tok (refreshSecret env) now = inl decoded ->
      findUserById (userId decoded) users = Some user ->
      ~ In tok (map User.token (User.refreshTokens user))) ->
  exists b : Body,
    refresh P env now (Some tok) users = (respond 401 b, users)
    /\ issuedTokens (respond 401 b) = None.
Proof.
  intros Hnb Hout.
  destruct (validateRefreshToken_rejects P env now tok users Hnb Hout)
    as (b & Hv & Hnone).
  exists b. unfold refresh. rewrite Hv. now split.
Qed.

Lemma refresh_rejects_removed_token_witness :
  jwt_verify Sample.platform "ru1" (refreshSecret Sample.env) 5
    = inl {| userId := "u1"; type := Some "refresh" |}
  /\ findUserById "u1" [User.set_refreshTokens [] Sample.alice]
     = Some (User.set_refreshTokens [] Sample.alice)
  /\ exists b : Body,
       refresh Sample.platform Sample.env 5 (Some "ru1")
         [User.set_refreshTokens [] Sample.alice]
         = (respond 401 b, [User.set_refreshTokens [] Sample.alice])
       /\ issuedTokens (respond 401 b) = None.
Proof.
  split; [reflexivity|]. split; [reflexivity|].
  apply (refresh_rejects_removed_token Sample.platform Sample.env 5 "ru1"
           [User.set_refreshTokens [] Sample.alice]).
  - discriminate.
  - intros decoded user Hd Hu. simpl in Hd. injection Hd as <-.
    simpl in Hu. injection Hu as <-. simpl. tauto.
Defined.

Example refresh_accepts_active_token :
  fst (refresh Sample.platform Sample.env 5 (Some "ru1") [Sample.alice])
    = respond 200 (BTokens "Token refreshed successfully" "au1" "ru1").
Proof. reflexivity. Qed.

Lemma findUserById_replaceUser (id : ObjectId) (users : Users)
    (u u' : User.t) :
  findUserById id users = Some u -> User._id u' = id ->
  findUserById id (replaceUser u' users) = Some u'.
Proof.
  intros Hfind Hid. induction users as [|x r IH]; [discriminate|].
  unfold findUserById in *. simpl in *.
  destruct (String.eqb (User._id x) id) eqn:Ex.
  - rewrite Hid, Ex. simpl. rewrite Hid, String.eqb_refl. reflexivity.
  - rewrite Hid, Ex. simpl. rewrite Ex. now apply IH.
Qed.

Lemma findUserById_id (id : ObjectId) (users : Users) (u : User.t) :
  findUserById id users = Some u -> User._id u = id.
Proof.
  unfold findUserById. intros H. apply find_some in H.
  destruct H as [_ H]. now apply String.eqb_eq in H.
Qed.

(** Replacing a stored user by a copy with the same id and the same
    refresh tokens changes nobody's active tokens. *)
Lemma replaceUser_keeps_tokens (users : Users) (u u' : User.t) :
  findUserById (User._id u) users = Some u ->
  User._id u' = User._id u ->
  User.refreshTokens u' = User.refreshTokens u ->
  forall id, activeTokens id (replaceUser u' users) = activeTokens id users.
Proof.
  intros Hfind Hid Htok id. unfold activeTokens.
  induction users as [|x r IH]; [reflexivity|].
  unfold findUserById in *. simpl in *. rewrite Hid.
  destruct (String.eqb (User._id x) (User._id u)) eqn:Ex.
  - injection Hfind as ->. simpl. rewrite Hid.
    destruct (String.eqb (User._id u) id); simpl; [now rewrite Htok|reflexivity].
  - simpl. destruct (String.eqb (User._id x) id); [reflexivity|].
    now apply IH.
Qed.

(** What [authenticate] did when it lets the request through. *)
Lemma authenticate_next (P : Platform) (env : Env) (now : Date)
    (authHeader : option string) (users users1 : Users) (user : User.t) :
  authenticate P env now authHeader users = (Next user, users1) ->
  exists stored : User.t,
    findUserById (User._id stored) users = Some stored
    /\ User.isActive stored = true
    /\ user = User.set_lastActive now stored
    /\ users1 = replaceUser user users.
Proof.
  unfold authenticate. intros H.
  destruct (bearerToken authHeader) as [tok|]; [|discriminate].
  destruct (jwt_verify P tok (JWT_SECRET env) now) as [decoded|[| |]];
    try discriminate.
  destruct (findUserById (userId decoded) users) as [stored|] eqn:Eu;
    [|discriminate].
  destruct (User.isActive stored) eqn:Ea; [|discriminate].
  unfold updateLastActive in H. injection H as <- <-.
  exists stored. rewrite (findUserById_id _ _ _ Eu). now repeat split.
Qed.

(** C10. For an authenticated caller, [POST /api/auth/logout] with no
    [refreshToken] in the body answers 200 with the message
    [Logout successful], and no user's active refresh tokens change: the
    only write is the last-active stamp of [authenticate]. *)
Theorem logout_without_token_revokes_nothing (P : Platform) (env : Env)
    (now : Date) (authHeader : option string) (users users1 : Users)
    (user : User.t) :
  authenticate P env now authHeader users = (Next user, users1) ->
  exists users' : Users,
    logout P env now authHeader None users
      = (respond 200 (BMessage "Logout successful"), users')
    /\ (forall id, activeTokens id users' = activeTokens id users)
    /\ activeTokens (User._id user) users' = Some (User.refreshTokens user).
Proof.
  intros Hauth. exists users1. unfold logout. rewrite Hauth. simpl.
  split; [reflexivity|].
  apply authenticate_next in Hauth.
  destruct Hauth as (stored & Hfind & _ & Hu & Hs).
  assert (Hid : User._id user = User._id stored) by (subst user; now destruct stored).
  assert (Htok : User.refreshTokens user = User.refreshTokens stored)
    by (subst user; now destruct stored).
  split.
  - subst users1. now apply replaceUser_keeps_tokens with (u := stored).
  - unfold activeTokens. subst users1.
    rewrite (findUserById_replaceUser (User._id user) users stored user);
      [reflexivity| |reflexivity].
    now rewrite Hid.
Qed.

Lemma logout_without_token_revokes_nothing_witness :
  authenticate Sample.platform Sample.env 5 (Some "Bearer au1") [Sample.alice]
    = (Next (User.set_lastActive 5 Sample.alice),
       [User.set_lastActive 5 Sample.alice])
  /\ exists users' : Users,
       logout Sample.platform Sample.env 5 (Some "Bearer au1") None
         [Sample.alice]
         = (respond 200 (BMessage "Logout successful"), users')
       /\ (forall id, activeTokens id users' = activeTokens id [Sample.alice])
       /\ activeTokens "u1" users'
          = Some [{| User.token := "ru1"; User.issuedAt := 1000 |}].
Proof.
  split; [reflexivity|].
  apply (logout_without_token_revokes_nothing Sample.platform Sample.env 5
           (Some "Bearer au1") [Sample.alice]
           [User.set_lastActive 5 Sample.alice]
           (User.set_lastActive 5 Sample.alice)).
  reflexivity.
Defined.

(** X29. After a logout that presents the refresh token of the caller,
    the same token is refused by the refresh route, although [jwt.verify]
    still accepts it. *)
Lemma logout_then_refresh_is_refused (P : Platform) (env : Env)
    (now now' : Date) (authHeader : option string) (tok : string)
    (users users1 : Users) (user : User.t) (decoded : Payload) :
  authenticate P env now authHeader users = (Next user, users1) ->
  JS.truthy tok = true ->
  jwt_verify P tok (refreshSecret env) now' = inl decoded ->
  userId decoded = User._id user ->
  exists (users2 : Users) (b : Body),
    logout P env now authHeader (Some tok) users
      = (respond 200 (BMessage "Logout successful"), users2)
    /\ refresh P env now' (Some tok) users2 = (respond 401 b, users2).
Proof.
  intros Hauth Htruthy Hverify Hsame.
  unfold logout. rewrite Hauth. simpl truthyFilter. rewrite Htruthy.
  unfold removeRefreshToken. simpl snd.
  set (user' := User.set_refreshTokens _ user).
  apply authenticate_next in Hauth.
  destruct Hauth as (stored & Hfind & _ & Hu & Hs).
  assert (Hid : User._id user = User._id stored)
    by (subst user; now destruct stored).
  assert (Hfind1 : findUserById (User._id user) users1 = Some user).
  { subst users1.
    apply (findUserById_replaceUser _ users stored user); [|reflexivity].
    now rewrite Hid. }
  assert (Hfind2 : findUserById (User._id user) (replaceUser user' users1)
                   = Some user').
  { apply (findUserById_replaceUser _ users1 user user' Hfind1).
    subst user'. now destruct user. }
  destruct (validateRefreshToken_rejects P env now' tok
              (replaceUser user' users1)) as (b & Hv & _).
  - rewrite Hverify. discriminate.
  - intros d u Hd Hu'. rewrite Hverify in Hd. injection Hd as <-.
    rewrite Hsame, Hfind2 in Hu'. injection Hu' as <-.
    subst user'. destruct user; simpl.
    rewrite in_map_iff. intros (rt & Heq & Hin).
    apply filter_In in Hin. destruct Hin as [_ Hne].
    rewrite Heq, String.eqb_refl in Hne. discriminate.
  - exists (replaceUser user' users1), b. split; [reflexivity|].
    unfold refresh. now rewrite Hv.
Qed.

(** ** Registration *)

Lemma find_finds {A : Type} (f : A -> bool) (l : list A) (x : A) :
  In x l -> f x = true -> exists y, find f l = Some y /\ f y = true.
Proof.
  intros Hin Hf. destruct (find f l) as [y|] eqn:E.
  - exists y. split; [reflexivity|]. now apply find_some in E.
  - rewrite (find_none f l E x Hin) in Hf. discriminate.
Qed.

(** C9. When some existing user has the email of a registration attempt,
    or its username (whatever the email), [POST /api/auth/register]
    answers 400, creates no user and issues no token pair; when the
    attempt has all its fields, the error is the duplicate-field error,
    naming the email or the username. *)
Theorem register_rejects_duplicate (P : Platform) (S : UserSchema) (env : Env)
    (now : Date) (newId : ObjectId) (req : RegisterBody.t) (users : Users)
    (u : User.t) :
  In u users ->
  RegisterBody.email req = Some (User.email u)
  \/ RegisterBody.username req = Some (User.username u) ->
  exists b : Body,
    register P S env now newId req users = (respond 400 b, users)
    /\ issuedTokens (respond 400 b) = None
    /\ (complete req ->
        b = BError "User with this email already exists"
        \/ b = BError "User with this username already exists").
Proof.
  intros Hin Hdup. unfold register.
  destruct (truthyFilter (RegisterBody.username req)) as [username|] eqn:E1.
  2: { eexists. split; [reflexivity|]. split; [reflexivity|].
       intros (H & _). apply truthyFilter_None in E1. congruence. }
  destruct (truthyFilter (RegisterBody.email req)) as [email|] eqn:E2.
  2: { eexists. split; [reflexivity|]. split; [reflexivity|].
       intros (_ & H & _). apply truthyFilter_None in E2. congruence. }
  destruct (truthyFilter (RegisterBody.firstName req)) as [firstName|] eqn:E3.
  2: { eexists. split; [reflexivity|]. split; [reflexivity|].
       intros (_ & _ & H & _). apply truthyFilter_None in E3. congruence. }
  destruct (truthyFilter (RegisterBody.lastName req)) as [lastName|] eqn:E4.
  2: { eexists. split; [reflexivity|]. split; [reflexivity|].
       intros (_ & _ & _ & H & _). apply truthyFilter_None in E4. congruence. }
  destruct (truthyFilter (RegisterBody.password req)) as [password|] eqn:E5.
  2: { eexists. split; [reflexivity|]. split; [reflexivity|].
       intros (_ & _ & _ & _ & H). apply truthyFilter_None in E5. congruence. }
  apply truthyFilter_Some in E1, E2. destruct E1 as [E1 _], E2 as [E2 _].
  destruct (find_finds
              (fun x => String.eqb (User.email x) email
                        || String.eqb (User.username x) username)
              users u Hin) as (existing & Hfind & _).
  { apply orb_true_iff. destruct Hdup as [H|H].
    - left. rewrite E2 in H. injection H as ->. apply String.eqb_refl.
    - right. rewrite E1 in H. injection H as ->. apply String.eqb_refl. }
  unfold findOneByEmailOrUsername. rewrite Hfind.
  destruct (String.eqb (User.email existing) email);
    eexists; (split; [reflexivity|]); (split; [reflexivity|]); intros _;
    [left|right]; reflexivity.
Qed.

Lemma register_rejects_duplicate_witness :
  In Sample.alice [Sample.alice]
  /\ exists b : Body,
       register Sample.platform Sample.schema Sample.env 5 "u2"
         {| RegisterBody.username := Some "alice";
            RegisterBody.email := Some "other@x.com";
            RegisterBody.firstName := Some "Al";
            RegisterBody.lastName := Some "B";
            RegisterBody.password := Some "secret2" |}
         [Sample.alice]
         = (respond 400 b, [Sample.alice])
       /\ issuedTokens (respond 400 b) = None
       /\ (complete
             {| RegisterBody.username := Some "alice";
                RegisterBody.email := Some "other@x.com";
                RegisterBody.firstName := Some "Al";
                RegisterBody.lastName := Some "B";
                RegisterBody.password := Some "secret2" |} ->
           b = BError "User with this email already exists"
           \/ b = BError "User with this username already exists").
Proof.
  split; [now left|].
  apply (register_rejects_duplicate Sample.platform Sample.schema Sample.env
           5 "u2" _ [Sample.alice] Sample.alice).
  - now left.
  - right. reflexivity.
Defined.

Example register_same_email_twice :
  let req := {| RegisterBody.username := Some "alice";
                RegisterBody.email := Some "alice@x.com";
                RegisterBody.firstName := Some "Alice";
                RegisterBody.lastName := Some "A";
                RegisterBody.password := Some "secret1" |} in
  let '(r1, users1) :=
    register Sample.platform Sample.schema Sample.env 5 "u1" req [] in
  let '(r2, users2) :=
    register Sample.platform Sample.schema Sample.env 6 "u9" req users1 in
  status r1 = 201
  /\ issuedTokens r1 = Some ("au1", "ru1")
  /\ r2 = respond 400 (BError "User with this email already exists")
  /\ users2 = users1.
Proof. vm_compute. repeat split; reflexivity. Qed.

Example register_same_username_other_email :
  fst (register Sample.platform Sample.schema Sample.env 5 "u2"
         {| RegisterBody.username := Some "alice";
            RegisterBody.email := Some "other@x.com";
            RegisterBody.firstName := Some "Al";
            RegisterBody.lastName := Some "B";
            RegisterBody.password := Some "secret2" |}
         [Sample.alice])
    = respond 400 (BError "User with this username already exists").
Proof. reflexivity. Qed.

(** * Further properties of the handlers *)

(** ** Reading todos *)

Lemma In_firstn_skipn {A : Type} (k n : nat) (l : list A) (x : A) :
  In x (firstn k (skipn n l)) -> In x l.
Proof.
  intros H.
  rewrite <- (firstn_skipn n l). apply in_or_app. right.
  rewrite <- (firstn_skipn k (skipn n l)). apply in_or_app. now left.
Qed.

Lemma Sorted_firstn {A : Type} (R : A -> A -> Prop) (n : nat) (l : list A) :
  Sorted R l -> Sorted R (firstn n l).
Proof.
  revert n. induction l as [|x r IH]; intros [|n] Hs; simpl;
    try constructor.
  - inversion Hs; subst. now apply IH.
  - inversion Hs as [|? ? _ Hhd]; subst.
    destruct r as [|y r'], n as [|n']; simpl; constructor.
    now inversion Hhd.
Qed.

Lemma Sorted_skipn {A : Type} (R : A -> A -> Prop) (n : nat) (l : list A) :
  Sorted R l -> Sorted R (skipn n l).
Proof.
  revert l. induction n as [|n IH]; intros [|x r] Hs; simpl; auto.
  apply IH. now inversion Hs.
Qed.

Lemma Sorted_weaken {A : Type} (R R' : A -> A -> Prop) (l : list A) :
  (forall a b, R a b -> R' a b) -> Sorted R l -> Sorted R' l.
Proof.
  intros HR. induction 1 as [|x r _ IH Hhd]; constructor; auto.
  destruct Hhd; constructor; auto.
Qed.

(** The shape of a page: a prefix of what is left after the skip, no
    longer than the size of the limit when there is one. *)
Lemma page_shape (limit skip : Z) (l todos : Todos) :
  page limit skip l = Returns todos ->
  0 <= skip
  /\ exists k : nat,
       todos = firstn k (skipn (Z.to_nat skip) l)
       /\ (limit <> 0 -> Z.of_nat k <= Z.abs limit).
Proof.
  unfold page. destruct (skip <? 0) eqn:Es; [discriminate|].
  apply Z.ltb_ge in Es. intros H. injection H as <-.
  split; [exact Es|].
  destruct (limit =? 0) eqn:E0.
  - apply Z.eqb_eq in E0.
    exists (List.length (skipn (Z.to_nat skip) l)).
    split; [now rewrite firstn_all|congruence].
  - destruct (limit <? 0) eqn:En.
    + apply Z.ltb_lt in En. eexists. split; [reflexivity|]. intros _.
      unfold firstBatch. lia.
    + apply Z.ltb_ge in En. eexists. split; [reflexivity|]. intros _. lia.
Qed.

(** The same for the Numbers of a handler: the skip is not negative, and
    an infinite skip leaves nothing. *)
Lemma pageOf_shape (limit skip : JS.Number) (l todos : Todos) :
  pageOf limit skip l = Returns todos ->
  JS.isNegative skip = false
  /\ exists k : nat,
       todos = firstn k (skipn (skippedOf skip (List.length l)) l)
       /\ (forall n, limit = JS.Num n -> n <> 0 -> Z.of_nat k <= Z.abs n).
Proof.
  intros H. split; [now apply pageOf_returns_skip in H|].
  unfold pageOf in H. destruct skip as [|s|[|]]; simpl skippedOf.
  - apply page_shape in H. destruct H as (_ & k & Ht & Hk).
    exists k. split; [exact Ht|]. intros n -> Hn. now apply Hk.
  - apply page_shape in H. destruct H as (_ & k & Ht & Hk).
    exists k. split; [exact Ht|]. intros n -> Hn. now apply Hk.
  - discriminate.
  - injection H as <-. exists 0%nat. split; [reflexivity|].
    intros n _ _. apply Z.abs_nonneg.
Qed.

Lemma matches_parts (q : Query.t) (re : option (string -> bool))
    (d : Todo.t) :
  matches q re d = true ->
  Todo.user d = Query.user q
  /\ optTest (Query._id_in q) (existsb (String.eqb (Todo._id d))) = true
  /\ optTest (Query.completed q) (Bool.eqb (Todo.completed d)) = true
  /\ optTest (Query.priority q) (String.eqb (Todo.priority d)) = true
  /\ optTest (Query.category q) (String.eqb (Todo.category d)) = true
  /\ optTest (Query.createdAt_gte q) (fun b => b <=? Todo.createdAt d) = true
  /\ optTest (Query.createdAt_lte q) (fun b => Todo.createdAt d <=? b) = true
  /\ optTest (Query.dueDate_lte q)
       (fun b => match Todo.dueDate d with
                 | Some due => due <=? b
                 | None => false
                 end) = true.
Proof.
  unfold matches. rewrite !andb_true_iff, String.eqb_eq. tauto.
Qed.

Lemma findAll_selects (P : Platform) (q : Query.t) (db found : Todos)
    (d : Todo.t) :
  findAll P q db = Returns found -> In d found ->
  In d db /\ exists re, matches q re d = true.
Proof.
  unfold findAll. intros H Hin.
  destruct (Query.or_regex q) as [pattern|].
  - destruct (regexCompile P pattern) as [m|]; [|discriminate].
    injection H as <-. apply filter_In in Hin. destruct Hin. eauto.
  - injection H as <-. apply filter_In in Hin. destruct Hin. eauto.
Qed.

Lemma dateBound_returns (P : Platform) (o : option string)
    (b : option Date) :
  dateBound P o = Returns b ->
  forall s t, truthyFilter o = Some s -> parseDate P s = Some t -> b = Some t.
Proof.
  unfold dateBound. intros H s t Hs Ht. rewrite Hs, Ht in H.
  now injection H as <-.
Qed.

Lemma buildQuery_returns (P : Platform) (caller : ObjectId) (f : Filters.t)
    (q : Query.t) :
  buildQuery P caller f = Returns q ->
  Query.user q = caller
  /\ Query.completed q = Filters.completed f
  /\ Query.priority q = truthyFilter (Filters.priority f)
  /\ Query.category q
     = option_map JS.trim (truthyFilter (Filters.category f))
  /\ dateBound P (Filters.startDate f) = Returns (Query.createdAt_gte q)
  /\ dateBound P (Filters.endDate f) = Returns (Query.createdAt_lte q)
  /\ dateBound P (Filters.dueBefore f) = Returns (Query.dueDate_lte q).
Proof.
  unfold buildQuery. intros H.
  apply bind_returns in H. destruct H as (gte & Hg & H).
  apply bind_returns in H. destruct H as (lte & Hl & H).
  apply bind_returns in H. destruct H as (due & Hd & H).
  injection H as <-. simpl. now repeat split.
Qed.

(** Every todo a returned list holds was selected by the query. *)
Lemma listed_todo_matches (P : Platform) (caller : ObjectId) (f : Filters.t)
    (db : Todos) (r : ListResult.t) (d : Todo.t) :
  getUserTodos P caller f db = Returns r ->
  In d (ListResult.todos r) ->
  exists q re,
    buildQuery P caller f = Returns q /\ In d db /\ matches q re d = true.
Proof.
  intros H Hin. apply getUserTodos_returns in H.
  destruct H as (q & found & todos & Hq & Hf & Hp & ->). simpl in Hin.
  apply pageOf_shape in Hp. destruct Hp as (_ & k & -> & _).
  apply In_firstn_skipn in Hin.
  destruct (sortDocs_sorted_perm (sortOf (Filters.sortBy f)) found) as [_ Hperm].
  apply Permutation_sym in Hperm.
  apply (Permutation_in _ Hperm) in Hin.
  destruct (findAll_selects P q db found d Hf Hin) as (Hdb & re & Hm).
  now exists q, re.
Qed.

Lemma listRoute_returns (P : Platform) (caller : ObjectId)
    (completed : option string) (f : Filters.t) (db : Todos)
    (r : ListResult.t) :
  listRoute P caller completed f db = respond 200 (BList r) ->
  exists f' : Filters.t, getUserTodos P caller f' db = Returns r.
Proof.
  unfold listRoute. intros H.
  match type of H with
  | context [getUserTodos P caller ?g db] =>
      destruct (getUserTodos P caller g db) as [r'|e] eqn:E
  end.
  - inversion H; subst. eauto.
  - inversion H.
Qed.

(** X1. A todo that [GET /:id], the list route or the search route sends
    back is stored and belongs to the caller. *)
Theorem reads_return_only_callers_todos (P : Platform) (caller : ObjectId)
    (id : RawId) (completed : option string) (f : Filters.t) (s : string)
    (l k : option string) (db : Todos) (d : Todo.t) :
  getRoute caller id db = SentTodo d
  \/ (exists r, listRoute P caller completed f db = respond 200 (BList r)
                /\ In d (ListResult.todos r))
  \/ (exists r, searchRoute P caller s l k db = respond 200 (BSearch r s)
                /\ In d (ListResult.todos r)) ->
  In d db /\ Todo.user d = caller.
Proof.
  intros [H|[(r & H & Hin)|(r & H & Hin)]].
  - unfold getRoute, checkResourceOwnership in H.
    destruct id as [id|text]; [|discriminate].
    destruct (findById id db) as [x|] eqn:Ef; [|discriminate].
    destruct (String.eqb (Todo.user x) caller) eqn:Eu; [|discriminate].
    simpl in H. injection H as <-. apply String.eqb_eq in Eu.
    split; [now apply findById_In with (id := id)|exact Eu].
  - apply listRoute_returns in H. destruct H as (f' & H).
    destruct (listed_todo_matches P caller f' db r d H Hin)
      as (q & re & Hq & Hdb & Hm).
    apply buildQuery_returns in Hq. destruct Hq as (Hu & _).
    apply matches_parts in Hm. destruct Hm as (Hm & _).
    split; [exact Hdb|congruence].
  - apply searchRoute_returns in H.
    destruct H as (found & todos & _ & Hf & Hp & ->). simpl in Hin.
    apply pageOf_shape in Hp. destruct Hp as (_ & n & -> & _).
    apply In_firstn_skipn in Hin.
    destruct (sortDocs_sorted_perm [(ByCreatedAt, -1)] found) as [_ Hperm].
    apply Permutation_sym in Hperm.
    apply (Permutation_in _ Hperm) in Hin.
    destruct (findAll_selects P _ db found d Hf Hin) as (Hdb & re & Hm).
    apply matches_parts in Hm. destruct Hm as (Hm & _).
    split; [exact Hdb|exact Hm].
Qed.

Lemma reads_return_only_callers_todos_witness :
  getRoute "u1" (Id "t2") Sample.todos
    = SentTodo (Sample.todo "t2" "abc" "medium" "u1" 2)
  /\ In (Sample.todo "t2" "abc" "medium" "u1" 2) Sample.todos
  /\ Todo.user (Sample.todo "t2" "abc" "medium" "u1" 2) = "u1".
Proof.
  split; [reflexivity|].
  apply (reads_return_only_callers_todos Sample.platform "u1" (Id "t2") None
           (Sample.paged None None) "" None None Sample.todos).
  left. reflexivity.
Defined.

(** X2. Every todo the list operation returns satisfies each filter that
    was given: the [completed] flag, the priority, the category (the
    filter's text with the white space at its ends removed), the
    creation-date bounds (both inclusive) and the due-date bound
    (inclusive, and a todo with no due date never passes it). *)
Theorem listed_todos_satisfy_filters (P : Platform) (caller : ObjectId)
    (f : Filters.t) (db : Todos) (r : ListResult.t) (d : Todo.t) :
  getUserTodos P caller f db = Returns r ->
  In d (ListResult.todos r) ->
  (forall b, Filters.completed f = Some b -> Todo.completed d = b)
  /\ (forall p, truthyFilter (Filters.priority f) = Some p ->
                Todo.priority d = p)
  /\ (forall c, truthyFilter (Filters.category f) = Some c ->
                Todo.category d = JS.trim c)
  /\ (forall s t, truthyFilter (Filters.startDate f) = Some s ->
                  parseDate P s = Some t -> t <= Todo.createdAt d)
  /\ (forall s t, truthyFilter (Filters.endDate f) = Some s ->
                  parseDate P s = Some t -> Todo.createdAt d <= t)
  /\ (forall s t, truthyFilter (Filters.dueBefore f) = Some s ->
                  parseDate P s = Some t ->
                  exists due, Todo.dueDate d = Some due /\ due <= t).
Proof.
  intros H Hin.
  destruct (listed_todo_matches P caller f db r d H Hin)
    as (q & re & Hq & _ & Hm).
  apply buildQuery_returns in Hq.
  destruct Hq as (_ & Hc & Hp & Hg & Hs & He & Hd).
  apply matches_parts in Hm.
  destruct Hm as (_ & _ & Mc & Mp & Mg & Ms & Me & Md).
  repeat split.
  - intros b Hb. rewrite Hc, Hb in Mc. simpl in Mc.
    now apply Bool.eqb_prop in Mc.
  - intros p Hp'. rewrite Hp, Hp' in Mp. simpl in Mp.
    now apply String.eqb_eq in Mp.
  - intros c Hc'. rewrite Hg, Hc' in Mg. simpl in Mg.
    now apply String.eqb_eq in Mg.
  - intros s t Hs' Ht. rewrite (dateBound_returns _ _ _ Hs s t Hs' Ht) in Ms.
    simpl in Ms. now apply Z.leb_le in Ms.
  - intros s t Hs' Ht. rewrite (dateBound_returns _ _ _ He s t Hs' Ht) in Me.
    simpl in Me. now apply Z.leb_le in Me.
  - intros s t Hs' Ht. rewrite (dateBound_returns _ _ _ Hd s t Hs' Ht) in Md.
    simpl in Md. destruct (Todo.dueDate d) as [due|]; [|discriminate].
    exists due. split; [reflexivity|now apply Z.leb_le in Md].
Qed.

Lemma listed_todos_satisfy_filters_witness :
  let d1 := Sample2.dated "d1" "u1" false (Some 100) 1 in
  let r := {| ListResult.todos :=
                [Sample2.dated "d4" "u1" false (Some 900) 4;
                 Sample2.dated "d2" "u1" false None 2; d1];
              ListResult.total := 3; ListResult.limit := JS.Num 50;
              ListResult.skip := JS.Num 0; ListResult.hasMore := false |} in
  getUserTodos Sample.platform "u1" (Sample2.inCategory " general ")
    Sample2.todos = Returns r
  /\ Todo.completed d1 = false
  /\ Todo.category d1 = "general".
Proof.
  intros d1 r. split; [reflexivity|].
  destruct (listed_todos_satisfy_filters Sample.platform "u1"
              (Sample2.inCategory " general ") Sample2.todos r d1)
    as (Hc & _ & Hg & _).
  - reflexivity.
  - right. right. now left.
  - split; [now apply Hc|]. now apply (Hg " general ").
Defined.

Lemma notAfter_newestFirst (a b : Todo.t) :
  notAfter [(ByCreatedAt, -1)] a b -> newestFirst a b.
Proof.
  unfold notAfter, newestFirst; simpl.
  destruct (Todo.createdAt a ?= Todo.createdAt b) eqn:E; simpl; intros H.
  - apply Z.compare_eq in E. lia.
  - congruence.
  - apply Z.compare_gt_iff in E. lia.
Qed.

Lemma sortOf_unknown (sortBy : option string) :
  (forall s, sortBy = Some s -> ~ In s sortKeys) ->
  sortOf sortBy = [(ByCreatedAt, -1)].
Proof.
  intros H. unfold sortOf.
  destruct (truthyFilter sortBy) as [s|] eqn:E; [|reflexivity].
  apply truthyFilter_Some in E. destruct E as [E _].
  specialize (H s E). unfold sortKeys in H. simpl in H.
  destruct (String.eqb s "dueDate") eqn:E1;
    [apply String.eqb_eq in E1; subst s; tauto|].
  destruct (String.eqb s "priority") eqn:E2;
    [apply String.eqb_eq in E2; subst s; tauto|].
  destruct (String.eqb s "title") eqn:E3;
    [apply String.eqb_eq in E3; subst s; tauto|].
  destruct (String.eqb s "completed") eqn:E4;
    [apply String.eqb_eq in E4; subst s; tauto|].
  reflexivity.
Qed.

Lemma page_newestFirst (limit skip : JS.Number) (found todos : Todos) :
  pageOf limit skip (sortDocs [(ByCreatedAt, -1)] found) = Returns todos ->
  Sorted newestFirst todos.
Proof.
  intros Hp. apply pageOf_shape in Hp. destruct Hp as (_ & k & -> & _).
  apply Sorted_firstn, Sorted_skipn.
  apply Sorted_weaken with (R := notAfter [(ByCreatedAt, -1)]);
    [exact notAfter_newestFirst|].
  apply sortDocs_sorted_perm.
Qed.

(** X3. When no sort key is given, or one the list operation does not
    know, the returned page is ordered newest first: no todo is followed
    by one created later. *)
Theorem list_default_order_is_newest_first (P : Platform) (caller : ObjectId)
    (f : Filters.t) (db : Todos) (r : ListResult.t) :
  (forall s, Filters.sortBy f = Some s -> ~ In s sortKeys) ->
  getUserTodos P caller f db = Returns r ->
  Sorted newestFirst (ListResult.todos r).
Proof.
  intros Hkey H. apply getUserTodos_returns in H.
  destruct H as (q & found & todos & _ & _ & Hp & ->). simpl.
  rewrite (sortOf_unknown _ Hkey) in Hp.
  now apply page_newestFirst in Hp.
Qed.

Lemma list_default_order_is_newest_first_witness :
  exists r,
    getUserTodos Sample.platform "u1" (Sample.sortedBy "created") Sample.todos
      = Returns r
    /\ map Todo._id (ListResult.todos r) = ["t3"; "t2"; "t1"]
    /\ Sorted newestFirst (ListResult.todos r).
Proof.
  eexists. split; [reflexivity|]. split; [reflexivity|].
  apply (list_default_order_is_newest_first Sample.platform "u1"
           (Sample.sortedBy "created") Sample.todos).
  - intros s Hs. injection Hs as <-. unfold sortKeys. simpl.
    intros [H|[H|[H|[H|[]]]]]; discriminate.
  - reflexivity.
Defined.

Lemma firstn_min_length {A : Type} (k : nat) (l : list A) :
  firstn (Nat.min k (List.length l)) l = firstn k l.
Proof.
  destruct (Nat.le_ge_cases k (List.length l)) as [H|H].
  - now rewrite Nat.min_l.
  - rewrite Nat.min_r by exact H. now rewrite firstn_all, firstn_all2.
Qed.

(** X4. [hasMore] tells the truth about the rest of the result: when the
    list operation returns, its page is a run of the sorted matches that
    starts after the skipped ones, and [hasMore] is true exactly when
    some match lies beyond the page. *)
Theorem hasMore_iff_matches_remain (P : Platform) (caller : ObjectId)
    (f : Filters.t) (db : Todos) (r : ListResult.t) :
  getUserTodos P caller f db = Returns r ->
  exists (q : Query.t) (selected : Todos),
    buildQuery P caller f = Returns q
    /\ findAll P q db = Returns selected
    /\ let sorted := sortDocs (sortOf (Filters.sortBy f)) selected in
       let skipped :=
         skippedOf (ListResult.skip r) (List.length sorted) in
       let sent := List.length (ListResult.todos r) in
       ListResult.todos r = firstn sent (skipn skipped sorted)
       /\ (ListResult.hasMore r = true <->
           skipn (skipped + sent) sorted <> []).
Proof.
  intros H. apply getUserTodos_returns in H.
  destruct H as (q & found & todos & Hq & Hf & Hp & ->).
  exists q, found. split; [exact Hq|]. split; [exact Hf|]. simpl.
  apply pageOf_shape in Hp. destruct Hp as (Hskip & k & Ht & _).
  set (sorted := sortDocs (sortOf (Filters.sortBy f)) found) in *.
  destruct (parseInt_or_value (Filters.skip f) 0) as [Hnan _].
  set (sk := JS.parseInt_or (Filters.skip f) 0) in *.
  assert (Hlen : List.length sorted = List.length found).
  { symmetry. apply Permutation_length, sortDocs_sorted_perm. }
  assert (Htl : List.length todos
                = Nat.min k
                    (List.length sorted
                     - skippedOf sk (List.length sorted))).
  { now rewrite Ht, length_firstn, length_skipn. }
  split.
  - rewrite Ht at 2. rewrite length_firstn, firstn_min_length. exact Ht.
  - rewrite <- skipn_all_iff.
    destruct sk as [|z|[|]]; simpl in *; try discriminate.
    + congruence.
    + apply Z.ltb_ge in Hskip. rewrite Z.gtb_gt. lia.
    + split; [discriminate|]. lia.
Qed.

Lemma hasMore_iff_matches_remain_witness :
  let f := Sample.paged (Some "2") None in
  let r := {| ListResult.todos :=
                [Sample.todo "t3" "call Bob" "high" "u1" 3;
                 Sample.todo "t2" "abc" "medium" "u1" 2];
              ListResult.total := 3; ListResult.limit := JS.Num 2;
              ListResult.skip := JS.Num 0; ListResult.hasMore := true |} in
  getUserTodos Sample.platform "u1" f Sample.todos = Returns r
  /\ exists (q : Query.t) (selected : Todos),
       buildQuery Sample.platform "u1" f = Returns q
       /\ findAll Sample.platform q Sample.todos = Returns selected
       /\ let sorted := sortDocs (sortOf (Filters.sortBy f)) selected in
          let skipped :=
            skippedOf (ListResult.skip r) (List.length sorted) in
          let sent := List.length (ListResult.todos r) in
          ListResult.todos r = firstn sent (skipn skipped sorted)
          /\ (ListResult.hasMore r = true <->
              skipn (skipped + sent) sorted <> []).
Proof.
  intros f r. split; [reflexivity|].
  apply (hasMore_iff_matches_remain Sample.platform "u1" f Sample.todos r).
  reflexivity.
Defined.

(** X5. A page of the list operation is bounded: the effective limit is
    never 0 (which the store would read as no limit), the effective skip
    is not negative, and the page holds no more todos than the size of
    the limit, nor more than the matches left after the skip. *)
Theorem list_page_is_bounded (P : Platform) (caller : ObjectId)
    (f : Filters.t) (db : Todos) (r : ListResult.t) :
  getUserTodos P caller f db = Returns r ->
  ListResult.limit r <> JS.Num 0
  /\ ListResult.limit r <> JS.NaN
  /\ JS.isNegative (ListResult.skip r) = false
  /\ (forall s, ListResult.skip r = JS.Num s -> 0 <= s)
  /\ (forall n, ListResult.limit r = JS.Num n ->
                Z.of_nat (List.length (ListResult.todos r)) <= Z.abs n)
  /\ (List.length (ListResult.todos r)
      <= ListResult.total r
         - skippedOf (ListResult.skip r) (ListResult.total r))%nat.
Proof.
  intros H. apply getUserTodos_returns in H.
  destruct H as (q & found & todos & _ & _ & Hp & ->). simpl.
  destruct (parseInt_or_value (Filters.limit f) 50) as [Hnan Hl].
  specialize (Hl ltac:(discriminate)).
  apply pageOf_shape in Hp. destruct Hp as (Hskip & k & -> & Hk).
  assert (Hlen : List.length (sortDocs (sortOf (Filters.sortBy f)) found)
                 = List.length found).
  { symmetry. apply Permutation_length, sortDocs_sorted_perm. }
  rewrite length_firstn, length_skipn, Hlen.
  split; [exact Hl|]. split; [exact Hnan|]. split; [exact Hskip|].
  split; [|split].
  - intros s Hs. rewrite Hs in Hskip. simpl in Hskip.
    now apply Z.ltb_ge in Hskip.
  - intros n Hn. specialize (Hk n Hn).
    assert (n <> 0) by congruence. lia.
  - lia.
Qed.

Lemma list_page_is_bounded_witness :
  let r := {| ListResult.todos :=
                [Sample.todo "t3" "call Bob" "high" "u1" 3;
                 Sample.todo "t2" "abc" "medium" "u1" 2];
              ListResult.total := 3; ListResult.limit := JS.Num (-2);
              ListResult.skip := JS.Num 0; ListResult.hasMore := true |} in
  getUserTodos Sample.platform "u1" (Sample.paged (Some "-2") (Some "x"))
    Sample.todos = Returns r
  /\ ListResult.limit r <> JS.Num 0
  /\ ListResult.limit r <> JS.NaN
  /\ JS.isNegative (ListResult.skip r) = false
  /\ (forall s, ListResult.skip r = JS.Num s -> 0 <= s)
  /\ (forall n, ListResult.limit r = JS.Num n ->
                Z.of_nat (List.length (ListResult.todos r)) <= Z.abs n)
  /\ (List.length (ListResult.todos r)
      <= ListResult.total r
         - skippedOf (ListResult.skip r) (ListResult.total r))%nat.
Proof.
  intros r. split; [reflexivity|].
  apply (list_page_is_bounded Sample.platform "u1"
           (Sample.paged (Some "-2") (Some "x")) Sample.todos r).
  reflexivity.
Defined.

(** X6. A successful search echoes the query string and sends the todos
    newest first, in a page no longer than the size of its limit, which
    is never 0. *)
Theorem search_is_newest_first_and_bounded (P : Platform) (caller : ObjectId)
    (s echoed : string) (l k : option string) (db : Todos)
    (r : ListResult.t) :
  searchRoute P caller s l k db = respond 200 (BSearch r echoed) ->
  echoed = s
  /\ Sorted newestFirst (ListResult.todos r)
  /\ ListResult.limit r <> JS.Num 0
  /\ ListResult.limit r <> JS.NaN
  /\ (forall n, ListResult.limit r = JS.Num n ->
                Z.of_nat (List.length (ListResult.todos r)) <= Z.abs n).
Proof.
  intros H. apply searchRoute_returns in H.
  destruct H as (found & todos & He & _ & Hp & ->). simpl.
  destruct (parseInt_or_value l 20) as [Hnan Hl].
  specialize (Hl ltac:(discriminate)).
  split; [exact He|]. split; [now apply page_newestFirst in Hp|].
  split; [exact Hl|]. split; [exact Hnan|].
  apply pageOf_shape in Hp. destruct Hp as (_ & n & -> & Hn).
  intros z Hz. specialize (Hn z Hz).
  assert (z <> 0) by congruence. rewrite length_firstn. lia.
Qed.

Lemma search_is_newest_first_and_bounded_witness :
  let r := {| ListResult.todos :=
                [Sample.todo "t3" "call Bob" "high" "u1" 3];
              ListResult.total := 3; ListResult.limit := JS.Num 1;
              ListResult.skip := JS.Num 0; ListResult.hasMore := true |} in
  searchRoute Sample.platform "u1" "B" (Some "1") None Sample.todos
    = respond 200 (BSearch r "B")
  /\ Sorted newestFirst (ListResult.todos r)
  /\ ListResult.limit r <> JS.Num 0.
Proof.
  intros r. split; [reflexivity|].
  destruct (search_is_newest_first_and_bounded Sample.platform "u1" "B" "B"
              (Some "1") None Sample.todos r eq_refl) as (_ & Hs & Hl & _).
  now split.
Defined.

(** ** Statistics *)

Lemma sumCond_length (test : Todo.t -> bool) (docs : Todos) :
  sumCond test docs = List.length (filter test docs).
Proof.
  unfold sumCond. induction docs as [|d r IH]; simpl; [reflexivity|].
  rewrite IH. now destruct (test d).
Qed.

Lemma filter_idem {A : Type} (f : A -> bool) (l : list A) :
  filter f (filter f l) = filter f l.
Proof.
  induction l as [|x r IH]; simpl; [reflexivity|].
  destruct (f x) eqn:E; simpl; [now rewrite E, IH|exact IH].
Qed.

Lemma getUserStats_counts (now : Date) (caller : ObjectId) (db : Todos) :
  let mine := filter (fun d => String.eqb (Todo.user d) caller) db in
  getUserStats now caller db
  = {| Stats.total := List.length mine;
       Stats.completed :=
         List.length (filter (fun d => Bool.eqb (Todo.completed d) true) mine);
       Stats.pending :=
         List.length (filter (fun d => Bool.eqb (Todo.completed d) false) mine);
       Stats.overdue :=
         List.length
           (filter (fun d => Bool.eqb (Todo.completed d) false
                             && dueBeforeNow now d) mine) |}.
Proof.
  intros mine. unfold getUserStats. fold mine.
  destruct mine as [|x r] eqn:E; [reflexivity|].
  rewrite !sumCond_length. f_equal.
  f_equal. clear. generalize (x :: r). intros l.
  induction l as [|y l IH]; simpl; congruence.
Qed.

(** X7. The statistics count the caller's todos only, and add up: the
    total is the number of todos the caller owns, every one of them is
    counted either as completed or as pending, and the overdue ones are
    among the pending ones. *)
Theorem stats_add_up (now : Date) (caller : ObjectId) (db : Todos) :
  let s := getUserStats now caller db in
  Stats.total s
  = List.length (filter (fun d => String.eqb (Todo.user d) caller) db)
  /\ Stats.total s = (Stats.completed s + Stats.pending s)%nat
  /\ (Stats.overdue s <= Stats.pending s)%nat
  /\ getUserStats now caller (others caller db)
     = {| Stats.total := 0; Stats.completed := 0; Stats.pending := 0;
          Stats.overdue := 0 |}.
Proof.
  cbv zeta. rewrite getUserStats_counts. simpl.
  split; [reflexivity|].
  set (mine := filter _ db). split; [|split].
  - clear. induction mine as [|d r IH]; simpl; [reflexivity|].
    destruct (Todo.completed d); simpl; lia.
  - clear. induction mine as [|d r IH]; simpl; [reflexivity|].
    destruct (Todo.completed d); simpl; [exact IH|].
    destruct (dueBeforeNow now d); simpl; lia.
  - unfold getUserStats, others.
    assert (E : filter (fun d => String.eqb (Todo.user d) caller)
                  (filter (fun d => negb (String.eqb (Todo.user d) caller)) db)
                = []).
    { clear. induction db as [|d r IH]; simpl; [reflexivity|].
      destruct (String.eqb (Todo.user d) caller) eqn:E; simpl;
        [exact IH|now rewrite E]. }
    now rewrite E.
Qed.

Lemma length_filter_split {A : Type} (f g h : A -> bool) (l : list A) :
  (forall x, (if f x then 1 else 0)%nat
             = ((if g x then 1 else 0) + (if h x then 1 else 0))%nat) ->
  List.length (filter f l)
  = (List.length (filter g l) + List.length (filter h l))%nat.
Proof.
  intros H. induction l as [|x r IH]; simpl; [reflexivity|].
  specialize (H x). destruct (f x), (g x), (h x); simpl in *; lia.
Qed.

(** X8. The overdue count of the statistics and the [isOverdue] virtual
    disagree on todos with no due date: the statistics count every todo
    of the caller's for which [isOverdue] holds at that time, and also
    every pending todo of the caller's whose due date is null. *)
Theorem stats_overdue_counts_undated (now : Date) (caller : ObjectId)
    (db : Todos) :
  let mine := filter (fun d => String.eqb (Todo.user d) caller) db in
  Stats.overdue (getUserStats now caller db)
  = (List.length (filter (isOverdue now) mine)
     + List.length
         (filter (fun d => negb (Todo.completed d)
                           && negb (Todo.isSet (Todo.dueDate d))) mine))%nat.
Proof.
  cbv zeta. rewrite getUserStats_counts. simpl.
  apply length_filter_split. intros d.
  unfold isOverdue, dueBeforeNow, cmpOptDate.
  destruct (Todo.completed d), (Todo.dueDate d) as [due|]; simpl;
    try reflexivity.
  rewrite Z.ltb_compare. now destruct (due ?= now).
Qed.

Example stats_of_sample :
  getUserStats 500 "u1" Sample2.todos
    = {| Stats.total := 4; Stats.completed := 1; Stats.pending := 3;
         Stats.overdue := 2 |}
  /\ filter (isOverdue 500) Sample2.todos
     = [Sample2.dated "d1" "u1" false (Some 100) 1;
        Sample2.dated "d5" "u2" false (Some 100) 5].
Proof. split; reflexivity. Qed.

(** ** Writing todos *)

Lemma assign_keeps {A B : Type} (proj : Todo.t -> B) (o : option A)
    (set : A -> Todo.t -> Todo.t) (d : Todo.t) :
  (forall v x, proj (set v x) = proj x) ->
  proj (assign o set d) = proj d.
Proof. intros H. destruct o; simpl; auto. Qed.

(** What [save] hands back for a loaded document: the document as
    assigned, up to [completedAt] and [updatedAt], written in place of the
    stored one. *)
Lemma saveLoaded_returns (now : Date) (errs : list Message)
    (stored d saved : Todo.t) (db db' : Todos) :
  saveLoaded now errs stored d db = Returns (saved, db') ->
  errs = [] /\ Todo.validate saved = []
  /\ db' = replaceDoc saved db
  /\ Todo._id saved = Todo._id d /\ Todo.user saved = Todo.user d
  /\ Todo.createdAt saved = Todo.createdAt d
  /\ Todo.title saved = Todo.title d
  /\ Todo.description saved = Todo.description d
  /\ Todo.completed saved = Todo.completed d
  /\ Todo.priority saved = Todo.priority d
  /\ Todo.dueDate saved = Todo.dueDate d
  /\ Todo.tags saved = Todo.tags d
  /\ Todo.category saved = Todo.category d
  /\ (Todo.completed d = Todo.completed stored ->
      Todo.completedAt saved = Todo.completedAt d).
Proof.
  unfold saveLoaded. intros H.
  destruct (errs ++ Todo.validate d) eqn:E; [|discriminate].
  apply app_eq_nil in E. destruct E as [E1 E2].
  injection H as Hs Hdb. split; [exact E1|].
  set (m := negb (Bool.eqb (Todo.completed stored) (Todo.completed d))) in *.
  assert (Hv : Todo.validate saved = []).
  { subst saved. destruct (Todo.eq_dec _ _);
      [|rewrite validate_set_updatedAt]; now rewrite validate_preSave. }
  split; [exact Hv|]. split; [now rewrite <- Hdb, <- Hs|].
  assert (Hm : Todo.completed d = Todo.completed stored -> m = false).
  { intros Hc. subst m. rewrite Hc. now destruct (Todo.completed stored). }
  subst saved. clear Hdb Hv E1 E2.
  destruct d as [i ti de c pr du ca us tg cg cr up].
  destruct (Todo.eq_dec _ _) as [_|_];
    (destruct m; [destruct c, ca|]; simpl in *;
     repeat split; try reflexivity; intros Hc; try reflexivity;
     specialize (Hm Hc); discriminate).
Qed.

Lemma others_app (caller : ObjectId) (a b : Todos) :
  others caller (a ++ b) = others caller a ++ others caller b.
Proof. apply filter_app. Qed.

Lemma others_replaceDoc (caller id : ObjectId) (db : Todos)
    (stored d : Todo.t) :
  findById id db = Some stored ->
  Todo.user stored = caller ->
  Todo._id d = id ->
  Todo.user d = caller ->
  others caller (replaceDoc d db) = others caller db.
Proof.
  intros Hfind Hu Hid Hud. unfold findById in Hfind.
  induction db as [|x r IH]; simpl in *; [reflexivity|].
  rewrite Hid. destruct (String.eqb (Todo._id x) id).
  - injection Hfind as ->. unfold others. simpl.
    now rewrite Hu, Hud, String.eqb_refl.
  - unfold others in *. simpl.
    destruct (negb (String.eqb (Todo.user x) caller)); now rewrite IH.
Qed.

Lemma others_findByIdAndDelete (caller id : ObjectId) (db : Todos)
    (stored : Todo.t) :
  findById id db = Some stored ->
  Todo.user stored = caller ->
  others caller (findByIdAndDelete id db) = others caller db.
Proof.
  intros Hfind Hu. unfold findById in Hfind.
  induction db as [|x r IH]; simpl in *; [reflexivity|].
  destruct (String.eqb (Todo._id x) id).
  - injection Hfind as ->. unfold others. simpl.
    now rewrite Hu, String.eqb_refl.
  - unfold others in *. simpl.
    destruct (negb (String.eqb (Todo.user x) caller)); now rewrite IH.
Qed.

Lemma checkResourceOwnership_next (caller id : ObjectId) (db : Todos)
    (resource : Todo.t) :
  checkResourceOwnership caller (Id id) db = Next resource ->
  findById id db = Some resource
  /\ Todo.user resource = caller /\ Todo._id resource = id.
Proof.
  unfold checkResourceOwnership.
  destruct (findById id db) as [x|] eqn:Ef; [|discriminate].
  destruct (String.eqb (Todo.user x) caller) eqn:Eu; [|discriminate].
  simpl. intros H. injection H as <-. apply String.eqb_eq in Eu.
  split; [reflexivity|]. split; [exact Eu|].
  now apply findById_id with (db := db).
Qed.

(** The document [PUT /:id] assigns to, from the stored one. *)
Lemma update_assigned_keeps (resource : Todo.t)
    (title description : option string) (completed : option bool)
    (priority : option string) (due : option (option Date))
    (category : option string) (tags : option (list string)) :
  let d :=
    assign tags Todo.set_tags
      (assign category Todo.set_category
         (assign due Todo.set_dueDate
            (assign priority Todo.set_priority
               (assign completed Todo.set_completed
                  (assign description Todo.set_description
                     (assign title Todo.set_title resource)))))) in
  Todo._id d = Todo._id resource
  /\ Todo.user d = Todo.user resource
  /\ Todo.createdAt d = Todo.createdAt resource
  /\ Todo.completedAt d = Todo.completedAt resource
  /\ Todo.title d
     = match title with Some v => JS.trim v | None => Todo.title resource end
  /\ Todo.description d
     = match description with
       | Some v => JS.trim v
       | None => Todo.description resource
       end
  /\ Todo.completed d
     = match completed with Some v => v | None => Todo.completed resource end
  /\ Todo.priority d
     = match priority with Some v => v | None => Todo.priority resource end
  /\ Todo.dueDate d
     = match due with Some v => v | None => Todo.dueDate resource end
  /\ Todo.category d
     = match category with
       | Some v => JS.trim v
       | None => Todo.category resource
       end
  /\ Todo.tags d
     = match tags with Some v => map JS.trim v | None => Todo.tags resource end.
Proof.
  destruct resource as [i ti de c pr du ca us tg cg cr up].
  destruct title, description, completed, priority, due, category, tags;
    cbv zeta; unfold assign; cbn -[JS.trim];
    repeat split; reflexivity.
Qed.

(** X9. [POST /] changes the collection only when it answers 201, and
    then by appending exactly one todo: the one it reports, which
    satisfies the schema, belongs to the caller, is pending with a null
    [completedAt], and carries the request time as both timestamps.  A
    missing or blank title is refused with 400 before anything is
    built. *)
Theorem create_appends_one_valid_todo_or_nothing (P : Platform) (now : Date)
    (newId caller : ObjectId) (req : CreateBody.t) (db : Todos) :
  let r := fst (createRoute P now newId caller req db) in
  let db' := snd (createRoute P now newId caller req db) in
  (status r = 201 ->
   exists saved : Todo.t,
     body r = BTodo "Todo created successfully" saved
     /\ db' = db ++ [saved]
     /\ Todo.validate saved = []
     /\ Todo._id saved = newId /\ Todo.user saved = caller
     /\ Todo.completed saved = false /\ Todo.completedAt saved = None
     /\ Todo.createdAt saved = now /\ Todo.updatedAt saved = now)
  /\ (status r <> 201 -> db' = db)
  /\ ((forall t, CreateBody.title req = Some t -> JS.trim t = "") ->
      r = respond 400 (BError "Todo title is required") /\ db' = db).
Proof.
  cbv zeta. unfold createRoute.
  destruct (truthyFilter (CreateBody.title req)) as [title|] eqn:Et.
  2: { simpl. repeat split; try discriminate; reflexivity. }
  apply truthyFilter_Some in Et. destruct Et as [Et Htruthy].
  destruct (String.length (JS.trim title) =? 0)%nat eqn:El.
  { simpl. repeat split; try discriminate; reflexivity. }
  destruct (castDue P (CreateBody.dueDate req)) as [due errs].
  unfold saveNew.
  destruct (errs ++ Todo.validate _) eqn:E; simpl.
  - apply app_eq_nil in E. destruct E as [_ E].
    split; [|split].
    + intros _. eexists. split; [reflexivity|]. split; [reflexivity|].
      split; [exact E|]. repeat split; reflexivity.
    + intros H. now contradiction H.
    + intros Hblank. rewrite (Hblank title Et) in El. discriminate.
  - split; [discriminate|]. split; [reflexivity|].
    intros Hblank. rewrite (Hblank title Et) in El. discriminate.
Qed.

Lemma blank_check_never_fires (t : option string) :
  match option_map (fun v => if JS.truthy v then JS.trim v else v) t with
  | Some v => JS.truthy v && (String.length v =? 0)%nat
  | None => false
  end = false.
Proof.
  destruct t as [v|]; simpl; [|reflexivity].
  now destruct (if JS.truthy v then JS.trim v else v).
Qed.

(** X10. [PUT /:id] never answers [Todo title cannot be empty]: the test
    in front of that reply asks for a title that is truthy and of length
    0 at once. *)
Theorem update_never_reports_empty_title (P : Platform) (now : Date)
    (caller : ObjectId) (id : RawId) (req : UpdateBody.t) (db : Todos) :
  fst (updateRoute P now caller id req db)
  <> respond 400 (BError "Todo title cannot be empty").
Proof.
  unfold updateRoute.
  destruct (checkResourceOwnership caller id db) as [resource|r] eqn:Eo.
  2: { unfold checkResourceOwnership in Eo.
       destruct id as [id|text]; [|injection Eo as <-; discriminate].
       destruct (findById id db) as [x|]; [|injection Eo as <-; discriminate].
       destruct (negb (String.eqb (Todo.user x) caller));
         [injection Eo as <-|]; discriminate. }
  destruct (UpdateBody.noKeys req); [discriminate|].
  cbv zeta.
  destruct (match UpdateBody.dueDate req with
            | Some v => let '(d, errs) := castDue P v in (Some d, errs)
            | None => (None, [])
            end) as [due errs].
  rewrite blank_check_never_fires.
  match goal with |- context [saveLoaded now errs resource ?d db] =>
    destruct (saveLoaded now errs resource d db) as [[sv dbv]|e]
  end; simpl; [discriminate|].
  destruct e; simpl; discriminate.
Qed.

(** X11. A [PUT] whose title is empty or blank is turned down by the
    schema, not by the route: the answer is 400 [Validation failed] with
    the message [Todo title is required], and nothing is written. *)
Theorem update_blank_title_fails_validation (P : Platform) (now : Date)
    (caller : ObjectId) (id : RawId) (req : UpdateBody.t) (db : Todos)
    (resource : Todo.t) (t : string) :
  checkResourceOwnership caller id db = Next resource ->
  UpdateBody.title req = Some t ->
  JS.trim t = "" ->
  exists messages : list Message,
    updateRoute P now caller id req db
      = (respond 400 (BErrorMessages "Validation failed" messages), db)
    /\ In (Msg "Todo title is required") messages.
Proof.
  intros Hown Ht Hblank. unfold updateRoute. rewrite Hown.
  assert (Hk : UpdateBody.noKeys req = false)
    by (unfold UpdateBody.noKeys; now rewrite Ht).
  rewrite Hk. cbv zeta.
  destruct (match UpdateBody.dueDate req with
            | Some v => let '(d, errs) := castDue P v in (Some d, errs)
            | None => (None, [])
            end) as [due errs].
  rewrite blank_check_never_fires.
  match goal with |- context [saveLoaded now errs resource ?d db] =>
    set (doc := d)
  end.
  assert (Htitle : Todo.title doc = "").
  { subst doc.
    match goal with |- Todo.title
        (assign ?tg _ (assign ?cg _ (assign ?du _ (assign ?pr _
           (assign ?co _ (assign ?de _ (assign ?ti _ _))))))) = _ =>
      destruct (update_assigned_keeps resource ti de co pr du cg tg)
        as (_ & _ & _ & _ & H & _)
    end.
    rewrite H, Ht. simpl.
    destruct (JS.truthy t) eqn:E.
    - now rewrite Hblank.
    - destruct t; [reflexivity|discriminate]. }
  unfold saveLoaded.
  assert (Hin : In (Msg "Todo title is required") (errs ++ Todo.validate doc)).
  { apply in_or_app. right. unfold Todo.validate. rewrite Htitle. now left. }
  destruct (errs ++ Todo.validate doc) as [|m ms]; [contradiction|].
  simpl. eexists. split; [reflexivity|exact Hin].
Qed.

Lemma update_blank_title_fails_validation_witness :
  checkResourceOwnership "u1" (Id "t1") Sample.todos
    = Next (Sample.todo "t1" "buy milk" "low" "u1" 1)
  /\ JS.trim "   " = ""
  /\ exists messages : list Message,
       updateRoute Sample.platform 50 "u1" (Id "t1")
         {| UpdateBody.title := Some "   "; UpdateBody.description := None;
            UpdateBody.completed := None; UpdateBody.priority := None;
            UpdateBody.dueDate := None; UpdateBody.category := None;
            UpdateBody.tags := None |} Sample.todos
         = (respond 400 (BErrorMessages "Validation failed" messages),
            Sample.todos)
       /\ In (Msg "Todo title is required") messages.
Proof.
  split; [reflexivity|]. split; [reflexivity|].
  apply (update_blank_title_fails_validation Sample.platform 50 "u1"
           (Id "t1") _
           Sample.todos (Sample.todo "t1" "buy milk" "low" "u1" 1) "   ");
    reflexivity.
Defined.

(** X12. A successful [PUT /:id] writes one document in place of the one
    it loaded, and that document satisfies the schema, keeps the [_id],
    the owner and the creation time, and keeps every path whose key the
    body does not have.  When the body leaves [completed] out, or repeats
    its stored value, [completedAt] stays as it was. *)
Theorem update_keeps_what_the_body_omits (P : Platform) (now : Date)
    (caller : ObjectId) (id : RawId) (req : UpdateBody.t) (db db' : Todos)
    (resource saved : Todo.t) (message : string) :
  checkResourceOwnership caller id db = Next resource ->
  updateRoute P now caller id req db
    = (respond 200 (BTodo message saved), db') ->
  db' = replaceDoc saved db
  /\ Todo.validate saved = []
  /\ Todo._id saved = Todo._id resource
  /\ Todo.user saved = Todo.user resource
  /\ Todo.createdAt saved = Todo.createdAt resource
  /\ (UpdateBody.title req = None -> Todo.title saved = Todo.title resource)
  /\ (UpdateBody.description req = None ->
      Todo.description saved = Todo.description resource)
  /\ (UpdateBody.priority req = None ->
      Todo.priority saved = Todo.priority resource)
  /\ (UpdateBody.dueDate req = None ->
      Todo.dueDate saved = Todo.dueDate resource)
  /\ (UpdateBody.category req = None ->
      Todo.category saved = Todo.category resource)
  /\ (UpdateBody.tags req = None -> Todo.tags saved = Todo.tags resource)
  /\ (UpdateBody.completed req = None
      \/ UpdateBody.completed req = Some (Todo.completed resource) ->
      Todo.completed saved = Todo.completed resource
      /\ Todo.completedAt saved = Todo.completedAt resource).
Proof.
  intros Hown. unfold updateRoute. rewrite Hown.
  destruct (UpdateBody.noKeys req); [intros H; inversion H|].
  cbv zeta.
  destruct (match UpdateBody.dueDate req with
            | Some v => let '(d, errs) := castDue P v in (Some d, errs)
            | None => (None, [])
            end) as [due errs] eqn:Edue.
  rewrite blank_check_never_fires.
  match goal with |- context [saveLoaded now errs resource ?d db] =>
    set (doc := d);
    destruct (saveLoaded now errs resource doc db) as [[sv dbv]|e] eqn:Es
  end.
  2: { intros H. destruct e; inversion H. }
  intros H. inversion H; subst sv dbv. clear H.
  apply saveLoaded_returns in Es.
  destruct Es as (_ & Hv & Hdb & Hid & Hu & Hcr & Hti & Hde & Hco & Hpr
                  & Hdu & Htg & Hcg & Hat).
  subst doc.
  match type of Hid with _ = Todo._id
      (assign ?tg _ (assign ?cg _ (assign ?du _ (assign ?pr _
         (assign ?co _ (assign ?de _ (assign ?ti _ _))))))) =>
    destruct (update_assigned_keeps resource ti de co pr du cg tg)
      as (Kid & Ku & Kcr & Kat & Kti & Kde & Kco & Kpr & Kdu & Kcg & Ktg)
  end.
  cbv zeta in *.
  rewrite Kid in Hid. rewrite Ku in Hu. rewrite Kcr in Hcr.
  rewrite Kti in Hti. rewrite Kde in Hde. rewrite Kco in Hco, Hat.
  rewrite Kpr in Hpr. rewrite Kdu in Hdu. rewrite Ktg in Htg.
  rewrite Kcg in Hcg. rewrite Kat in Hat.
  repeat split; auto.
  - intros E. now rewrite E in Hti.
  - intros E. now rewrite E in Hde.
  - intros E. now rewrite E in Hpr.
  - intros E. rewrite E in Edue. injection Edue as <- _. exact Hdu.
  - intros E. now rewrite E in Hcg.
  - intros E. now rewrite E in Htg.
  - destruct H as [E|E]; now rewrite E in Hco.
  - destruct H as [E|E]; rewrite E in Hat; now apply Hat.
Qed.

Lemma update_keeps_what_the_body_omits_witness :
  let stored := Sample.todo "t1" "buy milk" "low" "u1" 1 in
  let req := {| UpdateBody.title := None; UpdateBody.description := None;
                UpdateBody.completed := None;
                UpdateBody.priority := Some "high";
                UpdateBody.dueDate := None; UpdateBody.category := None;
                UpdateBody.tags := None |} in
  exists (saved : Todo.t) (db' : Todos),
    updateRoute Sample.platform 50 "u1" (Id "t1") req Sample.todos
      = (respond 200 (BTodo "Todo updated successfully" saved), db')
    /\ Todo.priority saved = "high"
    /\ Todo.title saved = Todo.title stored
    /\ Todo.completedAt saved = Todo.completedAt stored.
Proof.
  intros stored req. eexists _, _. split; [reflexivity|].
  split; [reflexivity|].
  destruct (update_keeps_what_the_body_omits Sample.platform 50 "u1"
              (Id "t1") req
              Sample.todos _ stored _ _ eq_refl eq_refl)
    as (_ & _ & _ & _ & _ & Hti & _ & _ & _ & _ & _ & Hat).
  split; [now apply Hti|]. apply Hat. now left.
Defined.

Lemma createRoute_collection (P : Platform)
    (now : Date) (newId caller : ObjectId) (req : CreateBody.t)
    (db : Todos) :
  snd (createRoute P now newId caller req db) = db
  \/ exists saved : Todo.t,
       snd (createRoute P now newId caller req db) = db ++ [saved]
       /\ Todo.user saved = caller.
Proof.
  unfold createRoute.
  destruct (truthyFilter (CreateBody.title req)) as [title|];
    [|now left].
  destruct (String.length (JS.trim title) =? 0)%nat; [now left|].
  destruct (castDue P (CreateBody.dueDate req)) as [due errs].
  unfold saveNew.
  destruct (errs ++ Todo.validate _); simpl; [|now left].
  right. eexists. split; reflexivity.
Qed.

Lemma others_bulk (caller : ObjectId) (db : Todos)
    (sel : Todo.t -> bool) (f : Todo.t -> Todo.t) :
  (forall d, sel d = true -> Todo.user d = caller) ->
  (forall d, Todo.user (f d) = Todo.user d) ->
  others caller (filter (fun d => negb (sel d)) db) = others caller db
  /\ others caller (map (fun d => if sel d then f d else d) db)
     = others caller db.
Proof.
  intros Hsel Hf. unfold others.
  split; induction db as [|d r IH]; simpl; try reflexivity.
  - destruct (sel d) eqn:E; simpl.
    + rewrite (Hsel d E), String.eqb_refl. exact IH.
    + destruct (negb (String.eqb (Todo.user d) caller)); now rewrite IH.
  - destruct (sel d) eqn:E; simpl.
    + rewrite Hf, (Hsel d E), String.eqb_refl. exact IH.
    + destruct (negb (String.eqb (Todo.user d) caller)); now rewrite IH.
Qed.

Lemma matches_ownedIn_user (caller : ObjectId) (ids : list ObjectId)
    (d : Todo.t) :
  matches (ownedIn caller ids) None d = true -> Todo.user d = caller.
Proof.
  intros H. apply matches_parts in H. now destruct H as (H & _).
Qed.

(** X13. No route lets a caller write to another user's todos: after a
    create, an update, a toggle, a delete, a bulk delete or a bulk update
    by [caller], whatever the request and its outcome, the todos owned by
    anyone else are exactly as before, and in the same order. *)
Theorem writes_leave_other_users_todos (P : Platform) (now : Date)
    (caller newId : ObjectId) (id : RawId) (creq : CreateBody.t)
    (ureq : UpdateBody.t) (ids : option (list RawId))
    (updates : option BulkUpdates.t) (db : Todos) :
  others caller (snd (createRoute P now newId caller creq db))
    = others caller db
  /\ others caller (snd (updateRoute P now caller id ureq db))
     = others caller db
  /\ others caller (snd (toggleRoute now caller id db)) = others caller db
  /\ others caller (snd (deleteRoute caller id db)) = others caller db
  /\ others caller (snd (bulkDeleteRoute caller ids db)) = others caller db
  /\ others caller (snd (bulkUpdateRoute now caller ids updates db))
     = others caller db.
Proof.
  repeat split.
  - destruct (createRoute_collection P now newId caller
                creq db) as [E|(saved & E & Hu)]; rewrite E; [reflexivity|].
    rewrite others_app. unfold others at 2. simpl.
    rewrite Hu, String.eqb_refl. simpl. apply app_nil_r.
  - destruct id as [id|text]; [|reflexivity]. unfold updateRoute.
    destruct (checkResourceOwnership caller (Id id) db) as [resource|r] eqn:Eo;
      [|reflexivity].
    apply checkResourceOwnership_next in Eo. destruct Eo as (Hf & Hu & Hid).
    destruct (UpdateBody.noKeys ureq); [reflexivity|]. cbv zeta.
    destruct (match UpdateBody.dueDate ureq with
              | Some v => let '(d, errs) := castDue P v in (Some d, errs)
              | None => (None, [])
              end) as [due errs].
    rewrite blank_check_never_fires.
    match goal with |- context [saveLoaded now errs resource ?d db] =>
      set (doc := d);
      destruct (saveLoaded now errs resource doc db) as [[sv dbv]|e] eqn:Es
    end; [|reflexivity].
    simpl. apply saveLoaded_returns in Es.
    destruct Es as (_ & _ & -> & Hsid & Hsu & _).
    subst doc.
    match type of Hsid with _ = Todo._id
        (assign ?tg _ (assign ?cg _ (assign ?du _ (assign ?pr _
           (assign ?co _ (assign ?de _ (assign ?ti _ _))))))) =>
      destruct (update_assigned_keeps resource ti de co pr du cg tg)
        as (Kid & Ku & _)
    end.
    cbv zeta in *. rewrite Kid in Hsid. rewrite Ku in Hsu.
    apply others_replaceDoc with (id := id) (stored := resource); congruence.
  - destruct id as [id|text]; [|reflexivity]. unfold toggleRoute.
    destruct (checkResourceOwnership caller (Id id) db) as [resource|r] eqn:Eo;
      [|reflexivity].
    apply checkResourceOwnership_next in Eo. destruct Eo as (Hf & Hu & Hid).
    match goal with |- context [saveLoaded now [] resource ?d db] =>
      destruct (saveLoaded now [] resource d db) as [[sv dbv]|e] eqn:Es
    end; [|reflexivity].
    simpl. apply saveLoaded_returns in Es.
    destruct Es as (_ & _ & -> & Hsid & Hsu & _).
    apply others_replaceDoc with (id := id) (stored := resource); auto.
    + rewrite Hsid. now destruct resource.
    + rewrite Hsu. now destruct resource.
  - destruct id as [id|text]; [|reflexivity]. unfold deleteRoute.
    destruct (checkResourceOwnership caller (Id id) db) as [resource|r] eqn:Eo;
      [|reflexivity].
    apply checkResourceOwnership_next in Eo. destruct Eo as (Hf & Hu & Hid).
    simpl. rewrite Hid.
    now apply others_findByIdAndDelete with (stored := resource).
  - unfold bulkDeleteRoute. destruct ids as [[|i l]|]; try reflexivity.
    destruct (castIds (i :: l)) as [cast|e]; [|reflexivity].
    unfold deleteMany. simpl.
    apply (proj1 (others_bulk caller db
                    (matches (ownedIn caller cast) None) (fun d => d)
                    (matches_ownedIn_user caller cast)
                    (fun d => eq_refl))).
  - unfold bulkUpdateRoute. destruct ids as [[|i l]|]; try reflexivity.
    destruct updates as [u|]; [|reflexivity].
    destruct (BulkUpdates.noKeys u); [reflexivity|].
    destruct (castIds (i :: l)) as [cast|e]; [|reflexivity].
    unfold updateMany. simpl.
    refine (proj2 (others_bulk caller db
                     (matches (ownedIn caller cast) None) _
                     (matches_ownedIn_user caller cast) _)).
    intros d. destruct d as [i0 ti de c pr du ca us tg cg cr up].
    destruct u as [[uc|] [up'|] [ug|]]; reflexivity.
Qed.

Lemma findByIdAndDelete_spec (id : ObjectId) (db : Todos) (d : Todo.t) :
  NoDup (map Todo._id db) ->
  findById id db = Some d ->
  (forall x, In x (findByIdAndDelete id db) <-> In x db /\ Todo._id x <> id)
  /\ List.length db = S (List.length (findByIdAndDelete id db)).
Proof.
  unfold findById. induction db as [|y r IH]; simpl; [discriminate|].
  intros Hnd Hfind. inversion Hnd as [|? ? Hnotin Hnd']; subst.
  destruct (String.eqb (Todo._id y) id) eqn:E.
  - apply String.eqb_eq in E. split; [|reflexivity].
    intros x. split.
    + intros Hx. split; [now right|]. intros Hid. apply Hnotin.
      rewrite E, <- Hid. now apply in_map.
    + intros [[->|Hx] Hne]; [contradiction|exact Hx].
  - destruct (IH Hnd' Hfind) as [IHin IHlen]. split.
    + intros x. simpl. rewrite IHin. split.
      * intros [->|[Hx Hne]].
        -- split; [now left|]. intros Hid. rewrite Hid, String.eqb_refl in E.
           discriminate.
        -- split; [now right|exact Hne].
      * intros [[->|Hx] Hne]; [now left|right; now split].
    + simpl. now rewrite IHlen.
Qed.

(** X14. Deleting one's own todo removes it and nothing else: with the
    ids of the collection distinct, [DELETE /:id] answers 200, the
    collection loses exactly the todo with that id, and a following
    [GET /:id] answers 404. *)
Theorem delete_removes_exactly_that_todo (caller id : ObjectId) (db : Todos)
    (d : Todo.t) :
  NoDup (map Todo._id db) ->
  findById id db = Some d ->
  Todo.user d = caller ->
  exists db' : Todos,
    deleteRoute caller (Id id) db
      = (respond 200 (BMessage "Todo deleted successfully"), db')
    /\ (forall x, In x db' <-> In x db /\ Todo._id x <> id)
    /\ List.length db = S (List.length db')
    /\ getRoute caller (Id id) db' = Sent (respond 404 (BError "Resource not found")).
Proof.
  intros Hnd Hfind Hu.
  pose proof (findById_id _ _ _ Hfind) as Hid.
  destruct (findByIdAndDelete_spec id db d Hnd Hfind) as [Hin Hlen].
  exists (findByIdAndDelete id db).
  unfold deleteRoute, checkResourceOwnership.
  rewrite Hfind, Hu, String.eqb_refl. simpl. rewrite Hid.
  split; [reflexivity|]. split; [exact Hin|]. split; [exact Hlen|].
  unfold getRoute, checkResourceOwnership.
  destruct (findById id (findByIdAndDelete id db)) as [x|] eqn:E;
    [|reflexivity].
  exfalso. pose proof (findById_id _ _ _ E) as Hx.
  apply findById_In in E. apply Hin in E. now destruct E.
Qed.

Lemma delete_removes_exactly_that_todo_witness :
  NoDup (map Todo._id Sample.todos)
  /\ exists db' : Todos,
       deleteRoute "u1" (Id "t2") Sample.todos
         = (respond 200 (BMessage "Todo deleted successfully"), db')
       /\ (forall x, In x db' <-> In x Sample.todos /\ Todo._id x <> "t2")
       /\ List.length Sample.todos = S (List.length db')
       /\ getRoute "u1" (Id "t2") db'
          = Sent (respond 404 (BError "Resource not found")).
Proof.
  assert (Hnd : NoDup (map Todo._id Sample.todos)).
  { simpl. repeat constructor; simpl; intuition discriminate. }
  split; [exact Hnd|].
  apply (delete_removes_exactly_that_todo "u1" "t2" Sample.todos
           (Sample.todo "t2" "abc" "medium" "u1" 2) Hnd); reflexivity.
Defined.

Lemma Forall2_map_right {A B : Type} (R : A -> B -> Prop) (g : A -> B)
    (l : list A) :
  (forall x, R x (g x)) -> Forall2 R l (map g l).
Proof. intros H. induction l; simpl; constructor; auto. Qed.

Lemma bulkUpdateRoute_cast (now : Date) (caller : ObjectId)
    (ids : list ObjectId) (u : BulkUpdates.t) (db : Todos) :
  ids <> [] ->
  BulkUpdates.noKeys u = false ->
  bulkUpdateRoute now caller (Some (map Id ids)) (Some u) db
  = let '(db', modifiedCount) := updateMany now (ownedIn caller ids) u db in
    (respond 200
       (BModified
          (JS.string_of_nat modifiedCount
           ++ " todo(s) updated successfully")%string
          modifiedCount),
     db').
Proof.
  intros Hids Hkeys. unfold bulkUpdateRoute.
  rewrite Hkeys, castIds_map_Id.
  destruct ids as [|i r]; [congruence|]. reflexivity.
Qed.

(** X15. A bulk update with a non-empty list of todo ids and at least one
    allowed key answers 200, counts the caller's listed todos, and
    rewrites the collection document by document: a todo of the caller's
    whose id is listed gets the given [completed], [priority] and
    (trimmed) [category] and the update time, and keeps every other path,
    [completedAt] included; every other todo is untouched.  When the list
    holds a value that does not cast to an id, the route answers 500 and
    writes nothing. *)
Theorem bulk_update_writes_only_given_paths (now : Date) (caller : ObjectId)
    (ids : list ObjectId) (u : BulkUpdates.t) (db : Todos) :
  ids <> [] ->
  BulkUpdates.noKeys u = false ->
  (exists (message : string) (db' : Todos),
      bulkUpdateRoute now caller (Some (map Id ids)) (Some u) db
        = (respond 200
             (BModified message
                (List.length (filter (ownedListedb caller ids) db))),
           db')
      /\ Forall2 (bulkUpdated now caller ids u) db db')
  /\ (forall (raw : list RawId) (text : string),
        In (NotAnId text) raw ->
        bulkUpdateRoute now caller (Some raw) (Some u) db
        = (respond 500 (BError "Failed to bulk update todos"), db)).
Proof.
  intros Hids Hkeys. split.
  - rewrite (bulkUpdateRoute_cast now caller ids u db Hids Hkeys).
    unfold updateMany.
    rewrite (filter_ext _ _ (matches_ownedIn caller ids)).
    eexists _, _. split; [reflexivity|].
    apply Forall2_map_right. intros d. unfold bulkUpdated.
    rewrite matches_ownedIn.
    destruct (ownedListedb caller ids d); [|reflexivity].
    destruct d as [i0 ti de c pr du ca us tg cg cr up].
    destruct u as [[uc|] [up'|] [ug|]]; cbn -[JS.trim];
      repeat split; reflexivity.
  - intros raw text Hin. unfold bulkUpdateRoute.
    rewrite Hkeys, (castIds_NotAnId raw text Hin).
    destruct raw as [|x r]; [contradiction|reflexivity].
Qed.

Lemma bulk_update_writes_only_given_paths_witness :
  let u := {| BulkUpdates.completed := None;
              BulkUpdates.priority := Some "high";
              BulkUpdates.category := Some " home " |} in
  ["t1"; "t4"] <> []
  /\ (exists (message : string) (db' : Todos),
         bulkUpdateRoute 50 "u1" (Some [Id "t1"; Id "t4"]) (Some u)
           Sample.todos
           = (respond 200 (BModified message 1), db')
         /\ Forall2 (bulkUpdated 50 "u1" ["t1"; "t4"] u) Sample.todos db')
  /\ bulkUpdateRoute 50 "u1" (Some [Id "t1"; NotAnId "none"]) (Some u)
       Sample.todos
     = (respond 500 (BError "Failed to bulk update todos"), Sample.todos).
Proof.
  intros u. split; [discriminate|].
  destruct (bulk_update_writes_only_given_paths 50 "u1" ["t1"; "t4"] u
              Sample.todos) as [Hok Hcast]; [discriminate|reflexivity|].
  split; [exact Hok|].
  apply (Hcast [Id "t1"; NotAnId "none"] "none"). right. now left.
Defined.

Lemma findById_map (id : ObjectId) (g : Todo.t -> Todo.t) (db : Todos) :
  (forall d, Todo._id (g d) = Todo._id d) ->
  findById id (map g db) = option_map g (findById id db).
Proof.
  intros Hg. unfold findById. induction db as [|x r IH]; simpl;
    [reflexivity|].
  rewrite Hg. now destruct (String.eqb (Todo._id x) id).
Qed.

(** X16. The bulk route runs no validator, the [save] of the single-todo
    routes validates the whole document: once a bulk update of a list of
    todo ids has given a todo a priority outside the schema's enum,
    toggling that todo answers 500 and leaves it as it is. *)
Theorem bulk_priority_outside_enum_blocks_toggle (now now' : Date)
    (caller id : ObjectId) (ids : list ObjectId) (p : string) (db : Todos)
    (d : Todo.t) :
  findById id db = Some d ->
  Todo.user d = caller ->
  In id ids ->
  ~ In p Todo.priorityEnum ->
  let bulk :=
    bulkUpdateRoute now caller (Some (map Id ids))
      (Some {| BulkUpdates.completed := None;
               BulkUpdates.priority := Some p;
               BulkUpdates.category := None |}) db in
  status (fst bulk) = 200
  /\ toggleRoute now' caller (Id id) (snd bulk)
     = (respond 500 (BError "Failed to toggle todo status"), snd bulk).
Proof.
  intros Hfind Hu Hin Hp. cbv zeta.
  assert (Hids : ids <> []) by (intros ->; contradiction).
  rewrite (bulkUpdateRoute_cast now caller ids
             {| BulkUpdates.completed := None;
                BulkUpdates.priority := Some p;
                BulkUpdates.category := None |} db Hids eq_refl).
  unfold updateMany.
  simpl fst. simpl snd. split; [reflexivity|].
  pose proof (findById_id _ _ _ Hfind) as Hid.
  set (g := fun d0 : Todo.t => if matches (ownedIn caller ids) None d0
                               then _ else d0).
  assert (Hg : forall x, Todo._id (g x) = Todo._id x).
  { intros x. subst g. cbv beta.
    destruct (matches _ None x); [|reflexivity]. now destruct x. }
  unfold toggleRoute, checkResourceOwnership.
  rewrite (findById_map id g db Hg), Hfind. simpl option_map.
  assert (Hsel : matches (ownedIn caller ids) None d = true).
  { rewrite matches_ownedIn. apply ownedListedb_spec. split; [|exact Hu].
    now rewrite Hid. }
  assert (Hgd : Todo.user (g d) = caller
                /\ In (EnumMsg "priority" p) (Todo.validate (g d))).
  { subst g. cbv beta. rewrite Hsel.
    destruct d as [i0 ti de c pr du ca us tg cg cr up]. simpl in *.
    split; [exact Hu|].
    unfold Todo.validate.
    cbn [Todo.priority Todo.set_updatedAt Todo.set_priority].
    assert (E : existsb (String.eqb p) Todo.priorityEnum = false).
    { destruct (existsb _ _) eqn:E; [|reflexivity].
      apply existsb_exists in E. destruct E as (x & Hx & Heq).
      apply String.eqb_eq in Heq. subst x. contradiction. }
    rewrite E. do 3 (apply in_or_app; right).
    apply in_or_app. left. now left. }
  destruct Hgd as [Hgu Hgv]. rewrite Hgu, String.eqb_refl. simpl negb.
  cbv iota. unfold saveLoaded. rewrite validate_set_completed.
  simpl app. destruct (Todo.validate (g d)); [contradiction|reflexivity].
Qed.

Lemma bulk_priority_outside_enum_blocks_toggle_witness :
  findById "t1" Sample.todos = Some (Sample.todo "t1" "buy milk" "low" "u1" 1)
  /\ ~ In "urgent" Todo.priorityEnum
  /\ let bulk :=
       bulkUpdateRoute 50 "u1" (Some [Id "t1"])
         (Some {| BulkUpdates.completed := None;
                  BulkUpdates.priority := Some "urgent";
                  BulkUpdates.category := None |}) Sample.todos in
     status (fst bulk) = 200
     /\ toggleRoute 60 "u1" (Id "t1") (snd bulk)
        = (respond 500 (BError "Failed to toggle todo status"), snd bulk).
Proof.
  assert (Hp : ~ In "urgent" Todo.priorityEnum).
  { simpl. intuition discriminate. }
  split; [reflexivity|]. split; [exact Hp|].
  apply (bulk_priority_outside_enum_blocks_toggle 50 60 "u1" "t1" ["t1"]
           "urgent" Sample.todos (Sample.todo "t1" "buy milk" "low" "u1" 1));
    [reflexivity|reflexivity|now left|exact Hp].
Defined.

(** ** Authentication *)

(** X17. Optional authentication attaches a user in exactly the cases in
    which required authentication lets the request through, the same user
    with the same write to the collection; in every other case it goes on
    with no user and no write.  Behind it, [requirePermission] passes
    exactly when required authentication would have passed. *)
Theorem optionalAuth_agrees_with_authenticate (P : Platform) (env : Env)
    (now : Date) (authHeader : option string) (users : Users) :
  optionalAuth P env now authHeader users
  = match authenticate P env now authHeader users with
    | (Next user, users') => (Some user, users')
    | (Respond _, _) => (None, users)
    end
  /\ forall permission : string,
       requirePermission permission
         (fst (optionalAuth P env now authHeader users)) = Next tt
       <-> exists user, fst (authenticate P env now authHeader users)
                        = Next user.
Proof.
  unfold optionalAuth, authenticate, requirePermission.
  destruct (bearerToken authHeader) as [tok|]; simpl.
  2: { split; [reflexivity|]. intros _. split; [discriminate|].
       intros [u H]. discriminate. }
  destruct (jwt_verify P tok (JWT_SECRET env) now) as [decoded|[| |]]; simpl;
    try (split; [reflexivity|]; intros _; split; [discriminate|];
         intros [u H]; discriminate).
  destruct (findUserById (userId decoded) users) as [user|]; simpl;
    try (split; [reflexivity|]; intros _; split; [discriminate|];
         intros [u H]; discriminate).
  destruct (User.isActive user); simpl;
    try (split; [reflexivity|]; intros _; split; [discriminate|];
         intros [u H]; discriminate).
  split; [reflexivity|]. intros _. split; [eauto|reflexivity].
Qed.

Lemma refreshSecret_fallback (env : Env) :
  truthyFilter (JWT_REFRESH_SECRET env) = None ->
  refreshSecret env = JWT_SECRET env.
Proof.
  unfold refreshSecret, JS.or_default.
  destruct (JWT_REFRESH_SECRET env) as [s|]; simpl; [|reflexivity].
  now destruct (JS.truthy s).
Qed.

Lemma substring_all (t : string) : String.substring 0 (String.length t) t = t.
Proof. induction t as [|c r IH]; simpl; [reflexivity|now rewrite IH]. Qed.

Lemma bearerToken_of_header (tok : string) :
  JS.truthy tok = true ->
  bearerToken (Some ("Bearer " ++ tok)%string) = Some tok.
Proof.
  intros H. unfold bearerToken.
  change (String.prefix "Bearer " ("Bearer " ++ tok)%string)
    with (String.prefix "" tok).
  assert (Hp : String.prefix "" tok = true) by now destruct tok.
  rewrite Hp. simpl JS.truthy. cbv iota. simpl andb. cbv iota.
  change (String.substring 7 (String.length ("Bearer " ++ tok)%string - 7)
            ("Bearer " ++ tok)%string)
    with (String.substring 0 (String.length tok - 0) tok).
  now rewrite Nat.sub_0_r, substring_all, H.
Qed.

(** X18. An access token cannot be used to refresh: provided
    [jwt.verify] hands back the payload that was signed, the access token
    of a pair made by [generateTokens] is refused by the refresh route
    with 401, even when both tokens are signed with the same secret, and
    nothing is written. *)
Theorem access_token_cannot_refresh (P : Platform) (env : Env)
    (now now' : Date) (uid : ObjectId) (users : Users) :
  let access := fst (generateTokens P env now uid) in
  (forall decoded,
      jwt_verify P access (refreshSecret env) now' = inl decoded ->
      decoded = {| userId := uid; type := None |}) ->
  jwt_verify P access (refreshSecret env) now' <> inr NotBeforeError ->
  exists b : Body,
    refresh P env now' (Some access) users = (respond 401 b, users)
    /\ issuedTokens (respond 401 b) = None.
Proof.
  cbv zeta. intros Hsame Hnb. unfold refresh, validateRefreshToken.
  destruct (truthyFilter (Some (fst (generateTokens P env now uid))))
    as [t|] eqn:Et; [|eexists; split; reflexivity].
  apply truthyFilter_Some in Et. destruct Et as [Et _]. injection Et as <-.
  destruct (jwt_verify P _ (refreshSecret env) now') as [decoded|[| |]] eqn:Ev;
    try (eexists; split; reflexivity); [|congruence].
  rewrite (Hsame decoded eq_refl). simpl. eexists; split; reflexivity.
Qed.

Lemma access_token_cannot_refresh_witness :
  fst (generateTokens Sample.platform Sample.env 5 "u1") = "au1"
  /\ jwt_verify Sample.platform "au1" (refreshSecret Sample.env) 9
     = inl {| userId := "u1"; type := None |}
  /\ exists b : Body,
       refresh Sample.platform Sample.env 9 (Some "au1") [Sample.alice]
         = (respond 401 b, [Sample.alice])
       /\ issuedTokens (respond 401 b) = None.
Proof.
  split; [reflexivity|]. split; [reflexivity|].
  apply (access_token_cannot_refresh Sample.platform Sample.env 5 9 "u1"
           [Sample.alice]).
  - intros decoded H. simpl in H. now injection H as <-.
  - discriminate.
Defined.

(** X19. The converse does not hold: [authenticate] never looks at the
    token type.  When no separate refresh secret is configured, the
    refresh token of a pair made by [generateTokens] is signed with the
    access secret, and as a bearer token it authenticates its user (given
    that [jwt.verify] hands back the payload that was signed and the user
    is active). *)
Theorem refresh_token_passes_authenticate (P : Platform) (env : Env)
    (now now' : Date) (uid : ObjectId) (users : Users) (user : User.t) :
  let refreshToken := snd (generateTokens P env now uid) in
  let payload := {| userId := uid; type := Some "refresh" |} in
  truthyFilter (JWT_REFRESH_SECRET env) = None ->
  (forall secret expiresIn,
      jwt_verify P (jwt_sign P payload secret expiresIn now) secret now'
      = inl payload) ->
  JS.truthy refreshToken = true ->
  findUserById uid users = Some user ->
  User.isActive user = true ->
  authenticate P env now' (Some ("Bearer " ++ refreshToken)%string) users
  = (Next (User.set_lastActive now' user),
     replaceUser (User.set_lastActive now' user) users).
Proof.
  cbv zeta. intros Hno Hround Htruthy Hfind Hactive.
  unfold authenticate. rewrite (bearerToken_of_header _ Htruthy).
  unfold generateTokens. simpl snd.
  rewrite (refreshSecret_fallback env Hno), Hround. simpl userId.
  rewrite Hfind, Hactive. reflexivity.
Qed.

Lemma refresh_token_passes_authenticate_witness :
  snd (generateTokens Sample.platform Sample.env 5 "u1") = "ru1"
  /\ authenticate Sample.platform Sample.env 9 (Some "Bearer ru1")
       [Sample.alice]
     = (Next (User.set_lastActive 9 Sample.alice),
        replaceUser (User.set_lastActive 9 Sample.alice) [Sample.alice]).
Proof.
  split; [reflexivity|].
  apply (refresh_token_passes_authenticate Sample.platform Sample.env 5 9
           "u1" [Sample.alice] Sample.alice); reflexivity.
Defined.

Lemma activeTokens_replaceUser_other (id : ObjectId) (u : User.t)
    (users : Users) :
  id <> User._id u ->
  activeTokens id (replaceUser u users) = activeTokens id users.
Proof.
  intros Hne. unfold activeTokens, findUserById.
  induction users as [|x r IH]; simpl; [reflexivity|].
  destruct (String.eqb (User._id x) (User._id u)) eqn:E; simpl.
  - apply String.eqb_eq in E.
    assert (E1 : String.eqb (User._id u) id = false).
    { apply String.eqb_neq. congruence. }
    assert (E2 : String.eqb (User._id x) id = false).
    { apply String.eqb_neq. congruence. }
    now rewrite E1, E2.
  - destruct (String.eqb (User._id x) id); [reflexivity|exact IH].
Qed.

Lemma activeTokens_replaceUser_same (users : Users) (u u' : User.t) :
  findUserById (User._id u) users = Some u ->
  User._id u' = User._id u ->
  activeTokens (User._id u) (replaceUser u' users)
  = Some (User.refreshTokens u').
Proof.
  intros Hfind Hid. unfold activeTokens.
  now rewrite (findUserById_replaceUser (User._id u) users u u' Hfind Hid).
Qed.

(** X20. Logout touches the caller's tokens only.  For an authenticated
    caller the route answers 200; the refresh tokens of every other user
    stay as they were, whatever token the body names; and the caller's
    set is the old one without the named token (the old one when the body
    names none). *)
Theorem logout_touches_only_the_callers_tokens (P : Platform) (env : Env)
    (now : Date) (authHeader refreshToken : option string)
    (users users1 : Users) (user : User.t) :
  authenticate P env now authHeader users = (Next user, users1) ->
  exists users' : Users,
    logout P env now authHeader refreshToken users
      = (respond 200 (BMessage "Logout successful"), users')
    /\ (forall id, id <> User._id user ->
                   activeTokens id users' = activeTokens id users)
    /\ activeTokens (User._id user) users'
       = Some (match truthyFilter refreshToken with
               | Some tok => without tok (User.refreshTokens user)
               | None => User.refreshTokens user
               end).
Proof.
  intros Hauth. unfold logout. rewrite Hauth.
  apply authenticate_next in Hauth.
  destruct Hauth as (stored & Hfind & _ & Hu & Hs).
  assert (Hid : User._id user = User._id stored)
    by (subst user; now destruct stored).
  assert (Hfind1 : findUserById (User._id user) users1 = Some user).
  { subst users1.
    apply (findUserById_replaceUser _ users stored user); [|reflexivity].
    now rewrite Hid. }
  assert (Hother1 : forall id, id <> User._id user ->
                               activeTokens id users1 = activeTokens id users).
  { intros id Hne. subst users1. now apply activeTokens_replaceUser_other. }
  destruct (truthyFilter refreshToken) as [tok|].
  - unfold removeRefreshToken. simpl snd.
    set (user' := User.set_refreshTokens _ user).
    assert (Hid' : User._id user' = User._id user)
      by (subst user'; now destruct user).
    eexists. split; [reflexivity|]. split.
    + intros id Hne. rewrite activeTokens_replaceUser_other; [auto|].
      now rewrite Hid'.
    + rewrite (activeTokens_replaceUser_same users1 user user' Hfind1 Hid').
      subst user'. now destruct user.
  - eexists. split; [reflexivity|]. split; [exact Hother1|].
    unfold activeTokens. now rewrite Hfind1.
Qed.

Lemma logout_touches_only_the_callers_tokens_witness :
  exists users' : Users,
    logout Sample.platform Sample.env 5 (Some "Bearer au1") (Some "ru2")
      Sample2.users
      = (respond 200 (BMessage "Logout successful"), users')
    /\ (forall id, id <> "u1" ->
                   activeTokens id users' = activeTokens id Sample2.users)
    /\ activeTokens "u1" users'
       = Some [{| User.token := "ru1"; User.issuedAt := 1000 |}].
Proof.
  apply (logout_touches_only_the_callers_tokens Sample.platform Sample.env 5
           (Some "Bearer au1") (Some "ru2") Sample2.users
           (replaceUser (User.set_lastActive 5 Sample.alice) Sample2.users)
           (User.set_lastActive 5 Sample.alice)).
  reflexivity.
Defined.

Lemma logout_then_refresh_is_refused_witness :
  exists (users2 : Users) (b : Body),
    logout Sample.platform Sample.env 5 (Some "Bearer au1") (Some "ru1")
      [Sample.alice]
      = (respond 200 (BMessage "Logout successful"), users2)
    /\ refresh Sample.platform Sample.env 9 (Some "ru1") users2
       = (respond 401 b, users2).
Proof.
  apply (logout_then_refresh_is_refused Sample.platform Sample.env 5 9
           (Some "Bearer au1") "ru1" [Sample.alice]
           [User.set_lastActive 5 Sample.alice]
           (User.set_lastActive 5 Sample.alice)
           {| userId := "u1"; type := Some "refresh" |});
    reflexivity.
Defined.

(** What [validateRefreshToken] checked when it lets a request through. *)
Lemma validateRefreshToken_next (P : Platform) (env : Env) (now : Date)
    (refreshToken : option string) (users : Users) (user : User.t)
    (tok : string) :
  validateRefreshToken P env now refreshToken users = Next (user, tok) ->
  refreshToken = Some tok
  /\ exists decoded : Payload,
       jwt_verify P tok (refreshSecret env) now = inl decoded
       /\ type decoded = Some "refresh"
       /\ findUserById (userId decoded) users = Some user
       /\ User._id user = userId decoded
       /\ User.isActive user = true
       /\ In tok (map User.token (User.refreshTokens user)).
Proof.
  unfold validateRefreshToken.
  destruct (truthyFilter refreshToken) as [t|] eqn:Et; [|discriminate].
  apply truthyFilter_Some in Et. destruct Et as [Et _].
  destruct (jwt_verify P t (refreshSecret env) now) as [decoded|[| |]] eqn:Ev;
    try discriminate.
  destruct (isRefresh decoded) eqn:Er; [|discriminate]. simpl.
  destruct (findUserById (userId decoded) users) as [u|] eqn:Eu;
    [|discriminate].
  destruct (User.isActive u) eqn:Ea; [|discriminate].
  destruct (existsb _ (User.refreshTokens u)) eqn:Ex; [|discriminate].
  simpl. intros H. injection H as <- <-.
  split; [exact Et|]. exists decoded. split; [exact Ev|].
  split.
  { unfold isRefresh in Er. destruct (type decoded) as [s|]; [|discriminate].
    apply String.eqb_eq in Er. now subst s. }
  split; [exact Eu|]. split; [now apply findUserById_id with (users := users)|].
  split; [exact Ea|].
  apply existsb_exists in Ex. destruct Ex as (rt & Hin & Heq).
  apply String.eqb_eq in Heq. subst t. now apply in_map.
Qed.

(** X21. A refresh answers 200 only for a token that [jwt.verify]
    accepts as a refresh token of an active user and that is in that
    user's active set; it then answers with the pair [generateTokens]
    makes for that user, and rotates: the user's active set loses the
    presented token and gains the new refresh token, stamped with the
    request time, and nobody else's tokens change. *)
Theorem refresh_success_rotates_the_token (P : Platform) (env : Env)
    (now : Date) (refreshToken : option string) (users users' : Users)
    (r : Response) :
  refresh P env now refreshToken users = (r, users') ->
  status r = 200 ->
  exists (tok : string) (decoded : Payload) (user : User.t),
    refreshToken = Some tok
    /\ jwt_verify P tok (refreshSecret env) now = inl decoded
    /\ type decoded = Some "refresh"
    /\ findUserById (userId decoded) users = Some user
    /\ User.isActive user = true
    /\ In tok (map User.token (User.refreshTokens user))
    /\ r = respond 200
             (BTokens "Token refreshed successfully"
                (fst (generateTokens P env now (userId decoded)))
                (snd (generateTokens P env now (userId decoded))))
    /\ activeTokens (userId decoded) users'
       = Some (without tok (User.refreshTokens user)
               ++ [{| User.token :=
                        snd (generateTokens P env now (userId decoded));
                      User.issuedAt := now |}])
    /\ (forall id, id <> userId decoded ->
                   activeTokens id users' = activeTokens id users).
Proof.
  unfold refresh. intros H Hstatus.
  destruct (validateRefreshToken P env now refreshToken users)
    as [[user tok]|resp] eqn:Ev.
  2: { injection H as <- <-. exfalso.
       unfold validateRefreshToken in Ev.
       destruct (truthyFilter refreshToken) as [t|];
         [|injection Ev as <-; discriminate].
       destruct (jwt_verify P t (refreshSecret env) now) as [d|[| |]];
         try (injection Ev as <-; discriminate).
       destruct (negb (isRefresh d)); [injection Ev as <-; discriminate|].
       destruct (findUserById (userId d) users) as [u|];
         [|injection Ev as <-; discriminate].
       destruct (User.isActive u); [|injection Ev as <-; discriminate].
       destruct (negb _); [injection Ev as <-|]; discriminate. }
  apply validateRefreshToken_next in Ev.
  destruct Ev as (Ert & decoded & Hv & Hty & Hfind & Hid & Hact & Hin).
  rewrite Hid in H.
  destruct (generateTokens P env now (userId decoded)) as [a t] eqn:Eg.
  unfold removeRefreshToken, addRefreshToken in H.
  cbv beta iota zeta in H. injection H as <- <-.
  exists tok, decoded, user. repeat (split; [assumption|]).
  rewrite !Eg. cbn [fst snd]. split; [reflexivity|].
  set (user1 := User.set_refreshTokens
                  (filter (fun rt => negb (String.eqb (User.token rt) tok))
                     (User.refreshTokens user)) user).
  set (user2 := User.set_refreshTokens _ user1).
  assert (Hid1 : User._id user1 = User._id user)
    by (subst user1; now destruct user).
  assert (Hid2 : User._id user2 = User._id user)
    by (subst user2 user1; now destruct user).
  assert (Hfind0 : findUserById (User._id user) users = Some user)
    by now rewrite Hid.
  assert (Hfind1 : findUserById (User._id user) (replaceUser user1 users)
                   = Some user1).
  { now apply (findUserById_replaceUser _ users user user1). }
  split.
  - rewrite <- Hid.
    unfold activeTokens.
    rewrite (findUserById_replaceUser (User._id user) _ user1 user2 Hfind1 Hid2).
    subst user2 user1. now destruct user.
  - intros id Hne. rewrite !activeTokens_replaceUser_other; congruence.
Qed.

Lemma refresh_success_rotates_the_token_witness :
  exists users' : Users,
    refresh Sample.platform Sample.env 9 (Some "ru2") Sample2.users
      = (respond 200 (BTokens "Token refreshed successfully" "au2" "ru2"),
         users')
    /\ activeTokens "u2" users'
       = Some [{| User.token := "ru2"; User.issuedAt := 9 |}]
    /\ activeTokens "u1" users' = activeTokens "u1" Sample2.users.
Proof.
  eexists. split; [reflexivity|].
  destruct (refresh_success_rotates_the_token Sample.platform Sample.env 9
              (Some "ru2") Sample2.users _ _ eq_refl eq_refl)
    as (tok & decoded & user & Et & Hv & _ & Hf & _ & _ & _ & Ha & Ho).
  injection Et as <-. simpl in Hv. injection Hv as <-.
  simpl in Hf. injection Hf as <-.
  split; [exact Ha|]. apply Ho. discriminate.
Defined.

(** X22. A rotated token cannot be replayed: after a successful refresh
    whose new refresh token differs from the presented one, presenting
    the old token again is answered 401, although [jwt.verify] still
    accepts it. *)
Theorem rotated_token_cannot_be_replayed (P : Platform) (env : Env)
    (now now' : Date) (tok : string) (users : Users) (user : User.t)
    (decoded : Payload) :
  validateRefreshToken P env now (Some tok) users = Next (user, tok) ->
  snd (generateTokens P env now (User._id user)) <> tok ->
  jwt_verify P tok (refreshSecret env) now' = inl decoded ->
  userId decoded = User._id user ->
  let users' := snd (refresh P env now (Some tok) users) in
  status (fst (refresh P env now (Some tok) users)) = 200
  /\ exists b : Body,
       refresh P env now' (Some tok) users' = (respond 401 b, users').
Proof.
  intros Hv Hnew Hverify Hsame. cbv zeta.
  set (user1 := User.set_refreshTokens
                  (filter (fun rt => negb (String.eqb (User.token rt) tok))
                     (User.refreshTokens user)) user).
  set (user2 :=
         User.set_refreshTokens
           (User.refreshTokens user1
            ++ [{| User.token := snd (generateTokens P env now (User._id user));
                   User.issuedAt := now |}]) user1).
  assert (Hr : refresh P env now (Some tok) users
               = (respond 200
                    (BTokens "Token refreshed successfully"
                       (fst (generateTokens P env now (User._id user)))
                       (snd (generateTokens P env now (User._id user)))),
                  replaceUser user2 (replaceUser user1 users))).
  { unfold refresh. rewrite Hv. subst user2 user1.
    destruct (generateTokens P env now (User._id user)) as [a t].
    reflexivity. }
  rewrite Hr. cbn [fst snd status respond]. split; [reflexivity|].
  apply validateRefreshToken_next in Hv.
  destruct Hv as (_ & d & _ & _ & Hfind & Hid & _ & _).
  rewrite <- Hid in Hfind.
  assert (Hid1 : User._id user1 = User._id user)
    by (subst user1; now destruct user).
  assert (Hid2 : User._id user2 = User._id user)
    by (subst user2 user1; now destruct user).
  assert (Hfind1 : findUserById (User._id user) (replaceUser user1 users)
                   = Some user1).
  { now apply (findUserById_replaceUser _ users user user1). }
  assert (Hfind2 : findUserById (User._id user)
                     (replaceUser user2 (replaceUser user1 users))
                   = Some user2).
  { now apply (findUserById_replaceUser _ _ user1 user2). }
  destruct (validateRefreshToken_rejects P env now' tok
              (replaceUser user2 (replaceUser user1 users))) as (b & Hrej & _).
  - rewrite Hverify. discriminate.
  - intros d' u Hd Hu. rewrite Hverify in Hd. injection Hd as <-.
    rewrite Hsame, Hfind2 in Hu. injection Hu as <-.
    subst user2 user1. destruct user; simpl in *.
    rewrite map_app, in_app_iff, in_map_iff. simpl.
    intros [(rt & Heq & Hin)|[Heq|[]]]; [|congruence].
    apply filter_In in Hin. destruct Hin as [_ Hne].
    rewrite Heq, String.eqb_refl in Hne. discriminate.
  - exists b. unfold refresh. now rewrite Hrej.
Qed.

Lemma rotated_token_cannot_be_replayed_witness :
  validateRefreshToken Sample2.stamped Sample.env 9 (Some "ru3@7")
    [Sample2.carol] = Next (Sample2.carol, "ru3@7")
  /\ snd (generateTokens Sample2.stamped Sample.env 9 "u3") = "ru3@9"
  /\ let users' :=
       snd (refresh Sample2.stamped Sample.env 9 (Some "ru3@7")
              [Sample2.carol]) in
     status (fst (refresh Sample2.stamped Sample.env 9 (Some "ru3@7")
                    [Sample2.carol])) = 200
     /\ exists b : Body,
          refresh Sample2.stamped Sample.env 12 (Some "ru3@7") users'
            = (respond 401 b, users').
Proof.
  split; [reflexivity|]. split; [reflexivity|].
  apply (rotated_token_cannot_be_replayed Sample2.stamped Sample.env 9 12
           "ru3@7" [Sample2.carol] Sample2.carol
           {| userId := "u3"; type := Some "refresh" |});
    try reflexivity.
  discriminate.
Defined.

(** ** Registration *)

Lemma NoDup_snoc {A : Type} (l : list A) (x : A) :
  NoDup l -> ~ In x l -> NoDup (l ++ [x]).
Proof.
  induction l as [|y r IH]; simpl; intros Hnd Hx.
  - repeat constructor. intros [].
  - inversion Hnd as [|? ? Hy Hr]; subst. constructor.
    + rewrite in_app_iff. simpl. intros [H|[H|[]]]; [auto|].
      apply Hx. now left.
    + apply IH; [exact Hr|]. intros H. apply Hx. now right.
Qed.

Lemma replaceUser_last (u x : User.t) (users : Users) :
  findUserById (User._id u) users = None ->
  User._id x = User._id u ->
  replaceUser u (users ++ [x]) = users ++ [u].
Proof.
  intros Hnone Hid. unfold findUserById in Hnone.
  induction users as [|y r IH]; simpl in *.
  - now rewrite Hid, String.eqb_refl.
  - destruct (String.eqb (User._id y) (User._id u)); [discriminate|].
    now rewrite IH.
Qed.

(** What a registration that answers 201 did. *)
Lemma register_created (P : Platform) (S : UserSchema) (env : Env)
    (now : Date) (newId : ObjectId) (req : RegisterBody.t)
    (users users' : Users) (r : Response) :
  register P S env now newId req users = (r, users') ->
  findUserById newId users = None ->
  users' = users
  \/ exists (username email firstName lastName password : string),
       RegisterBody.username req = Some username
       /\ RegisterBody.email req = Some email
       /\ findOneByEmailOrUsername email username users = None
       /\ users'
          = users
            ++ [{| User._id := newId; User.username := username;
                   User.email := email; User.firstName := firstName;
                   User.lastName := lastName;
                   User.password := hashPassword S password;
                   User.isActive := true; User.lastActive := now;
                   User.createdAt := now;
                   User.refreshTokens :=
                     [{| User.token := snd (generateTokens P env now newId);
                         User.issuedAt := now |}] |}]
       /\ r = respond 201
                (BRegistered "User registered successfully"
                   {| view_id := newId; view_username := username;
                      view_email := email; view_firstName := firstName;
                      view_lastName := lastName |}
                   (fst (generateTokens P env now newId))
                   (snd (generateTokens P env now newId))).
Proof.
  unfold register. intros H Hfresh.
  destruct (truthyFilter (RegisterBody.username req)) as [username|] eqn:E1;
    [|left; now injection H as _ <-].
  destruct (truthyFilter (RegisterBody.email req)) as [email|] eqn:E2;
    [|left; now injection H as _ <-].
  destruct (truthyFilter (RegisterBody.firstName req)) as [firstName|];
    [|left; now injection H as _ <-].
  destruct (truthyFilter (RegisterBody.lastName req)) as [lastName|];
    [|left; now injection H as _ <-].
  destruct (truthyFilter (RegisterBody.password req)) as [password|];
    [|left; now injection H as _ <-].
  apply truthyFilter_Some in E1, E2. destruct E1 as [E1 _], E2 as [E2 _].
  destruct (findOneByEmailOrUsername email username users) eqn:Ef;
    [left; now injection H as _ <-|].
  destruct (validateUser S _); [|left; now injection H as _ <-].
  right. exists username, email, firstName, lastName, password.
  destruct (generateTokens P env now newId) as [a t].
  unfold addRefreshToken in H. cbv beta iota zeta in H.
  cbn [User.set_refreshTokens User.refreshTokens User._id User.username
       User.email User.firstName User.lastName User.password User.isActive
       User.lastActive User.createdAt app] in H.
  rewrite replaceUser_last in H by (exact Hfresh || reflexivity).
  injection H as <- <-. repeat split; auto.
Qed.

(** X23. Registration keeps emails and usernames unique: if no two users
    share an email or a username, and the identifier of the new document
    is fresh, the same holds after a registration attempt, whatever its
    outcome. *)
Theorem register_keeps_emails_and_usernames_unique (P : Platform)
    (S : UserSchema) (env : Env) (now : Date) (newId : ObjectId)
    (req : RegisterBody.t) (users : Users) :
  NoDup (map User.email users) ->
  NoDup (map User.username users) ->
  findUserById newId users = None ->
  NoDup (map User.email (snd (register P S env now newId req users)))
  /\ NoDup (map User.username (snd (register P S env now newId req users))).
Proof.
  intros He Hu Hfresh.
  destruct (register P S env now newId req users) as [r users'] eqn:E.
  simpl. apply register_created in E; [|exact Hfresh].
  destruct E as [->|(username & email & fn & ln & pw & _ & _ & Hnone & -> & _)];
    [now split|].
  unfold findOneByEmailOrUsername in Hnone.
  rewrite !map_app. simpl.
  split; apply NoDup_snoc; auto; rewrite in_map_iff;
    intros (x & Hx & Hin);
    pose proof (find_none _ _ Hnone x Hin) as Hf; simpl in Hf;
    apply orb_false_iff in Hf; destruct Hf as [Hf1 Hf2];
    rewrite Hx, String.eqb_refl in *; discriminate.
Qed.

Lemma register_keeps_emails_and_usernames_unique_witness :
  let req := {| RegisterBody.username := Some "dave";
                RegisterBody.email := Some "dave@x.com";
                RegisterBody.firstName := Some "Dave";
                RegisterBody.lastName := Some "D";
                RegisterBody.password := Some "secret4" |} in
  status (fst (register Sample.platform Sample.schema Sample.env 5 "u4" req
                 Sample2.users)) = 201
  /\ NoDup (map User.email
              (snd (register Sample.platform Sample.schema Sample.env 5 "u4"
                      req Sample2.users)))
  /\ NoDup (map User.username
              (snd (register Sample.platform Sample.schema Sample.env 5 "u4"
                      req Sample2.users))).
Proof.
  intros req. split; [reflexivity|].
  apply (register_keeps_emails_and_usernames_unique Sample.platform
           Sample.schema Sample.env 5 "u4" req Sample2.users).
  - simpl. repeat constructor; simpl; intuition discriminate.
  - simpl. repeat constructor; simpl; intuition discriminate.
  - reflexivity.
Defined.

(** X24. The refresh token a registration hands out works at once: after
    a registration that answers 201 with a fresh identifier, the new user
    is the last of the collection, active, with that refresh token as its
    only active token, and (given that [jwt.verify] hands back the
    payload that was signed) [validateRefreshToken] lets a request with
    that token through as the new user. *)
Theorem registered_refresh_token_is_active (P : Platform) (S : UserSchema)
    (env : Env) (now now' : Date) (newId : ObjectId) (req : RegisterBody.t)
    (users users' : Users) (r : Response) :
  register P S env now newId req users = (r, users') ->
  status r = 201 ->
  findUserById newId users = None ->
  let refreshToken := snd (generateTokens P env now newId) in
  JS.truthy refreshToken = true ->
  jwt_verify P refreshToken (refreshSecret env) now'
    = inl {| userId := newId; type := Some "refresh" |} ->
  issuedTokens r = Some (fst (generateTokens P env now newId), refreshToken)
  /\ exists user : User.t,
       users' = users ++ [user]
       /\ User._id user = newId
       /\ User.isActive user = true
       /\ User.refreshTokens user
          = [{| User.token := refreshToken; User.issuedAt := now |}]
       /\ validateRefreshToken P env now' (Some refreshToken) users'
          = Next (user, refreshToken).
Proof.
  intros H Hstatus Hfresh. cbv zeta. intros Htruthy Hverify.
  pose proof (register_created P S env now newId req users users' r H Hfresh)
    as Hc.
  destruct Hc as [->|(username & email & fn & ln & pw & _ & _ & _ & -> & ->)].
  { exfalso. revert H Hstatus. unfold register.
    repeat match goal with
    | |- context [match truthyFilter ?x with _ => _ end] =>
        destruct (truthyFilter x)
    end; try (intros H; injection H as <-; discriminate).
    destruct (findOneByEmailOrUsername _ _ users);
      [intros H; injection H as <-; discriminate|].
    destruct (validateUser S _);
      [|intros H; injection H as <-; discriminate].
    destruct (generateTokens P env now newId) as [a t].
    unfold addRefreshToken. cbv beta iota zeta.
    cbn [User.set_refreshTokens User.refreshTokens User._id User.username
         User.email User.firstName User.lastName User.password User.isActive
         User.lastActive User.createdAt app].
    rewrite replaceUser_last by (exact Hfresh || reflexivity).
    intros H _. injection H as _ H.
    apply (f_equal (@List.length User.t)) in H.
    rewrite length_app in H. simpl in H. lia. }
  split; [reflexivity|].
  eexists. split; [reflexivity|]. repeat (split; [reflexivity|]).
  unfold validateRefreshToken, truthyFilter. rewrite Htruthy, Hverify.
  cbn [isRefresh type userId negb String.eqb Ascii.eqb Bool.eqb].
  assert (Hf : forall u, User._id u = newId ->
                         findUserById newId (users ++ [u]) = Some u).
  { intros u Hu. unfold findUserById in *. clear - Hfresh Hu.
    induction users as [|y l IH]; simpl in *.
    - now rewrite Hu, String.eqb_refl.
    - destruct (String.eqb (User._id y) newId); [discriminate|]. auto. }
  rewrite Hf by reflexivity. simpl. now rewrite String.eqb_refl.
Qed.

Lemma registered_refresh_token_is_active_witness :
  let req := {| RegisterBody.username := Some "dave";
                RegisterBody.email := Some "dave@x.com";
                RegisterBody.firstName := Some "Dave";
                RegisterBody.lastName := Some "D";
                RegisterBody.password := Some "secret4" |} in
  let out := register Sample.platform Sample.schema Sample.env 5 "u4" req
               Sample2.users in
  status (fst out) = 201
  /\ issuedTokens (fst out) = Some ("au4", "ru4")
  /\ exists user : User.t,
       snd out = Sample2.users ++ [user]
       /\ User._id user = "u4"
       /\ User.isActive user = true
       /\ User.refreshTokens user
          = [{| User.token := "ru4"; User.issuedAt := 5 |}]
       /\ validateRefreshToken Sample.platform Sample.env 9 (Some "ru4")
            (snd out) = Next (user, "ru4").
Proof.
  intros req out. split; [reflexivity|].
  apply (registered_refresh_token_is_active Sample.platform Sample.schema
           Sample.env 5 9 "u4" req Sample2.users (snd out) (fst out));
    reflexivity.
Defined.

(** ** Refusals *)

(** X25. The single-todo routes tell a missing todo from a foreign one
    and from an id that is none, and write in no such case: for an id
    that is not stored, fetch, update, toggle and delete all answer 404;
    for a todo stored under another owner they all answer 403; for text
    that does not cast to an id they all answer 500; the collection is
    unchanged. *)
Theorem single_todo_routes_refuse_missing_and_foreign (P : Platform)
    (now : Date) (caller : ObjectId) (id : RawId) (req : UpdateBody.t)
    (db : Todos) :
  (exists text, id = NotAnId text)
  \/ (exists i, id = Id i /\ findById i db = None)
  \/ (exists i d, id = Id i /\ findById i db = Some d
                  /\ Todo.user d <> caller) ->
  let refusal :=
    match id with
    | NotAnId _ => respond 500 (BError "Failed to verify resource ownership")
    | Id i =>
        match findById i db with
        | None => respond 404 (BError "Resource not found")
        | Some _ =>
            respond 403
              (BError "Access denied. You can only access your own resources.")
        end
    end in
  getRoute caller id db = Sent refusal
  /\ updateRoute P now caller id req db = (refusal, db)
  /\ toggleRoute now caller id db = (refusal, db)
  /\ deleteRoute caller id db = (refusal, db).
Proof.
  intros H. cbv zeta.
  unfold getRoute, updateRoute, toggleRoute, deleteRoute,
    checkResourceOwnership.
  destruct H as [(text & ->)|[(i & -> & ->)|(i & d & -> & -> & Hu)]];
    [now repeat split..|].
  apply String.eqb_neq in Hu. rewrite Hu. now repeat split.
Qed.

Lemma single_todo_routes_refuse_missing_and_foreign_witness :
  (toggleRoute 50 "u1" (Id "t4") Sample.todos
     = (respond 403
          (BError "Access denied. You can only access your own resources."),
        Sample.todos)
   /\ deleteRoute "u1" (Id "t4") Sample.todos
      = (respond 403
           (BError "Access denied. You can only access your own resources."),
         Sample.todos))
  /\ (toggleRoute 50 "u1" (NotAnId "none") Sample.todos
        = (respond 500 (BError "Failed to verify resource ownership"),
           Sample.todos)
      /\ getRoute "u1" (NotAnId "none") Sample.todos
         = Sent (respond 500 (BError "Failed to verify resource ownership"))).
Proof.
  pose (req := {| UpdateBody.title := None; UpdateBody.description := None;
                  UpdateBody.completed := Some true;
                  UpdateBody.priority := None; UpdateBody.dueDate := None;
                  UpdateBody.category := None; UpdateBody.tags := None |}).
  split.
  - destruct (single_todo_routes_refuse_missing_and_foreign Sample.platform
                50 "u1" (Id "t4") req Sample.todos) as (_ & _ & Ht & Hd).
    + right. right. eexists _, _. split; [reflexivity|].
      split; [reflexivity|]. discriminate.
    + split; [exact Ht|exact Hd].
  - destruct (single_todo_routes_refuse_missing_and_foreign Sample.platform
                50 "u1" (NotAnId "none") req Sample.todos)
      as (Hg & _ & Ht & _).
    + left. now exists "none".
    + split; [exact Ht|exact Hg].
Defined.

(** X26. [authenticate] writes only when it lets the request through:
    every refusal leaves the users as they were, and its status is 401,
    except for the 500 that answers a [NotBeforeError]. *)
Theorem authenticate_refuses_without_writing (P : Platform) (env : Env)
    (now : Date) (authHeader : option string) (users users' : Users)
    (r : Response) :
  authenticate P env now authHeader users = (Respond r, users') ->
  users' = users
  /\ (status r = 401
      \/ status r = 500
         /\ exists tok, bearerToken authHeader = Some tok
                        /\ jwt_verify P tok (JWT_SECRET env) now
                           = inr NotBeforeError).
Proof.
  unfold authenticate.
  destruct (bearerToken authHeader) as [tok|] eqn:Eb.
  2: { intros H. injection H as <- <-. split; [reflexivity|now left]. }
  destruct (jwt_verify P tok (JWT_SECRET env) now) as [decoded|[| |]] eqn:Ev.
  - destruct (findUserById (userId decoded) users) as [user|].
    + destruct (User.isActive user).
      * unfold updateLastActive. discriminate.
      * intros H. injection H as <- <-. split; [reflexivity|now left].
    + intros H. injection H as <- <-. split; [reflexivity|now left].
  - intros H. injection H as <- <-. split; [reflexivity|now left].
  - intros H. injection H as <- <-. split; [reflexivity|now left].
  - intros H. injection H as <- <-. split; [reflexivity|]. right.
    split; [reflexivity|]. now exists tok.
Qed.

Lemma authenticate_refuses_without_writing_witness :
  authenticate Sample.platform Sample.env 5 (Some "Basic au1") [Sample.alice]
    = (Respond (respond 401 (BError "Access denied. No token provided.")),
       [Sample.alice])
  /\ status (respond 401 (BError "Access denied. No token provided.")) = 401.
Proof.
  split; [reflexivity|].
  destruct (authenticate_refuses_without_writing Sample.platform Sample.env 5
              (Some "Basic au1") [Sample.alice] [Sample.alice]
              (respond 401 (BError "Access denied. No token provided."))
              eq_refl) as [_ [H|[H _]]]; [exact H|discriminate H].
Defined.

Lemma update_keeps_pair_witness :
  let stored := Sample.todo "t1" "buy milk" "low" "u1" 1 in
  let req := {| UpdateBody.title := None; UpdateBody.description := None;
                UpdateBody.completed := Some true;
                UpdateBody.priority := None; UpdateBody.dueDate := None;
                UpdateBody.category := None; UpdateBody.tags := None |} in
  pairOk stored
  /\ exists (saved : Todo.t) (db' : Todos),
       updateRoute Sample.platform 50 "u1" (Id "t1") req Sample.todos
         = (respond 200 (BTodo "Todo updated successfully" saved), db')
       /\ Todo.completedAt saved = Some 50
       /\ pairOk saved.
Proof.
  intros stored req.
  assert (Hok : pairOk stored).
  { unfold pairOk; simpl. split; [congruence|discriminate]. }
  split; [exact Hok|].
  eexists _, _. split; [reflexivity|]. split; [reflexivity|].
  apply (update_keeps_pair Sample.platform 50 "u1" "t1" req Sample.todos _
           stored _ _ eq_refl Hok eq_refl).
Defined.

Lemma parseInt_or_negative (o : option string) (d : Z) :
  JS.isNegative (JS.parseInt_opt o) = true ->
  JS.parseInt_or o d = JS.parseInt_opt o.
Proof.
  unfold JS.parseInt_or.
  destruct (JS.parseInt_opt o) as [|[|n|n]|negative]; simpl;
    try discriminate; reflexivity.
Qed.

Lemma pageOf_negative_skip (limit skip : JS.Number) (docs : Todos) :
  JS.isNegative skip = true -> pageOf limit skip docs = Throws MongoServerError.
Proof.
  unfold pageOf. destruct skip as [|s|[|]]; simpl; try discriminate.
  - intros E. unfold page. now rewrite E.
  - reflexivity.
Qed.

(** X28. A negative skip ends in 500 on both paged routes: when
    [parseInt] reads a negative number in [skip], the list route and the
    search route answer 500, whatever the other parameters. *)
Theorem negative_skip_answers_500 (P : Platform) (caller : ObjectId)
    (completed : option string) (f : Filters.t) (s : string)
    (l : option string) (db : Todos) :
  JS.isNegative (JS.parseInt_opt (Filters.skip f)) = true ->
  listRoute P caller completed f db = thrown500 "Failed to fetch todos"
  /\ searchRoute P caller s l (Filters.skip f) db
     = thrown500 "Failed to search todos".
Proof.
  intros Hneg.
  pose proof (parseInt_or_negative _ 0 Hneg) as Hskip.
  assert (Hp : forall lim docs,
             pageOf lim (JS.parseInt_opt (Filters.skip f)) docs
             = Throws MongoServerError)
    by (intros lim docs; now apply pageOf_negative_skip).
  split.
  - unfold listRoute, getUserTodos. cbn [Filters.skip Filters.limit
      Filters.sortBy]. rewrite Hskip.
    destruct (buildQuery P caller _) as [q|e]; [|reflexivity]. simpl bind.
    destruct (findAll P q db) as [found|e]; [|reflexivity]. simpl bind.
    now rewrite Hp.
  - unfold searchRoute. rewrite Hskip.
    destruct (findAll P _ db) as [found|e]; [|reflexivity]. simpl bind.
    now rewrite Hp.
Qed.

Lemma negative_skip_answers_500_witness :
  JS.parseInt_opt (Some "-1") = JS.Num (-1)
  /\ listRoute Sample.platform "u1" None (Sample.paged None (Some "-1"))
       Sample.todos = thrown500 "Failed to fetch todos"
  /\ searchRoute Sample.platform "u1" "milk" None (Some "-1") Sample.todos
     = thrown500 "Failed to search todos".
Proof.
  split; [reflexivity|].
  apply (negative_skip_answers_500 Sample.platform "u1" None
           (Sample.paged None (Some "-1")) "milk" None Sample.todos).
  reflexivity.
Defined.

(** ** The other sort keys *)

Lemma Sorted_map_rel {A : Type} (R R' : A -> A -> Prop) (l : list A) :
  (forall a b, R a b -> R' a b) -> Relations_1.Transitive R' ->
  Sorted R l -> StronglySorted R' l.
Proof.
  intros HR Ht Hs. apply Sorted_StronglySorted; [exact Ht|].
  now apply Sorted_weaken with (R := R).
Qed.

Lemma dueOrder_trans : Relations_1.Transitive dueOrder.
Proof.
  intros a b c. unfold dueOrder.
  destruct (Todo.dueDate a) as [x|], (Todo.dueDate b) as [y|],
    (Todo.dueDate c) as [z|]; intros H1 H2; try tauto.
  now apply Z.le_trans with (m := y).
Qed.

Lemma pendingFirst_trans : Relations_1.Transitive pendingFirst.
Proof. intros a b c. unfold pendingFirst. tauto. Qed.

Lemma notAfter_dueOrder (a b : Todo.t) :
  notAfter [(ByDueDate, 1); (ByCreatedAt, -1)] a b -> dueOrder a b.
Proof.
  unfold notAfter, dueOrder, cmpDocs, cmpPath, cmpOptDate.
  change (1 <? 0) with false. cbv iota.
  destruct (Todo.dueDate a) as [x|], (Todo.dueDate b) as [y|];
    try tauto; try congruence.
  destruct (x ?= y) eqn:E; intros H.
  - apply Z.compare_eq in E. rewrite E. apply Z.le_refl.
  - apply Z.compare_lt_iff in E. now apply Z.lt_le_incl.
  - congruence.
Qed.

Lemma notAfter_pendingFirst (a b : Todo.t) :
  notAfter [(ByCompleted, 1); (ByCreatedAt, -1)] a b -> pendingFirst a b.
Proof.
  unfold notAfter, pendingFirst, cmpDocs, cmpPath, cmpBool.
  change (1 <? 0) with false. cbv iota.
  destruct (Todo.completed a), (Todo.completed b); try tauto; congruence.
Qed.

(** X27. The sort keys [dueDate] and [completed] order the whole page:
    with [sortBy=dueDate] every todo with no due date comes before every
    dated todo, and the dated ones come by ascending due date; with
    [sortBy=completed] no completed todo comes before a pending one. *)
Theorem due_date_and_completed_sorts (P : Platform) (caller : ObjectId)
    (f : Filters.t) (db : Todos) (r : ListResult.t) :
  getUserTodos P caller f db = Returns r ->
  (Filters.sortBy f = Some "dueDate" ->
   StronglySorted dueOrder (ListResult.todos r))
  /\ (Filters.sortBy f = Some "completed" ->
      StronglySorted pendingFirst (ListResult.todos r)).
Proof.
  intros H. apply getUserTodos_returns in H.
  destruct H as (q & found & todos & _ & _ & Hp & ->). simpl.
  apply pageOf_shape in Hp. destruct Hp as (_ & k & -> & _).
  split; intros Hs; rewrite Hs; unfold sortOf; simpl;
    [apply Sorted_map_rel with (R := notAfter [(ByDueDate, 1); (ByCreatedAt, -1)])
    |apply Sorted_map_rel with (R := notAfter [(ByCompleted, 1); (ByCreatedAt, -1)])];
    auto using notAfter_dueOrder, dueOrder_trans, notAfter_pendingFirst,
      pendingFirst_trans;
    apply Sorted_firstn, Sorted_skipn, sortDocs_sorted_perm.
Qed.

Lemma due_date_and_completed_sorts_witness :
  exists r,
    getUserTodos Sample.platform "u1" (Sample.sortedBy "dueDate")
      Sample2.todos = Returns r
    /\ map Todo._id (ListResult.todos r) = ["d2"; "d3"; "d1"; "d4"]
    /\ StronglySorted dueOrder (ListResult.todos r).
Proof.
  eexists. split; [reflexivity|]. split; [reflexivity|].
  apply (due_date_and_completed_sorts Sample.platform "u1"
           (Sample.sortedBy "dueDate") Sample2.todos); reflexivity.
Defined.
